(** * pairtools dedup: a shallow embedding of the duplicate-detection core

    Two source files are embedded:
    - [src/pairtools/lib/dedup.py]      (module [lib_dedup] below),
    - [src/pairtools/pairtools_dedup.py] (module [pairtools_dedup] below).

    Data frames are lists of rows, in row order.  Exceptions are values of
    [result]; output streams and the statistics sink are an event trace. *)

From Stdlib Require Import String Ascii.
From Stdlib Require Import DecimalString.
From Stdlib Require Import List ZArith Bool Lia Arith Permutation.
Import ListNotations.

Local Open Scope list_scope.

(* ================================================================== *)
(** * Exceptions *)

Inductive exn : Type :=
| ValueError
| KeyError
| IndexError
| UnboundLocalError
| OverflowError
| ZeroDivisionError.

Inductive result (A : Type) : Type :=
| Ok (a : A)
| Raise (e : exn).

Arguments Ok {A} a.
Arguments Raise {A} e.

Definition rbind {A B : Type} (m : result A) (k : A -> result B) : result B :=
  match m with
  | Ok a => k a
  | Raise e => Raise e
  end.

Declare Scope result_scope.
Delimit Scope result_scope with result.
Notation "x <- m ;; k" := (rbind m (fun x => k))
  (at level 61, m at next level, right associativity) : result_scope.
Local Open Scope result_scope.

(* ================================================================== *)
(** * Records of a pairs file *)

(** A cell of a frame: text or integer. *)
Inductive cell : Type :=
| Str (s : string)
| Int (z : Z).

Definition cell_eqb (a b : cell) : bool :=
  match a, b with
  | Str s, Str t => String.eqb s t
  | Int x, Int y => Z.eqb x y
  | _, _ => false
  end.

(** One line of the body: the eight required columns and, by name, the
    further columns of the file ([colnames]). *)
Record pair : Type := mk_pair {
  readID : string;
  chrom1 : string;
  pos1 : Z;
  chrom2 : string;
  pos2 : Z;
  strand1 : string;
  strand2 : string;
  pair_type : string;
  extra_cols : list (string * cell)
}.

Definition set_pair_type (t : string) (x : pair) : pair :=
  mk_pair (readID x) (chrom1 x) (pos1 x) (chrom2 x) (pos2 x)
          (strand1 x) (strand2 x) t (extra_cols x).

Fixpoint assoc {V : Type} (k : string) (l : list (string * V)) : option V :=
  match l with
  | [] => None
  | (k', v) :: l' => if String.eqb k k' then Some v else assoc k l'
  end.

(** [df[name]] on one row.  The bookkeeping columns ([index], [clusterid],
    [duplicate]) are not offered here. *)
Definition column (name : string) (x : pair) : option cell :=
  if String.eqb name "readID" then Some (Str (readID x))
  else if String.eqb name "chrom1" then Some (Str (chrom1 x))
  else if String.eqb name "pos1" then Some (Int (pos1 x))
  else if String.eqb name "chrom2" then Some (Str (chrom2 x))
  else if String.eqb name "pos2" then Some (Int (pos2 x))
  else if String.eqb name "strand1" then Some (Str (strand1 x))
  else if String.eqb name "strand2" then Some (Str (strand2 x))
  else if String.eqb name "pair_type" then Some (Str (pair_type x))
  else assoc name (extra_cols x).

Definition is_some {A : Type} (o : option A) : bool :=
  match o with Some _ => true | None => false end.

(** [df.columns.get_loc(name)]: [KeyError] when the frame lacks the column. *)
Definition get_loc (df : list pair) (name : string) : result string :=
  if forallb (fun x => is_some (column name x)) df then Ok name
  else Raise KeyError.

Definition value (name : string) (x : pair) : cell :=
  match column name x with
  | Some c => c
  | None => Str ""
  end.

Definition dummy_pair : pair := mk_pair "" "" 0 "" 0 "" "" "" [].

(* ================================================================== *)
(** * pandas helpers *)

(** [df.tail(n)] *)
Definition tail {A : Type} (n : nat) (l : list A) : list A :=
  skipn (length l - n) l.

(** [df.iloc[-i:]] : for [i = 0] the slice [[-0:]] is the whole frame. *)
Definition iloc_last {A : Type} (i : nat) (l : list A) : list A :=
  if Nat.eqb i 0 then l else skipn (length l - i) l.

(** [s.duplicated()] with [keep='first']. *)
Fixpoint duplicated_from (seen : list nat) (l : list nat) : list bool :=
  match l with
  | [] => []
  | c :: l' => existsb (Nat.eqb c) seen :: duplicated_from (c :: seen) l'
  end.

Definition duplicated (l : list nat) : list bool := duplicated_from [] l.

(** Chunked reading, [pd.read_table(..., chunksize=n)]: consecutive frames of
    [n] rows, the last one shorter; no frame for an empty body. *)
Fixpoint chunks_fuel {A : Type} (fuel n : nat) (l : list A) : list (list A) :=
  match fuel with
  | O => []
  | S fuel' =>
      match l with
      | [] => []
      | _ :: _ => firstn n l :: chunks_fuel fuel' n (skipn n l)
      end
  end.

Definition read_table {A : Type} (chunksize : nat) (body : list A)
  : result (list (list A)) :=
  if Nat.eqb chunksize 0 then Raise ValueError
  else Ok (chunks_fuel (length body) chunksize body).

(* ================================================================== *)
(** * The neighbour query and the component labelling (SciPy, scikit-learn) *)

Inductive norm : Type := p_1 | p_inf.

(** Minkowski distance of two points of the (pos1, pos2) plane. *)
Definition minkowski (p : norm) (a b : Z * Z) : Z :=
  match p with
  | p_1 => Z.abs (fst a - fst b) + Z.abs (snd a - snd b)
  | p_inf => Z.max (Z.abs (fst a - fst b)) (Z.abs (snd a - snd b))
  end.

Definition all_index_pairs (n : nat) : list (nat * nat) :=
  list_prod (seq 0 n) (seq 0 n).

(** [cKDTree(pts).query_pairs(r, p)]: the pairs [(i, j)], [i < j], of points
    at distance at most [r]. *)
Definition query_pairs (pts : list (Z * Z)) (r : Z) (p : norm)
  : list (nat * nat) :=
  filter (fun ij => Nat.ltb (fst ij) (snd ij)
                    && Z.leb (minkowski p (nth (fst ij) pts (0, 0)%Z)
                                          (nth (snd ij) pts (0, 0)%Z)) r)
         (all_index_pairs (length pts)).

(** [radius_neighbors_graph(pts, radius=r, p=p).nonzero()]: every ordered
    pair of distinct points at distance at most [r]. *)
Definition radius_neighbors (pts : list (Z * Z)) (r : Z) (p : norm)
  : list (nat * nat) :=
  filter (fun ij => negb (Nat.eqb (fst ij) (snd ij))
                    && Z.leb (minkowski p (nth (fst ij) pts (0, 0)%Z)
                                          (nth (snd ij) pts (0, 0)%Z)) r)
         (all_index_pairs (length pts)).

(** The label of vertex [i] in a labelling. *)
Definition label (ls : list nat) (i : nat) : nat := nth i ls i.

(** Joining the classes of [a] and [b]. *)
Definition merge (ls : list nat) (e : nat * nat) : list nat :=
  let la := label ls (fst e) in
  let lb := label ls (snd e) in
  map (fun l => if Nat.eqb l lb then la else l) ls.

(** [connected_components(coo_matrix(edges, shape=(N, N)), directed=False)[1]]:
    one label per vertex, equal labels exactly inside a component.  SciPy
    numbers the components; the callers only compare labels. *)
Definition connected_components (N : nat) (edges : list (nat * nat)) : list nat :=
  fold_left merge edges (seq 0 N).

(** Vertices joined by a chain of edges, read in either direction. *)
Inductive connected (E : list (nat * nat)) : nat -> nat -> Prop :=
| connected_refl : forall i, connected E i i
| connected_edge : forall i j, In (i, j) E -> connected E i j
| connected_sym : forall i j, connected E i j -> connected E j i
| connected_trans : forall i j k,
    connected E i j -> connected E j k -> connected E i k.

(* ================================================================== *)
(** * What both batch implementations share *)

Definition points (df : list pair) : list (Z * Z) :=
  map (fun x => (pos1 x, pos2 x)) df.

Definition is_unmapped (unmapped_chrom : string) (x : pair) : bool :=
  String.eqb (chrom1 x) unmapped_chrom || String.eqb (chrom2 x) unmapped_chrom.

(** The candidate pairs [(a0, a1)] of the chosen backend. *)
Definition candidates (backend : string) (df : list pair) (r : Z) (p : norm)
  : result (list (nat * nat)) :=
  if String.eqb backend "sklearn" then Ok (radius_neighbors (points df) r p)
  else if String.eqb backend "scipy" then Ok (query_pairs (points df) r p)
  else Raise UnboundLocalError.

Definition need_to_match (extra_col_pairs : list (string * string))
  : list (string * string) :=
  [("chrom1", "chrom1"); ("chrom2", "chrom2");
   ("strand1", "strand1"); ("strand2", "strand2")]%string ++ extra_col_pairs.

Fixpoint get_locs (df : list pair) (need : list (string * string))
  : result unit :=
  match need with
  | [] => Ok tt
  | (lc, rc) :: need' =>
      _ <- get_loc df lc ;;
      _ <- get_loc df rc ;;
      get_locs df need'
  end.

(** One entry of [nonpos_matches]: column [lc] of row [a0] against column
    [rc] of row [a1], for every [(lc, rc)] of [need_to_match]. *)
Definition nonpos_match (need : list (string * string)) (x0 x1 : pair) : bool :=
  forallb (fun lr => cell_eqb (value (fst lr) x0) (value (snd lr) x1)) need.

Definition nonpos_matches (df : list pair) (a : list (nat * nat))
  (need : list (string * string)) : result (list bool) :=
  _ <- get_locs df need ;;
  Ok (map (fun ij => nonpos_match need (nth (fst ij) df dummy_pair)
                                       (nth (snd ij) df dummy_pair)) a).

Fixpoint select {A : Type} (mask : list bool) (l : list A) : list A :=
  match mask, l with
  | b :: mask', x :: l' => if b then x :: select mask' l' else select mask' l'
  | _, _ => []
  end.

(** The filtered candidate pairs, the edges of the graph: [a0[nonpos_matches]],
    [a1[nonpos_matches]]. *)
Definition graph_edges (backend : string) (df : list pair) (r : Z) (p : norm)
  (extra_col_pairs : list (string * string)) : result (list (nat * nat)) :=
  a <- candidates backend df r p ;;
  m <- nonpos_matches df a (need_to_match extra_col_pairs) ;;
  Ok (select m a).

(** The [clusterid] column of the mapped rows. *)
Definition clusterid_column (backend : string) (df : list pair) (r : Z)
  (p : norm) (extra_col_pairs : list (string * string)) : result (list nat) :=
  if Nat.ltb 0 (length df) then
    e <- graph_edges backend df r p extra_col_pairs ;;
    Ok (connected_components (length df) e)
  else Ok [].

(** The [parent_readID] cell. *)
Inductive parent_cell : Type :=
| no_column
| NaN
| parent (s : string).

Fixpoint lookup_cluster (c : nat) (t : list (nat * string)) : parent_cell :=
  match t with
  | [] => NaN
  | (c', s) :: t' => if Nat.eqb c c' then parent s else lookup_cluster c t'
  end.

(** [df[~dups].set_index("clusterid")["readID"]] *)
Definition parent_table (df : list pair) (clusterid : list nat)
  (dups : list bool) : list (nat * string) :=
  select (map negb dups) (combine clusterid (map readID df)).

(** A row of a marked frame. *)
Record row : Type := mk_row {
  index : nat;
  data : pair;
  duplicate : bool;
  parent_readID : parent_cell
}.

Definition method_norm (method : string) : result norm :=
  if String.eqb method "max" then Ok p_inf
  else if String.eqb method "sum" then Ok p_1
  else Raise ValueError.

(** [df.reset_index()]: the index becomes a column. *)
Definition reset_index (df : list pair) : list (nat * pair) :=
  combine (seq 0 (length df)) df.

(** The marked mapped rows. *)
Definition mark_mapped (keep_parent_id : bool) (df_mapped : list (nat * pair))
  (clusterid : list nat) : list row :=
  let mask_dups := duplicated clusterid in
  let table := parent_table (map snd df_mapped) clusterid mask_dups in
  map (fun t => mk_row (fst (fst (fst t))) (snd (fst (fst t))) (snd t)
                 (if keep_parent_id then lookup_cluster (snd (fst t)) table
                  else no_column))
      (combine (combine df_mapped clusterid) mask_dups).

Definition mark_unmapped (keep_parent_id : bool) (df_unmapped : list (nat * pair))
  : list row :=
  map (fun t => mk_row (fst t) (snd t) false
                 (if keep_parent_id then parent "" else no_column))
      df_unmapped.

(* ================================================================== *)
(** * Output streams and the statistics sink *)

Inductive sink : Type := unique_sink | dups_sink | unmapped_sink.

Definition sink_eqb (a b : sink) : bool :=
  match a, b with
  | unique_sink, unique_sink => true
  | dups_sink, dups_sink => true
  | unmapped_sink, unmapped_sink => true
  | _, _ => false
  end.

(** A line written by [to_csv]: the columns [colnames] and, on the duplicates
    stream, [parent_readID] when the frame still has it. *)
Record csv_row : Type := mk_csv {
  csv_data : pair;
  csv_parent : parent_cell
}.

Inductive event : Type :=
| to_csv (s : sink) (rows : list csv_row)
| write (s : sink) (text : string)
| add_pair (c1 : string) (p1 : Z) (s1 : string)
           (c2 : string) (p2 : Z) (s2 : string) (type_tag : string)
| add_pairs_from_dataframe (df : list row) (unmapped_chrom : string).

(** The records a trace puts on one stream. *)
Fixpoint written (s : sink) (tr : list event) : list csv_row :=
  match tr with
  | [] => []
  | to_csv s' rows :: tr' =>
      if sink_eqb s s' then rows ++ written s tr' else written s tr'
  | _ :: tr' => written s tr'
  end.

Definition records (s : sink) (tr : list event) : list pair :=
  map csv_data (written s tr).

(** [df.reset_index(drop=True)] on a marked frame. *)
Definition relabel (df : list row) : list row :=
  map (fun t => mk_row (fst t) (data (snd t)) (duplicate (snd t))
                       (parent_readID (snd t)))
      (combine (seq 0 (length df)) df).

(** [df.loc[mask_duplicated, "pair_type"] = "DD"] *)
Definition mark_DD (x : row) : row :=
  if duplicate x
  then mk_row (index x) (set_pair_type "DD" (data x)) true (parent_readID x)
  else x.

Definition is_mapped (unmapped_chrom : string) (x : pair) : bool :=
  negb (String.eqb (chrom1 x) unmapped_chrom)
  && negb (String.eqb (chrom2 x) unmapped_chrom).

Definition keep_parent_column (x : row) : csv_row :=
  mk_csv (data x) (parent_readID x).

Definition drop_parent_column (x : row) : csv_row :=
  mk_csv (data x) no_column.

Definition shape0 (frames : list (list row)) : nat :=
  fold_left (fun N chunk => N + length chunk) frames 0.

(* ================================================================== *)
(** * Python strings and lists *)

(** ASCII white space, what [str.strip()] and [int()] remove. *)
Definition is_space (c : ascii) : bool :=
  let n := nat_of_ascii c in
  ((9 <=? n) && (n <=? 13)) || ((28 <=? n) && (n <=? 32)).

Definition newline : ascii := ascii_of_nat 10.

Fixpoint lstrip_list (f : ascii -> bool) (s : list ascii) : list ascii :=
  match s with
  | [] => []
  | c :: s' => if f c then lstrip_list f s' else s
  end.

Definition strip_with (f : ascii -> bool) (s : string) : string :=
  string_of_list_ascii
    (rev (lstrip_list f (rev (lstrip_list f (list_ascii_of_string s))))).

(** [s.strip()] *)
Definition strip (s : string) : string := strip_with is_space s.

(** [s.strip('\n')] *)
Definition strip_newline (s : string) : string :=
  strip_with (Ascii.eqb newline) s.

Fixpoint prefixb (p s : list ascii) : bool :=
  match p, s with
  | [], _ => true
  | a :: p', b :: s' => Ascii.eqb a b && prefixb p' s'
  | _ :: _, [] => false
  end.

Fixpoint split_go (sep : list ascii) (skip : nat) (cur : list ascii)
  (s : list ascii) : list string :=
  match s with
  | [] => [string_of_list_ascii (rev cur)]
  | c :: s' =>
      match skip with
      | S k => split_go sep k cur s'
      | O =>
          if prefixb sep s
          then string_of_list_ascii (rev cur)
               :: split_go sep (length sep - 1) [] s'
          else split_go sep 0 (c :: cur) s'
      end
  end.

(** [s.split(sep)]: an empty separator is a [ValueError]. *)
Definition split (s sep : string) : result (list string) :=
  match list_ascii_of_string sep with
  | [] => Raise ValueError
  | sep' => Ok (split_go sep' 0 [] (list_ascii_of_string s))
  end.

(** [sep.join(l)] *)
Definition join (sep : string) (l : list string) : string :=
  String.concat sep l.

(** [s.startswith(p)], [s.endswith(p)] *)
Definition startswith (s p : string) : bool :=
  prefixb (list_ascii_of_string p) (list_ascii_of_string s).

Definition endswith (s p : string) : bool :=
  prefixb (rev (list_ascii_of_string p)) (rev (list_ascii_of_string s)).

Definition digit_of (c : ascii) : option Z :=
  let n := nat_of_ascii c in
  if (48 <=? n) && (n <=? 57) then Some (Z.of_nat (n - 48)) else None.

(** Decimal digits, single underscores allowed between two digits. *)
Fixpoint digits (acc : Z) (after_digit : bool) (s : list ascii) : option Z :=
  match s with
  | [] => if after_digit then Some acc else None
  | c :: s' =>
      if Ascii.eqb c "_"
      then (if after_digit then digits acc false s' else None)
      else match digit_of c with
           | Some d => digits (10 * acc + d) true s'
           | None => None
           end
  end.

(** [int(s)] on ASCII text: white space around, an optional sign, decimal
    digits.  [None] stands for the [ValueError]. *)
Definition parse_int (s : string) : option Z :=
  match list_ascii_of_string (strip s) with
  | [] => None
  | c :: s' =>
      if Ascii.eqb c "-" then option_map Z.opp (digits 0 false s')
      else if Ascii.eqb c "+" then digits 0 false s'
      else digits 0 false (c :: s')
  end.

Definition int (s : string) : result Z :=
  match parse_int s with
  | Some z => Ok z
  | None => Raise ValueError
  end.

(** [str(z)] *)
Definition str (z : Z) : string := NilZero.string_of_int (Z.to_int z).

(** [l[k]] for [k >= 0] *)
Definition getitem {A : Type} (l : list A) (k : nat) : result A :=
  match nth_error l k with
  | Some x => Ok x
  | None => Raise IndexError
  end.

(** [l[k]] for any integer [k]: a negative index counts from the end. *)
Definition getitem_Z {A : Type} (l : list A) (k : Z) : result A :=
  if (0 <=? k)%Z then getitem l (Z.to_nat k)
  else if (- Z.of_nat (length l) <=? k)%Z
       then getitem l (Z.to_nat (Z.of_nat (length l) + k))
       else Raise IndexError.

Fixpoint update {A : Type} (l : list A) (k : nat) (x : A) : list A :=
  match l, k with
  | [], _ => []
  | _ :: l', O => x :: l'
  | y :: l', S k' => y :: update l' k' x
  end.

(** [l[k] = x] for [k >= 0] *)
Definition setitem {A : Type} (l : list A) (k : nat) (x : A) : result (list A) :=
  if k <? length l then Ok (update l k x) else Raise IndexError.

Definition list_max_nat (l : list nat) : nat := fold_right Nat.max 0 l.

(** [np.array(mylist, dtype=np.int32)]: NumPy refuses a Python integer
    outside the type. *)
Definition int32 (z : Z) : result Z :=
  if ((- 2147483648 <=? z) && (z <=? 2147483647))%Z then Ok z
  else Raise OverflowError.

Fixpoint ar32 (mylist : list Z) : result (list Z) :=
  match mylist with
  | [] => Ok []
  | z :: l =>
      z' <- int32 z ;;
      l' <- ar32 l ;;
      Ok (z' :: l')
  end.

(** Effects of the online driver: what was written and reported, then the
    value or the exception. *)
Definition io (A : Type) : Type := (list event * result A)%type.

Definition io_ret {A : Type} (a : A) : io A := ([], Ok a).

Definition io_bind {A B : Type} (m : io A) (k : A -> io B) : io B :=
  match m with
  | (tr, Ok a) => match k a with (tr', r) => (tr ++ tr', r) end
  | (tr, Raise e) => (tr, Raise e)
  end.

Definition emit (e : event) : io unit := ([e], Ok tt).

Definition lift {A : Type} (r : result A) : io A := ([], r).

Declare Scope io_scope.
Delimit Scope io_scope with io.
Notation "x <-- m ;; k" := (io_bind m (fun x => k))
  (at level 61, m at next level, right associativity) : io_scope.

(** The constants of [pairsam_format], a module outside the embedded
    files. *)
Record pairsam_format : Type := mk_format {
  COL_PTYPE : nat;
  COL_SAM1 : nat;
  COL_SAM2 : nat;
  INTER_SAM_SEP : string;
  SAM_SEP : string
}.

(** The interface of [dedup_cython.OnlineDuplicateDetector], a class outside
    the embedded files: its state, the constructor, [push], [finish] and
    [getLen].  [push] and [finish] return the duplicate marks and the parent
    indices of the records they release. *)
Record OnlineDuplicateDetector : Type := mk_detector {
  dd_state : Type;
  dd_new : string -> Z -> bool -> dd_state;
  push : dd_state -> list Z -> list Z -> list Z -> list Z -> list Z -> list Z
         -> dd_state * (list bool * list Z);
  finish : dd_state -> dd_state * (list bool * list Z);
  getLen : dd_state -> nat
}.

(* ================================================================== *)
(** * src/pairtools/lib/dedup.py *)

Module lib_dedup.

Definition _dedup_chunk (df : list pair) (r : Z) (method : string)
  (keep_parent_id : bool) (extra_col_pairs : list (string * string))
  (backend : string) (unmapped_chrom : string) : result (list row) :=
  p <- method_norm method ;;
  let df := reset_index df in
  let df_unmapped :=
    filter (fun t => is_unmapped unmapped_chrom (snd t)) df in
  let df_mapped :=
    filter (fun t => negb (is_unmapped unmapped_chrom (snd t))) df in
  clusterid <-
    clusterid_column backend (map snd df_mapped) r p extra_col_pairs ;;
  (* pd.concat([df_unmapped, df_mapped]), then the old index put back *)
  Ok (mark_unmapped keep_parent_id df_unmapped
      ++ mark_mapped keep_parent_id df_mapped clusterid).

Fixpoint position (k : nat) (ix : list nat) : option nat :=
  match ix with
  | [] => None
  | i :: ix' =>
      if Nat.eqb i k then Some 0
      else match position k ix' with
           | Some n => Some (S n)
           | None => None
           end
  end.

Fixpoint increasing (ix : list nat) : bool :=
  match ix with
  | a :: (b :: _) as t => Nat.leb a b && increasing t
  | _ => true
  end.

Fixpoint decreasing (ix : list nat) : bool :=
  match ix with
  | a :: (b :: _) as t => Nat.leb b a && decreasing t
  | _ => true
  end.

(** [df.loc[k:, :]], a slice by label: from the row labelled [k] to the last
    row.  An absent label is searched in a monotonic index and is a
    [KeyError] otherwise. *)
Definition loc_from (k : nat) (df : list row) : result (list row) :=
  match position k (map index df) with
  | Some n => Ok (skipn n df)
  | None =>
      if increasing (map index df)
      then Ok (filter (fun x => Nat.leb k (index x)) df)
      else if decreasing (map index df)
      then Ok (filter (fun x => Nat.leb (index x) k) df)
      else Raise KeyError
  end.

Section batch.

Variables (method : string) (carryover : nat) (mark_dups : bool)
  (max_mismatch : Z) (extra_col_pairs : list (string * string))
  (keep_parent_id : bool) (backend : string).

(** The body of the loop of [_dedup_stream]: the frame it yields and the new
    carryover. *)
Definition _dedup_stream_step (df_prev_nodups : list pair) (prev_i : nat)
  (df : list pair) : result (list row * list pair) :=
  df_marked <- _dedup_chunk (df_prev_nodups ++ df) max_mismatch method
                 keep_parent_id extra_col_pairs backend "!" ;;
  df_marked <- loc_from prev_i df_marked ;;
  let df_marked := relabel df_marked in
  let df_marked := if mark_dups then map mark_DD df_marked else df_marked in
  let df_nodups :=
    map data (filter (fun x => negb (duplicate x)) df_marked) in
  Ok (df_marked, tail carryover df_nodups).

(** The generator: the frames yielded, and how the iteration ends. *)
Fixpoint _dedup_stream_loop (dfs : list (list pair))
  (df_prev_nodups : list pair) (prev_i : nat)
  : list (list row) * result unit :=
  match dfs with
  | [] => ([], Ok tt)
  | df :: dfs' =>
      match _dedup_stream_step df_prev_nodups prev_i df with
      | Raise e => ([], Raise e)
      | Ok (df_marked, df_prev_nodups') =>
          let rest :=
            _dedup_stream_loop dfs' df_prev_nodups' (length df_prev_nodups') in
          (df_marked :: fst rest, snd rest)
      end
  end.

Definition _dedup_stream (in_stream : list pair) (chunksize : nat)
  : list (list row) * result unit :=
  match read_table chunksize in_stream with
  | Raise e => ([], Raise e)
  | Ok dfs => _dedup_stream_loop dfs [] 0
  end.

Variables (unmapped_chrom : string)
  (outstream_dups outstream_unmapped out_stat : bool).

(** The body of the loop of [streaming_dedup] on one frame. *)
Definition write_chunk (df_chunk : list row) : list event :=
  let mask_mapped := fun x : row => is_mapped unmapped_chrom (data x) in
  (if out_stat then [add_pairs_from_dataframe df_chunk unmapped_chrom] else [])
  ++ (if outstream_dups
      then [to_csv dups_sink
              (map keep_parent_column
                 (filter (fun x => mask_mapped x && duplicate x) df_chunk))]
      else [])
  ++ (if outstream_unmapped
      then [to_csv unmapped_sink
              (map drop_parent_column
                 (filter (fun x => negb (mask_mapped x)) df_chunk))]
      else [])
  ++ [to_csv unique_sink
        (map drop_parent_column
           (filter (fun x => mask_mapped x && negb (duplicate x)) df_chunk))].

(** [streaming_dedup]: what is written, and how the call ends.  The closing
    log lines are guarded by [if N > 0] and raise nothing. *)
Definition streaming_dedup (in_stream : list pair) (chunksize : nat)
  : list event * result unit :=
  let deduped_chunks := _dedup_stream in_stream chunksize in
  (flat_map write_chunk (fst deduped_chunks), snd deduped_chunks).

End batch.

(** ** The online driver *)

(** you don't need to load more than 10k lines at a time *)
Definition MAX_LEN : nat := 10000.

Definition fetchadd (key : string) (mydict : list (string * Z))
  : Z * list (string * Z) :=
  let key := strip key in
  match assoc key mydict with
  | Some v => (v, mydict)
  | None =>
      let v := Z.of_nat (length mydict) in
      (v, mydict ++ [(key, v)])
  end.

Section markasdup.

Variable fmt : pairsam_format.

Fixpoint mark_tags (j : nat) (samcols : list string) : list string :=
  match samcols with
  | [] => []
  | c :: samcols' =>
      (if (11 <=? j) && startswith c "Yt:Z:" then "Yt:Z:DD"%string else c)
      :: mark_tags (S j) samcols'
  end.

Definition mark_sam_as_dup (sam : string) : result string :=
  samcols <- split sam (SAM_SEP fmt) ;;
  if length samcols =? 1 then Ok sam
  else
    f <- getitem samcols 1 ;;
    flag <- int f ;;
    samcols <- setitem samcols 1 (str (Z.lor flag 1024)) ;;
    Ok (join (SAM_SEP fmt) (mark_tags 0 samcols)).

Fixpoint mark_sams (sams : list string) : result (list string) :=
  match sams with
  | [] => Ok []
  | sam :: sams' =>
      s <- mark_sam_as_dup sam ;;
      l <- mark_sams sams' ;;
      Ok (s :: l)
  end.

Definition mark_sam_column (cols : list string) (i : nat)
  : result (list string) :=
  c <- getitem cols i ;;
  sams <- split c (INTER_SAM_SEP fmt) ;;
  marked <- mark_sams sams ;;
  setitem cols i (join (INTER_SAM_SEP fmt) marked).

Definition mark_split_pair_as_dup (cols : list string)
  : result (list string) :=
  last <- getitem_Z cols (-1) ;;
  let original_has_newline := endswith last (String newline "") in
  cols <- setitem cols (COL_PTYPE fmt) "DD"%string ;;
  cols <- (if (COL_SAM1 fmt <? length cols) && (COL_SAM2 fmt <? length cols)
           then
             cols <- mark_sam_column cols (COL_SAM1 fmt) ;;
             mark_sam_column cols (COL_SAM2 fmt)
           else Ok cols) ;;
  last <- getitem_Z cols (-1) ;;
  if original_has_newline && negb (endswith last (String newline ""))
  then setitem cols (length cols - 1) (last ++ String newline "")%string
  else Ok cols.

End markasdup.

Section online.

Local Open Scope io_scope.

Variable fmt : pairsam_format.
Variable D : OnlineDuplicateDetector.

Variables (method : string) (max_mismatch : Z) (sep : string)
  (c1ind c2ind p1ind p2ind s1ind s2ind : nat)
  (extra_cols1 extra_cols2 : list nat) (unmapped_chrom : string)
  (outstream_dups outstream_unmapped out_stat mark_dups keep_parent_id : bool)
  (readid_ind : nat).

Definition nonempty {A : Type} (l : list A) : bool :=
  match l with [] => false | _ :: _ => true end.

Definition ptind : nat := COL_PTYPE fmt.

Definition maxind : nat :=
  let m := list_max_nat [c1ind; c2ind; p1ind; p2ind; s1ind; s2ind] in
  let m := if nonempty extra_cols1 && nonempty extra_cols2
           then Nat.max m (Nat.max (list_max_nat extra_cols1)
                                   (list_max_nat extra_cols2))
           else m in
  if out_stat then Nat.max m ptind else m.

Definition all_scols1 : list nat := s1ind :: extra_cols1.
Definition all_scols2 : list nat := s2ind :: extra_cols2.

(** The local variables of [streaming_dedup_cython]. *)
Record state : Type := mk_state {
  c1 : list Z;
  c2 : list Z;
  p1 : list Z;
  p2 : list Z;
  s1 : list Z;
  s2 : list Z;
  idx : list nat;
  line_buffer : list string;
  cols_buffer : list (list string);
  chromDict : list (string * Z);
  strandDict : list (string * Z);
  dd : dd_state D;
  N_lines : nat;
  read_idx : nat
}.

Definition initial : state :=
  mk_state [] [] [] [] [] [] [] [] [] [] []
           (dd_new D method max_mismatch keep_parent_id) 0 0.

Definition curMaxLen : nat := Nat.max MAX_LEN (getLen D (dd initial)).

Fixpoint getitems (cols : list string) (l : list nat) : result (list string) :=
  match l with
  | [] => Ok []
  | i :: l' =>
      c <- getitem cols i ;;
      cs <- getitems cols l' ;;
      Ok (c :: cs)
  end.

(** One call of [out_stat.add_pair] on the columns [cols]; the last argument
    is either the pair-type column or the text [tag]. *)
Definition report (cols : list string) (tag : option string) : io unit :=
  a1 <-- lift (getitem cols c1ind) ;;
  a2 <-- lift (f <- getitem cols p1ind ;; int f) ;;
  a3 <-- lift (getitem cols s1ind) ;;
  a4 <-- lift (getitem cols c2ind) ;;
  a5 <-- lift (f <- getitem cols p2ind ;; int f) ;;
  a6 <-- lift (getitem cols s2ind) ;;
  a7 <-- lift (match tag with
               | Some t => Ok t
               | None => getitem cols ptind
               end) ;;
  emit (add_pair a1 a2 a3 a4 a5 a6 a7).

(** The branch of a line with an unmapped side. *)
Definition unmapped_line (stripline : string) (cols : list string) : io unit :=
  _ <-- (if outstream_unmapped
         then _ <-- emit (write unmapped_sink stripline) ;;
              emit (write unmapped_sink (String newline ""))
         else io_ret tt) ;;
  if out_stat then report cols None else io_ret tt.

(** The branch of a mapped line: the buffers after the appends. *)
Definition mapped_line (st : state) (stripline : string) (cols : list string)
  : result state :=
  k1 <- getitem cols c1ind ;;
  let (v1, chromDict1) := fetchadd k1 (chromDict st) in
  k2 <- getitem cols c2ind ;;
  let (v2, chromDict2) := fetchadd k2 chromDict1 in
  f1 <- getitem cols p1ind ;;
  z1 <- int f1 ;;
  f2 <- getitem cols p2ind ;;
  z2 <- int f2 ;;
  keys <- (if nonempty extra_cols1 && nonempty extra_cols2
           then
             l1 <- getitems cols all_scols1 ;;
             l2 <- getitems cols all_scols2 ;;
             Ok (join "" l1, join "" l2)
           else
             k1 <- getitem cols s1ind ;;
             k2 <- getitem cols s2ind ;;
             Ok (k1, k2)) ;;
  let (w1, strandDict1) := fetchadd (fst keys) (strandDict st) in
  let (w2, strandDict2) := fetchadd (snd keys) strandDict1 in
  Ok (mk_state (c1 st ++ [v1]) (c2 st ++ [v2]) (p1 st ++ [z1]) (p2 st ++ [z2])
               (s1 st ++ [w1]) (s2 st ++ [w2]) (idx st ++ [read_idx st])
               (line_buffer st ++ [stripline]) (cols_buffer st ++ [cols])
               chromDict2 strandDict2 (dd st) (N_lines st) (S (read_idx st))).

(** The body of [for i in range(len(res))] for one [i]; it returns
    [cols_buffer], which [mark_split_pair_as_dup] changes in place. *)
Definition emit_one (i : nat) (dup : bool) (parents : list Z)
  (line_buffer : list string) (cols_buffer : list (list string))
  : io (list (list string)) :=
  if negb dup then
    line <-- lift (getitem line_buffer i) ;;
    _ <-- emit (write unique_sink line) ;;
    _ <-- emit (write unique_sink (String newline "")) ;;
    _ <-- (if out_stat
           then cols <-- lift (getitem cols_buffer i) ;; report cols None
           else io_ret tt) ;;
    io_ret cols_buffer
  else
    _ <-- (if out_stat
           then cols <-- lift (getitem cols_buffer i) ;;
                report cols (Some "DD"%string)
           else io_ret tt) ;;
    if outstream_dups then
      oc <-- lift (if mark_dups
                   then
                     cols <- getitem cols_buffer i ;;
                     cols <- mark_split_pair_as_dup fmt cols ;;
                     Ok (join sep cols, update cols_buffer i cols)
                   else
                     line <- getitem line_buffer i ;;
                     Ok (line, cols_buffer)) ;;
      output <-- lift (if keep_parent_id
                       then
                         p <- getitem parents i ;;
                         line <- getitem_Z line_buffer p ;;
                         fields <- split line sep ;;
                         parent_readID <- getitem fields readid_ind ;;
                         Ok (join sep [fst oc; parent_readID])
                       else Ok (fst oc)) ;;
      _ <-- emit (write dups_sink output) ;;
      _ <-- emit (write dups_sink (String newline "")) ;;
      io_ret (snd oc)
    else io_ret cols_buffer.

Fixpoint emit_all (i : nat) (res : list bool) (parents : list Z)
  (line_buffer : list string) (cols_buffer : list (list string))
  : io (list (list string)) :=
  match res with
  | [] => io_ret cols_buffer
  | dup :: res' =>
      cols_buffer <-- emit_one i dup parents line_buffer cols_buffer ;;
      emit_all (S i) res' parents line_buffer cols_buffer
  end.

(** The block under [if (not stripline) or (len(c1) == curMaxLen)]; with
    [at_end] the stream is exhausted and the block ends in [break]. *)
Definition flush (at_end : bool) (st : state) : io state :=
  a1 <-- lift (ar32 (c1 st)) ;;
  a2 <-- lift (ar32 (c2 st)) ;;
  a3 <-- lift (ar32 (p1 st)) ;;
  a4 <-- lift (ar32 (p2 st)) ;;
  a5 <-- lift (ar32 (s1 st)) ;;
  a6 <-- lift (ar32 (s2 st)) ;;
  let pushed := push D (dd st) a1 a2 a3 a4 a5 a6 in
  let finished := finish D (fst pushed) in
  let dd' := if at_end then fst finished else fst pushed in
  let res := if at_end then fst (snd pushed) ++ fst (snd finished)
             else fst (snd pushed) in
  let parents := if at_end then snd (snd pushed) ++ snd (snd finished)
                 else snd (snd pushed) in
  cols_buffer' <-- emit_all 0 res parents (line_buffer st) (cols_buffer st) ;;
  let line_buffer' := skipn (length res) (line_buffer st) in
  let cols_buffer' := skipn (length res) cols_buffer' in
  _ <-- lift (if at_end && negb (length line_buffer' =? 0)
              then Raise ValueError else Ok tt) ;;
  io_ret (mk_state [] [] [] [] [] [] (idx st) line_buffer' cols_buffer'
                   (chromDict st) (strandDict st) dd' (N_lines st)
                   (read_idx st)).

(** One pass of the [while] loop on a line that is not empty. *)
Definition process_line (st : state) (stripline : string) : io state :=
  cols <-- lift (split stripline sep) ;;
  _ <-- lift (if length cols <=? maxind then Raise ValueError else Ok tt) ;;
  k1 <-- lift (getitem cols c1ind) ;;
  k2 <-- lift (getitem cols c2ind) ;;
  st <-- (if String.eqb k1 unmapped_chrom || String.eqb k2 unmapped_chrom
          then _ <-- unmapped_line stripline cols ;; io_ret st
          else lift (mapped_line st stripline cols)) ;;
  let st := mk_state (c1 st) (c2 st) (p1 st) (p2 st) (s1 st) (s2 st) (idx st)
                     (line_buffer st) (cols_buffer st) (chromDict st)
                     (strandDict st) (dd st) (S (N_lines st)) (read_idx st) in
  if length (c1 st) =? curMaxLen then flush false st else io_ret st.

Definition is_empty (s : string) : bool :=
  match s with EmptyString => true | String _ _ => false end.

(** The [while True] loop over the lines the stream still holds. *)
Fixpoint loop (instream : list string) (st : state) : io state :=
  match instream with
  | [] => flush true st
  | rawline :: instream' =>
      if is_empty rawline then flush true st
      else
        let stripline := strip_newline rawline in
        if is_empty stripline then loop instream' st
        else
          st <-- process_line st stripline ;;
          loop instream' st
  end.

Definition streaming_dedup_cython (instream : list string) : io unit :=
  _ <-- loop instream initial ;;
  io_ret tt.

End online.

End lib_dedup.

(* ================================================================== *)
(** * src/pairtools/pairtools_dedup.py, the batch backend *)

Module pairtools_dedup.

Definition dedup_chunk (df : list pair) (r : Z) (method : string)
  (keep_parent_read_id : bool) (extra_col_pairs : list (string * string))
  (backend : string) (unmapped_chrom : string) : result (list row) :=
  p <- method_norm method ;;
  let df := reset_index df in
  let unmapped := filter (fun t => is_unmapped unmapped_chrom (snd t)) df in
  let df := filter (fun t => negb (is_unmapped unmapped_chrom (snd t))) df in
  clusterid <- clusterid_column backend (map snd df) r p extra_col_pairs ;;
  Ok (relabel (mark_unmapped keep_parent_read_id unmapped
               ++ mark_mapped keep_parent_read_id df clusterid)).

Section batch.

Variables (method : string) (mark_dups : bool)
  (max_mismatch : Z) (extra_col_pairs : list (string * string))
  (save_parent_id : bool) (backend : string).

(** The body of the loop of [_dedup_by_chunk]: the frame it yields, the new
    [old_nodups] and the new [old_i]. *)
Definition _dedup_by_chunk_step (old_nodups : list pair) (old_i : nat)
  (df : list pair) : result (list row * list pair * nat) :=
  marked <- dedup_chunk (old_nodups ++ df) max_mismatch method
              save_parent_id extra_col_pairs backend "!" ;;
  let marked := relabel (skipn old_i marked) in
  let marked := if mark_dups then map mark_DD marked else marked in
  let nodups := map data (filter (fun x => negb (duplicate x)) marked) in
  let i := Nat.max (length nodups / 100) 100 in
  Ok (marked, iloc_last i nodups, i).

Fixpoint _dedup_by_chunk_loop (dfs : list (list pair))
  (old_nodups : list pair) (old_i : nat) : list (list row) * result unit :=
  match dfs with
  | [] => ([], Ok tt)
  | df :: dfs' =>
      match _dedup_by_chunk_step old_nodups old_i df with
      | Raise e => ([], Raise e)
      | Ok (marked, old_nodups', old_i') =>
          let rest := _dedup_by_chunk_loop dfs' old_nodups' old_i' in
          (marked :: fst rest, snd rest)
      end
  end.

Definition _dedup_by_chunk (in_stream : list pair) (chunksize : nat)
  : list (list row) * result unit :=
  match read_table chunksize in_stream with
  | Raise e => ([], Raise e)
  | Ok dfs => _dedup_by_chunk_loop dfs [] 0
  end.

Variables (unmapped_chrom : string)
  (outstream_dups outstream_unmapped out_stat : bool).

Definition write_chunk (chunk : list row) : list event :=
  let mapped := fun x : row => is_mapped unmapped_chrom (data x) in
  (if out_stat then [add_pairs_from_dataframe chunk unmapped_chrom] else [])
  ++ (if outstream_dups
      then [to_csv dups_sink
              (map keep_parent_column
                 (filter (fun x => mapped x && duplicate x) chunk))]
      else [])
  ++ [to_csv unique_sink
        (map drop_parent_column
           (filter (fun x => mapped x && negb (duplicate x)) chunk))]
  ++ (if outstream_unmapped
      then [to_csv unmapped_sink
              (map drop_parent_column
                 (filter (fun x => negb (mapped x)) chunk))]
      else []).

(** [t / N * 1e6] of the closing [print]. *)
Definition time_per_mln_pairs (N : nat) : result unit :=
  if Nat.eqb N 0 then Raise ZeroDivisionError else Ok tt.

Definition streaming_dedup (in_stream : list pair) (chunksize : nat)
  : list event * result unit :=
  let deduped_chunks := _dedup_by_chunk in_stream chunksize in
  let N := shape0 (fst deduped_chunks) in
  (flat_map write_chunk (fst deduped_chunks),
   _ <- snd deduped_chunks ;; time_per_mln_pairs N).

End batch.

End pairtools_dedup.

(* ================================================================== *)
(** * The online detector *)

Module dedup_cython.

(** A record of the active window. *)
Record entry : Type := mk_entry {
  e_chrom1 : Z;
  e_chrom2 : Z;
  e_pos1 : Z;
  e_pos2 : Z;
  e_strand1 : Z;
  e_strand2 : Z;
  ingest_index : Z;
  marked : bool;
  parent_ingest_index : Z
}.

Record detector_state : Type := mk_detector_state {
  metric : norm;
  radius : Z;
  window : list entry;
  cursor : Z
}.

Definition must_evict (r : Z) (y x : entry) : bool :=
  ((e_chrom1 y <? e_chrom1 x)
   || ((e_chrom1 y =? e_chrom1 x) && (e_chrom2 y <? e_chrom2 x))
   || ((e_chrom1 y =? e_chrom1 x) && (e_chrom2 y =? e_chrom2 x)
       && (e_pos1 y <? e_pos1 x - r)))%Z.

(** Step 1: the oldest records that can no longer match leave the window. *)
Fixpoint evict (r : Z) (x : entry) (w : list entry)
  : list entry * list entry :=
  match w with
  | [] => ([], [])
  | y :: w' =>
      if must_evict r y x
      then (y :: fst (evict r x w'), snd (evict r x w'))
      else ([], w)
  end.

Definition matches (p : norm) (r : Z) (x y : entry) : bool :=
  (negb (marked y)
   && (Z.abs (e_pos1 x - e_pos1 y) <=? r)
   && (Z.abs (e_pos2 x - e_pos2 y) <=? r)
   && (minkowski p (e_pos1 x, e_pos2 x) (e_pos1 y, e_pos2 y) <=? r)
   && (e_chrom1 x =? e_chrom1 y) && (e_chrom2 x =? e_chrom2 y)
   && (e_strand1 x =? e_strand1 y) && (e_strand2 x =? e_strand2 y))%Z.

(** Step 2: the first record of the window the new one duplicates. *)
Definition scan (p : norm) (r : Z) (x : entry) (w : list entry) : entry :=
  match find (matches p r x) w with
  | Some y => mk_entry (e_chrom1 x) (e_chrom2 x) (e_pos1 x) (e_pos2 x)
                       (e_strand1 x) (e_strand2 x) (ingest_index x) true
                       (ingest_index y)
  | None => x
  end.

Definition classification (w : list entry) : list bool * list Z :=
  (map marked w, map parent_ingest_index w).

Fixpoint push_records (st : detector_state)
  (batch : list (Z * Z * Z * Z * Z * Z)) : detector_state * list entry :=
  match batch with
  | [] => (st, [])
  | (a1, a2, b1, b2, d1, d2) :: batch' =>
      let x := mk_entry a1 a2 b1 b2 d1 d2 (cursor st) false 0 in
      let ev := evict (radius st) x (window st) in
      let x := scan (metric st) (radius st) x (snd ev) in
      let st' := mk_detector_state (metric st) (radius st) (snd ev ++ [x])
                                   (cursor st + 1) in
      let rest := push_records st' batch' in
      (fst rest, fst ev ++ snd rest)
  end.

Definition zip6 (c1 c2 p1 p2 s1 s2 : list Z) : list (Z * Z * Z * Z * Z * Z) :=
  combine (combine (combine (combine (combine c1 c2) p1) p2) s1) s2.

(** Modelled from the spec: the class [OnlineDuplicateDetector] of
    [dedup_cython], which is outside the embedded files, after section 4.4:
    a first-in first-out window; [push] evicts, scans and appends each record
    and returns the marks of the evicted records, oldest first; [finish]
    drains the window.  A method other than "sum" selects the maximum. *)
Definition detector : OnlineDuplicateDetector :=
  mk_detector detector_state
    (fun method max_mismatch _ =>
       mk_detector_state (if String.eqb method "sum" then p_1 else p_inf)
                         max_mismatch [] 0)
    (fun st c1 c2 p1 p2 s1 s2 =>
       let r := push_records st (zip6 c1 c2 p1 p2 s1 s2) in
       (fst r, classification (snd r)))
    (fun st =>
       (mk_detector_state (metric st) (radius st) [] (cursor st),
        classification (window st)))
    (fun st => length (window st)).

End dedup_cython.

(* ================================================================== *)
(** * Vocabulary of the statements *)

Definition dummy_row : row := mk_row 0 dummy_pair false no_column.

(** The rows of a marked frame that [_dedup_chunk] treats as mapped. *)
Definition mapped_rows (unmapped_chrom : string) (out : list row) : list row :=
  filter (fun x => negb (is_unmapped unmapped_chrom (data x))) out.

(** Equal chromosomes and strands. *)
Definition same_key (x y : pair) : Prop :=
  chrom1 x = chrom1 y /\ chrom2 x = chrom2 y
  /\ strand1 x = strand1 y /\ strand2 x = strand2 y.

Definition position_of (x : pair) : Z * Z := (pos1 x, pos2 x).

(** Parent consistency as the specification words it, on one marked frame:
    every duplicate names as parent an unmarked mapped row that came earlier,
    has the same key and lies within the radius. *)
Definition parent_within_radius (r : Z) (p : norm) (out : list row) : Prop :=
  forall D, In D out -> duplicate D = true ->
    exists P, In P out /\ duplicate P = false
              /\ parent_readID D = parent (readID (data P))
              /\ index P < index D
              /\ same_key (data P) (data D)
              /\ (minkowski p (position_of (data P)) (position_of (data D))
                  <= r)%Z.

(** Three reads on one line, three base pairs apart. *)
Definition chain : list pair :=
  [ mk_pair "r1" "chr1" 100 "chr2" 200 "+" "+" "UU" [];
    mk_pair "r2" "chr1" 103 "chr2" 200 "+" "+" "UU" [];
    mk_pair "r3" "chr1" 106 "chr2" 200 "+" "+" "UU" [] ].

(* ================================================================== *)
(** * Inputs used below *)

Definition read (id : string) (p1 p2 : Z) : pair :=
  mk_pair id "chr1" p1 "chr2" p2 "+" "+" "UU" [].

Definition unmapped_read (id : string) : pair :=
  mk_pair id "chr1" 100 "!" 0 "+" "+" "MU" [].

(** Two reads that agree on every column but [readID]. *)
Definition phased (id : string) : pair :=
  mk_pair id "chr1" 100 "chr2" 200 "+" "+" "UU"
          [("phase1", Int 0); ("phase2", Int 1)]%string.

Definition phased_twins : list pair := [phased "r1"; phased "r2"].

(** Two reads far apart, read one per chunk. *)
Definition two_far : list pair := [read "r1" 100 200; read "r2" 5000 9000].

(** [r1], [r2] in a first chunk of two, [r3] in the next one; [r3]
    duplicates [r1] and not [r2]. *)
Definition across_chunks : list pair :=
  [read "r1" 100 200; read "r2" 100 9000; read "r3" 101 200].

(** A sorted body whose last read duplicates the first one, with a
    duplicated read in between. *)
Definition late_duplicate : list pair :=
  [read "a" 100 200; read "x" 100 5000; read "x2" 100 5000;
   read "a2" 103 200].

Definition sink_records (tr : list event) : list string * list string * list string :=
  (map readID (records unique_sink tr), map readID (records dups_sink tr),
   map readID (records unmapped_sink tr)).

(** Running a driver on its own unique output gives that output again and
    no duplicate. *)
Definition idempotent (run : list pair -> list event * result unit)
  (input : list pair) : Prop :=
  let U := records unique_sink (fst (run input)) in
  records unique_sink (fst (run U)) = U
  /\ records dups_sink (fst (run U)) = [].

Definition result_map {A B : Type} (f : A -> B) (m : result A) : result B :=
  x <- m ;; Ok (f x).

(** A mapped read followed by a read with an unmapped side. *)
Definition mapped_then_unmapped : list pair :=
  [read "r1" 100 200; unmapped_read "u1"].

(** The test the batch backend applies to a candidate pair, first row [x],
    second row [y]. *)
Definition adjacent (r : Z) (p : norm) (extra : list (string * string))
  (x y : pair) : bool :=
  (minkowski p (position_of x) (position_of y) <=? r)%Z
  && nonpos_match (need_to_match extra) x y.

(** [x], met before [y], is linked to it by the backend. *)
Definition linked_in_order (backend : string) (r : Z) (p : norm)
  (extra : list (string * string)) (x y : pair) : bool :=
  adjacent r p extra x y
  || (String.eqb backend "sklearn" && adjacent r p extra y x).

(** The records a frame sends to the unique stream. *)
Definition unique_rows (unmapped_chrom : string) (y : list row) : list pair :=
  map data (filter (fun x => is_mapped unmapped_chrom (data x)
                             && negb (duplicate x)) y).

(* ================================================================== *)
(** * Vocabulary of the statements on the online driver *)

Section online_vocabulary.

Variables (sep : string) (c1ind c2ind p1ind p2ind s1ind s2ind ptind : nat)
  (unmapped_chrom : string).

(** The lines the loop takes up, stripped, with their columns: blank lines
    are skipped and an empty item ends the stream. *)
Fixpoint lines_read (instream : list string) : list (string * list string) :=
  match instream with
  | [] => []
  | rawline :: instream' =>
      if lib_dedup.is_empty rawline then []
      else
        let stripline := strip_newline rawline in
        if lib_dedup.is_empty stripline then lines_read instream'
        else
          (stripline,
           match split stripline sep with Ok cols => cols | Raise _ => [] end)
          :: lines_read instream'
  end.

Definition has_unmapped_side (cols : list string) : bool :=
  String.eqb (nth c1ind cols ""%string) unmapped_chrom
  || String.eqb (nth c2ind cols ""%string) unmapped_chrom.

Definition int_or_0 (s : string) : Z :=
  match parse_int s with Some z => z | None => 0%Z end.

(** The call of [add_pair] for the columns [cols]; [tag] replaces the pair
    type when given. *)
Definition call_of (cols : list string) (tag : option string) : event :=
  add_pair (nth c1ind cols ""%string) (int_or_0 (nth p1ind cols ""%string))
           (nth s1ind cols ""%string)
           (nth c2ind cols ""%string) (int_or_0 (nth p2ind cols ""%string))
           (nth s2ind cols ""%string)
           (match tag with
            | Some t => t
            | None => nth ptind cols ""%string
            end).

(** What a classified record puts on the unique stream and reports. *)
Definition classified_events (x : string * list string * bool) : list event :=
  if snd x
  then [call_of (snd (fst x)) (Some "DD"%string)]
  else [write unique_sink (fst (fst x));
        write unique_sink (String newline "");
        call_of (snd (fst x)) None].

(** The part of a trace that concerns classified records: what goes to the
    unique stream and the reports on pairs with both sides mapped. *)
Definition is_classified_event (e : event) : bool :=
  match e with
  | write unique_sink _ => true
  | add_pair c1 _ _ c2 _ _ _ =>
      negb (String.eqb c1 unmapped_chrom || String.eqb c2 unmapped_chrom)
  | _ => false
  end.

(** The reports on pairs with an unmapped side. *)
Definition is_unmapped_call (e : event) : bool :=
  match e with
  | add_pair c1 _ _ c2 _ _ _ =>
      String.eqb c1 unmapped_chrom || String.eqb c2 unmapped_chrom
  | _ => false
  end.

Definition is_add_pair (e : event) : bool :=
  match e with
  | add_pair _ _ _ _ _ _ _ => true
  | _ => false
  end.

Definition expected_call (x : string * list string) (dup : bool) : event :=
  call_of (snd x) (if dup then Some "DD"%string else None).

End online_vocabulary.

(** The format constants of pairsam files: readID, chrom1, pos1, chrom2,
    pos2, strand1, strand2, pair_type, sam1, sam2. *)
Definition pairsam : pairsam_format :=
  mk_format 7 8 9
    (String (ascii_of_nat 26) ("NEXT_SAM" ++ String (ascii_of_nat 26) ""))
    (String (ascii_of_nat 26) "").

Definition tab : string := String (ascii_of_nat 9) "".

Definition pairs_line (fields : list string) : string :=
  (join tab fields ++ String newline "")%string.

(** The online driver with the default columns and the detector of
    section 4.4, statistics on. *)
Definition online_run (instream : list string) : io unit :=
  lib_dedup.streaming_dedup_cython pairsam dedup_cython.detector "max" 3 tab
    1 3 2 4 5 6 [] [] "!" true true true false false 0 instream.

Definition negative_position_line : string :=
  pairs_line ["r1"; "chr1"; "-5"; "chr2"; "200"; "+"; "+"; "UU"]%string.

Definition unmapped_bad_position_line : string :=
  pairs_line ["u1"; "!"; "x"; "chr2"; "200"; "+"; "+"; "NU"]%string.

Definition nonnegative_decimal (s : string) : bool :=
  match parse_int s with
  | Some z => (0 <=? z)%Z
  | None => false
  end.

(** Position validation as the specification words it, for a stream of one
    line: a position that is not a non-negative decimal integer makes the
    run fail before anything is written or reported. *)
Definition position_validated (run : list string -> io unit) (sep : string)
  (p1ind p2ind : nat) (rawline : string) : Prop :=
  forall cols,
    split (strip_newline rawline) sep = Ok cols ->
    nonnegative_decimal (nth p1ind cols ""%string) = false
    \/ nonnegative_decimal (nth p2ind cols ""%string) = false ->
    exists e, run [rawline] = ([], Raise e).

(** A mapped read followed by a read with an unmapped side. *)
Definition mapped_then_unmapped_lines : list string :=
  [pairs_line ["r1"; "chr1"; "100"; "chr2"; "200"; "+"; "+"; "UU"]%string;
   pairs_line ["u1"; "!"; "0"; "chr2"; "200"; "+"; "+"; "NU"]%string].

(** The report order as the specification words it: the calls of [add_pair]
    are those of the lines read, in input order. *)
Definition reported_in_input_order (run : list string -> io unit)
  (instream : list string) : Prop :=
  exists res,
    length res = length (lines_read tab instream)
    /\ filter is_add_pair (fst (run instream))
       = map (fun x => expected_call 1 3 2 4 5 6 7 (fst x) (snd x))
             (combine (lines_read tab instream) res).

(** The mapped lines waiting for their classification, with their
    columns. *)
Definition buffered (D : OnlineDuplicateDetector) (st : lib_dedup.state D)
  : list (string * list string) :=
  combine (lib_dedup.line_buffer D st) (lib_dedup.cols_buffer D st).

(** The two buffers go together and hold mapped lines only. *)
Definition buffers_consistent (c1ind c2ind : nat) (unmapped_chrom : string)
  (D : OnlineDuplicateDetector) (st : lib_dedup.state D) : Prop :=
  length (lib_dedup.line_buffer D st) = length (lib_dedup.cols_buffer D st)
  /\ Forall (fun c => has_unmapped_side c1ind c2ind unmapped_chrom c = false)
            (lib_dedup.cols_buffer D st).

(** A row as [_dedup_stream] yields it: the input row, with the pair type
    "DD" when it is marked and [mark_dups] is set, and its mark. *)
Definition yielded (mark_dups : bool) (xb : pair * bool) : pair * bool :=
  (if mark_dups && snd xb then set_pair_type "DD" (fst xb) else fst xb,
   snd xb).

Definition data_and_mark (y : row) : pair * bool := (data y, duplicate y).

(** An interning table as [fetchadd] builds it: no id is given twice and every
    id is below the size of the table. *)
Definition interned (mydict : list (string * Z)) : Prop :=
  NoDup (map snd mydict)
  /\ Forall (fun v => (0 <= v < Z.of_nat (length mydict))%Z) (map snd mydict).

(** A SAM entry as pairsam files hold it: fields separated by [SAM_SEP]. *)
Definition sam_entry (fields : list string) : string :=
  join (SAM_SEP pairsam) fields.

Definition tagged_sam : list string :=
  ["r1"; "65"; "chr1"; "100"; "60"; "50M"; "chr2"; "200"; "0"; "ACGT";
   "FFFF"; "NM:i:0"; "Yt:Z:UU"]%string.

(** The text a trace puts on one stream with [write], piece by piece. *)
Fixpoint text_written (s : sink) (tr : list event) : list string :=
  match tr with
  | [] => []
  | write s' text :: tr' =>
      if sink_eqb s s' then text :: text_written s tr'
      else text_written s tr'
  | _ :: tr' => text_written s tr'
  end.

(** A line as the online driver writes it: the text, then the newline. *)
Definition line_out (line : string) : list string :=
  [line; String newline ""].

(** What the lines [xs], each with its mark, put on the unique stream. *)
Definition unique_lines (xs : list (string * bool)) : list string :=
  flat_map (fun x : string * bool => if snd x then [] else line_out (fst x))
    xs.

Definition count_dups (res : list bool) : nat :=
  length (filter (fun b : bool => b) res).

(* ================================================================== *)
(** * Component labelling *)

Section components.

Lemma length_merge (ls : list nat) (e : nat * nat) :
  length (merge ls e) = length ls.
Proof. unfold merge. now rewrite length_map. Qed.

Lemma length_fold_merge (E : list (nat * nat)) (ls : list nat) :
  length (fold_left merge E ls) = length ls.
Proof.
  revert ls. induction E as [|e E IH]; intros ls; simpl; [reflexivity|].
  now rewrite IH, length_merge.
Qed.

Lemma length_connected_components (N : nat) (E : list (nat * nat)) :
  length (connected_components N E) = N.
Proof.
  unfold connected_components. now rewrite length_fold_merge, length_seq.
Qed.

Lemma label_merge (ls : list nat) (e : nat * nat) (i : nat) :
  i < length ls ->
  label (merge ls e) i =
  if Nat.eqb (label ls i) (label ls (snd e)) then label ls (fst e)
  else label ls i.
Proof.
  intros Hi. unfold label at 1. unfold merge.
  set (f := fun l => if Nat.eqb l (label ls (snd e))
                     then label ls (fst e) else l).
  rewrite (nth_indep _ i (f i)) by (now rewrite length_map).
  rewrite map_nth. reflexivity.
Qed.

Lemma label_seq (N i : nat) : label (seq 0 N) i = i.
Proof.
  unfold label. destruct (Nat.lt_ge_cases i N) as [H|H].
  - now rewrite seq_nth.
  - apply nth_overflow. now rewrite length_seq.
Qed.

Lemma connected_nil (i j : nat) : connected [] i j -> i = j.
Proof. induction 1; simpl in *; try congruence; contradiction. Qed.

Lemma connected_mono (E E' : list (nat * nat)) (i j : nat) :
  (forall e, In e E -> In e E') -> connected E i j -> connected E' i j.
Proof.
  intros Hsub H. induction H.
  - apply connected_refl.
  - apply connected_edge. auto.
  - now apply connected_sym.
  - eapply connected_trans; eauto.
Qed.

Lemma connected_range (N : nat) (E : list (nat * nat)) (i j : nat) :
  (forall e, In e E -> fst e < N /\ snd e < N) ->
  connected E i j -> i = j \/ (i < N /\ j < N).
Proof.
  intros HE H. induction H.
  - now left.
  - right. exact (HE _ H).
  - destruct IHconnected as [->|[? ?]]; auto.
  - destruct IHconnected1 as [->|[? ?]]; auto.
    destruct IHconnected2 as [<-|[? ?]]; auto.
Qed.

(** Two vertices carry the same label exactly when a chain of edges joins
    them. *)
Lemma connected_components_spec (N : nat) (E : list (nat * nat)) :
  (forall e, In e E -> fst e < N /\ snd e < N) ->
  forall i j, i < N -> j < N ->
    (label (connected_components N E) i = label (connected_components N E) j
     <-> connected E i j).
Proof.
  induction E as [|e E IH] using rev_ind; intros HE i j Hi Hj.
  - unfold connected_components. simpl. rewrite !label_seq. split.
    + intros ->. apply connected_refl.
    + apply connected_nil.
  - assert (HE' : forall e0, In e0 E -> fst e0 < N /\ snd e0 < N).
    { intros e0 H0. apply HE, in_or_app. now left. }
    specialize (IH HE').
    assert (Hab : fst e < N /\ snd e < N).
    { apply HE, in_or_app. right. now left. }
    destruct Hab as [Ha Hb].
    assert (Hcc : connected_components N (E ++ [e])
                  = merge (connected_components N E) e).
    { unfold connected_components. now rewrite fold_left_app. }
    rewrite Hcc. set (L := connected_components N E) in *.
    assert (HL : length L = N) by apply length_connected_components.
    assert (Hmono : forall x y, connected E x y -> connected (E ++ [e]) x y).
    { intros x y. apply connected_mono. intros e0 H0. apply in_or_app. now left. }
    assert (He : connected (E ++ [e]) (fst e) (snd e)).
    { apply connected_edge. apply in_or_app. right. left. now destruct e. }
    split.
    + rewrite !label_merge by lia.
      destruct (Nat.eqb_spec (label L i) (label L (snd e))) as [Hib|Hib];
        destruct (Nat.eqb_spec (label L j) (label L (snd e))) as [Hjb|Hjb];
        intros Heq.
      * apply Hmono, IH; congruence.
      * apply connected_trans with (snd e); [apply Hmono, IH; auto|].
        apply connected_trans with (fst e); [now apply connected_sym|].
        apply Hmono, IH; auto.
      * apply connected_trans with (fst e); [apply Hmono, IH; auto|].
        apply connected_trans with (snd e); [exact He|].
        apply Hmono, IH; auto.
      * apply Hmono, IH; auto.
    + intros Hc.
      assert (Hgen : forall x y, connected (E ++ [e]) x y ->
                x < N -> y < N -> label (merge L e) x = label (merge L e) y).
      { clear i j Hi Hj Hc. intros x y Hc. induction Hc; intros Hx Hy.
        - reflexivity.
        - rewrite !label_merge by lia.
          apply in_app_or in H. destruct H as [H|[H|[]]].
          + assert (Hxy : label L i = label L j)
              by (apply IH; auto; now apply connected_edge).
            now rewrite Hxy.
          + subst e. simpl. rewrite Nat.eqb_refl.
            now destruct (Nat.eqb (label L i) (label L j)).
        - symmetry. auto.
        - destruct (connected_range N _ _ _ HE Hc1) as [->|[_ Hj']]; auto.
          transitivity (label (merge L e) j); auto. }
      now apply Hgen.
Qed.

End components.

(** * [duplicated] *)

Lemma length_duplicated_from (seen l : list nat) :
  length (duplicated_from seen l) = length l.
Proof.
  revert seen. induction l as [|c l IH]; intros seen; simpl; auto.
Qed.

Lemma length_duplicated (l : list nat) : length (duplicated l) = length l.
Proof. apply length_duplicated_from. Qed.

Lemma existsb_eqb_In (c : nat) (seen : list nat) :
  existsb (Nat.eqb c) seen = true <-> In c seen.
Proof.
  rewrite existsb_exists. split.
  - intros [x [Hx Heq]]. apply Nat.eqb_eq in Heq. now subst.
  - intros H. exists c. split; auto. apply Nat.eqb_refl.
Qed.

Lemma duplicated_from_spec (l seen : list nat) (i : nat) :
  i < length l ->
  (nth i (duplicated_from seen l) false = true
   <-> In (nth i l 0) seen \/ exists j, j < i /\ nth j l 0 = nth i l 0).
Proof.
  revert seen i. induction l as [|c l IH]; intros seen i Hi; simpl in Hi; [lia|].
  destruct i as [|i]; simpl.
  - rewrite existsb_eqb_In. split; [now left|].
    intros [H|[j [Hj _]]]; [assumption|lia].
  - rewrite IH by lia. simpl. split.
    + intros [[H|H]|[j [Hj Hjeq]]].
      * right. exists 0. split; [lia|]. now simpl.
      * now left.
      * right. exists (S j). split; [lia|]. now simpl.
    + intros [H|[j [Hj Hjeq]]].
      * left. now right.
      * destruct j as [|j]; simpl in Hjeq.
        -- left. now left.
        -- right. exists j. split; [lia|assumption].
Qed.

(** An entry is marked exactly when its value occurred earlier. *)
Lemma duplicated_spec (l : list nat) (i : nat) :
  i < length l ->
  (nth i (duplicated l) false = true
   <-> exists j, j < i /\ nth j l 0 = nth i l 0).
Proof.
  intros Hi. unfold duplicated. rewrite duplicated_from_spec by assumption.
  simpl. split; [intros [[]|H]; exact H | intros H; now right].
Qed.

(** Every value has a first, unmarked occurrence. *)
Lemma duplicated_first (l : list nat) (i : nat) :
  i < length l ->
  exists k, k <= i /\ nth k l 0 = nth i l 0
            /\ nth k (duplicated l) false = false.
Proof.
  induction i as [i IH] using lt_wf_ind. intros Hi.
  destruct (nth i (duplicated l) false) eqn:Hd.
  - apply duplicated_spec in Hd; [|assumption].
    destruct Hd as [j [Hj Hjeq]].
    destruct (IH j Hj ltac:(lia)) as [k [Hk [Hkeq Hkd]]].
    exists k. repeat split; [lia|congruence|assumption].
  - exists i. repeat split; auto.
Qed.

(* ================================================================== *)
(** * The marked frame of a chunk *)

Lemma map_snd_filter_combine {A : Type} (f : A -> bool) (l : list A) (s : nat) :
  map snd (filter (fun t => f (snd t)) (combine (seq s (length l)) l))
  = filter f l.
Proof.
  revert s. induction l as [|x l IH]; intros s; simpl; [reflexivity|].
  destruct (f x); simpl; now rewrite IH.
Qed.

Lemma map_snd_filter_reset_index (f : pair -> bool) (df : list pair) :
  map snd (filter (fun t => f (snd t)) (reset_index df)) = filter f df.
Proof. apply map_snd_filter_combine. Qed.

Lemma fst_filter_combine_sorted {A : Type} (g : nat * A -> bool) (l : list A)
  (s : nat) :
  forall i j d, i < j ->
    j < length (filter g (combine (seq s (length l)) l)) ->
    s <= fst (nth i (filter g (combine (seq s (length l)) l)) d)
    /\ fst (nth i (filter g (combine (seq s (length l)) l)) d)
       < fst (nth j (filter g (combine (seq s (length l)) l)) d).
Proof.
  revert s. induction l as [|x l IH]; intros s i j d Hij Hj; simpl in *; [lia|].
  destruct (g (s, x)); simpl in *.
  - destruct j as [|j]; [lia|]. destruct i as [|i].
    + simpl. split; [lia|].
      destruct (Nat.eq_dec j 0) as [->|Hj0].
      * destruct (filter g (combine (seq (S s) (length l)) l)) as [|y t] eqn:E;
          simpl in *; [lia|].
        assert (H : In y (filter g (combine (seq (S s) (length l)) l)))
          by (rewrite E; now left).
        apply filter_In in H. destruct H as [H _]. destruct y as [a b].
        apply in_combine_l in H. apply in_seq in H. simpl. lia.
      * destruct (IH (S s) 0 j d) as [H1 H2]; lia.
    + destruct (IH (S s) i j d) as [H1 H2]; try lia.
  - destruct (IH (S s) i j d) as [H1 H2]; lia.
Qed.

Lemma nth_mark_mapped (keep : bool) (dfm : list (nat * pair)) (cl : list nat)
  (i : nat) :
  length cl = length dfm -> i < length dfm ->
  nth i (mark_mapped keep dfm cl) dummy_row
  = mk_row (fst (nth i dfm (0, dummy_pair))) (snd (nth i dfm (0, dummy_pair)))
           (nth i (duplicated cl) false)
           (if keep
            then lookup_cluster (nth i cl 0)
                   (parent_table (map snd dfm) cl (duplicated cl))
            else no_column).
Proof.
  intros Hl Hi. unfold mark_mapped.
  set (g := fun t : nat * pair * nat * bool => _).
  rewrite (nth_indep _ dummy_row (g ((0, dummy_pair), 0, false))).
  - rewrite map_nth. rewrite !combine_nth.
    + reflexivity.
    + now rewrite Hl.
    + rewrite length_combine, length_duplicated, Hl. lia.
  - rewrite length_map, !length_combine, length_duplicated, Hl. lia.
Qed.

Lemma length_mark_mapped (keep : bool) (dfm : list (nat * pair)) (cl : list nat) :
  length cl = length dfm -> length (mark_mapped keep dfm cl) = length dfm.
Proof.
  intros Hl. unfold mark_mapped.
  rewrite length_map, !length_combine, length_duplicated, Hl. lia.
Qed.

Lemma map_data_mark_mapped (keep : bool) (dfm : list (nat * pair))
  (cl : list nat) :
  length cl = length dfm -> map data (mark_mapped keep dfm cl) = map snd dfm.
Proof.
  intros Hl. apply nth_ext with (d := dummy_pair) (d' := dummy_pair).
  - now rewrite !length_map, length_mark_mapped.
  - intros n Hn. rewrite length_map, length_mark_mapped in Hn by assumption.
    rewrite (nth_indep _ dummy_pair (data dummy_row))
      by (now rewrite length_map, length_mark_mapped).
    rewrite map_nth, nth_mark_mapped by assumption. simpl.
    rewrite (nth_indep _ dummy_pair (snd (0, dummy_pair)))
      by (now rewrite length_map).
    now rewrite map_nth.
Qed.

Lemma map_data_mark_unmapped (keep : bool) (dfu : list (nat * pair)) :
  map data (mark_unmapped keep dfu) = map snd dfu.
Proof. unfold mark_unmapped. rewrite map_map. reflexivity. Qed.

Lemma filter_map_data (f : pair -> bool) (l : list row) :
  map data (filter (fun x => f (data x)) l) = filter f (map data l).
Proof.
  induction l as [|x l IH]; simpl; [reflexivity|].
  destruct (f (data x)); simpl; now rewrite IH.
Qed.

Lemma filter_all {A : Type} (f : A -> bool) (l : list A) :
  (forall x, In x l -> f x = true) -> filter f l = l.
Proof.
  induction l as [|x l IH]; intros H; simpl; [reflexivity|].
  rewrite (H x) by now left. f_equal. apply IH. intros y Hy. apply H. now right.
Qed.

Lemma filter_none {A : Type} (f : A -> bool) (l : list A) :
  (forall x, In x l -> f x = false) -> filter f l = [].
Proof.
  induction l as [|x l IH]; intros H; simpl; [reflexivity|].
  rewrite (H x) by now left. apply IH. intros y Hy. apply H. now right.
Qed.

Lemma in_map_data_filter (f : pair -> bool) (l : list row) (x : row) :
  map data l = filter f (map data l) -> In x l -> f (data x) = true.
Proof.
  intros H Hx. assert (Hin : In (data x) (map data l)) by now apply in_map.
  rewrite H in Hin. now apply filter_In in Hin.
Qed.

(** The candidate pairs are pairs of rows of the frame. *)
Lemma candidates_range (backend : string) (df : list pair) (r : Z) (p : norm)
  (a : list (nat * nat)) :
  candidates backend df r p = Ok a ->
  forall e, In e a -> fst e < length df /\ snd e < length df.
Proof.
  unfold candidates, radius_neighbors, query_pairs, all_index_pairs, points.
  intros H e He.
  assert (Hin : In e (list_prod (seq 0 (length df)) (seq 0 (length df)))).
  { destruct (String.eqb backend "sklearn");
      [|destruct (String.eqb backend "scipy"); [|discriminate]];
      injection H as <-; apply filter_In in He;
      rewrite length_map in He; tauto. }
  destruct e as [i j]. apply in_prod_iff in Hin.
  rewrite !in_seq in Hin. simpl. lia.
Qed.

Lemma In_select {A : Type} (mask : list bool) (l : list A) (x : A) :
  In x (select mask l) -> In x l.
Proof.
  revert l. induction mask as [|b mask IH]; intros [|y l] H; simpl in *;
    try contradiction.
  destruct b; simpl in H; [destruct H as [H|H]|]; auto.
Qed.

Lemma graph_edges_range (backend : string) (df : list pair) (r : Z) (p : norm)
  (extra : list (string * string)) (E : list (nat * nat)) :
  graph_edges backend df r p extra = Ok E ->
  forall e, In e E -> fst e < length df /\ snd e < length df.
Proof.
  unfold graph_edges. intros H e He.
  destruct (candidates backend df r p) as [a|] eqn:Ha; simpl in H;
    [|discriminate].
  destruct (nonpos_matches df a (need_to_match extra)) as [m|]; simpl in H;
    [|discriminate].
  injection H as <-. apply In_select in He.
  eapply candidates_range; eauto.
Qed.

(** What [_dedup_chunk] returns: the unmapped rows, then the mapped rows with
    their marks. *)
Lemma _dedup_chunk_inv (df : list pair) (r : Z) (method : string)
  (keep : bool) (extra : list (string * string)) (backend um : string)
  (out : list row) :
  lib_dedup._dedup_chunk df r method keep extra backend um = Ok out ->
  exists p cl,
    method_norm method = Ok p
    /\ clusterid_column backend
         (filter (fun x => negb (is_unmapped um x)) df) r p extra = Ok cl
    /\ out = mark_unmapped keep
               (filter (fun t => is_unmapped um (snd t)) (reset_index df))
             ++ mark_mapped keep
                  (filter (fun t => negb (is_unmapped um (snd t)))
                          (reset_index df)) cl.
Proof.
  unfold lib_dedup._dedup_chunk. intros H.
  destruct (method_norm method) as [p|] eqn:Hp; simpl in H; [|discriminate].
  rewrite (map_snd_filter_reset_index (fun x => negb (is_unmapped um x))) in H.
  destruct (clusterid_column backend _ r p extra) as [cl|] eqn:Hcl;
    simpl in H; [|discriminate].
  injection H as <-. exists p, cl. auto.
Qed.

Lemma clusterid_column_inv (backend : string) (df : list pair) (r : Z)
  (p : norm) (extra : list (string * string)) (cl : list nat) :
  clusterid_column backend df r p extra = Ok cl ->
  length cl = length df
  /\ (0 < length df ->
      exists E, graph_edges backend df r p extra = Ok E
                /\ cl = connected_components (length df) E).
Proof.
  unfold clusterid_column. destruct (Nat.ltb_spec 0 (length df)) as [H|H].
  - destruct (graph_edges backend df r p extra) as [E|] eqn:HE; simpl;
      [|discriminate].
    intros [= <-]. split; [apply length_connected_components|].
    intros _. exists E. auto.
  - intros [= <-]. simpl. split; [lia|]. intros; lia.
Qed.

Lemma length_filter_reset_index (f : pair -> bool) (df : list pair) :
  length (filter (fun t => f (snd t)) (reset_index df)) = length (filter f df).
Proof. rewrite <- (map_snd_filter_reset_index f df). now rewrite length_map. Qed.

(** The mapped rows of the result are the marked mapped frame. *)
Lemma mapped_rows_dedup_chunk (df : list pair) (um : string) (keep : bool)
  (cl : list nat) :
  length cl = length (filter (fun x => negb (is_unmapped um x)) df) ->
  mapped_rows um
    (mark_unmapped keep
       (filter (fun t => is_unmapped um (snd t)) (reset_index df))
     ++ mark_mapped keep
          (filter (fun t => negb (is_unmapped um (snd t))) (reset_index df)) cl)
  = mark_mapped keep
      (filter (fun t => negb (is_unmapped um (snd t))) (reset_index df)) cl.
Proof.
  intros Hl. unfold mapped_rows. rewrite filter_app.
  rewrite filter_none, filter_all; [reflexivity| |].
  - intros x Hx.
    apply (in_map_data_filter (fun y => negb (is_unmapped um y))) in Hx; auto.
    rewrite map_data_mark_mapped
      by (now rewrite (length_filter_reset_index
                         (fun y => negb (is_unmapped um y)))).
    rewrite (map_snd_filter_reset_index (fun y => negb (is_unmapped um y))).
    symmetry. apply filter_all. intros y Hy. now apply filter_In in Hy.
  - intros x Hx. unfold mark_unmapped in Hx. apply in_map_iff in Hx.
    destruct Hx as [t [<- Ht]]. simpl. apply filter_In in Ht.
    destruct Ht as [_ Ht]. now rewrite Ht.
Qed.

(** Inside the marked mapped frame a row is marked exactly when an earlier
    row lies in its component. *)
Lemma marked_iff_earlier (n : nat) (E : list (nat * nat)) (i : nat) :
  (forall e, In e E -> fst e < n /\ snd e < n) ->
  i < n ->
  (nth i (duplicated (connected_components n E)) false = true
   <-> exists j, j < i /\ connected E i j).
Proof.
  intros HE Hi.
  assert (HL : length (connected_components n E) = n)
    by apply length_connected_components.
  rewrite duplicated_spec by lia.
  assert (Hlab : forall x, x < n ->
            nth x (connected_components n E) 0
            = label (connected_components n E) x).
  { intros x Hx. unfold label. apply nth_indep. lia. }
  split; intros [j [Hj H]]; exists j; (split; [assumption|]).
  - apply connected_sym. apply (connected_components_spec n E HE); try lia.
    rewrite <- !Hlab by lia. assumption.
  - rewrite !Hlab by lia.
    apply (connected_components_spec n E HE); try lia.
    now apply connected_sym.
Qed.

Lemma first_of_component (n : nat) (E : list (nat * nat)) (i : nat) :
  (forall e, In e E -> fst e < n /\ snd e < n) ->
  i < n ->
  exists k, k <= i /\ connected E i k
            /\ nth k (duplicated (connected_components n E)) false = false.
Proof.
  intros HE Hi.
  assert (HL : length (connected_components n E) = n)
    by apply length_connected_components.
  destruct (duplicated_first (connected_components n E) i) as [k [Hk [Heq Hd]]];
    [lia|].
  exists k. repeat split; auto.
  apply connected_sym. apply (connected_components_spec n E HE); try lia.
  unfold label.
  rewrite (nth_indep _ k 0), (nth_indep _ i 0) by lia. assumption.
Qed.

(** What is known of a successful call of [_dedup_chunk] with at least one
    mapped row. *)
Lemma _dedup_chunk_mapped (df : list pair) (r : Z) (method : string)
  (keep : bool) (extra : list (string * string)) (backend um : string)
  (out : list row) :
  lib_dedup._dedup_chunk df r method keep extra backend um = Ok out ->
  0 < length (mapped_rows um out) ->
  exists p E,
    let dfm := filter (fun t => negb (is_unmapped um (snd t))) (reset_index df) in
    let n := length (mapped_rows um out) in
    method_norm method = Ok p
    /\ graph_edges backend (map data (mapped_rows um out)) r p extra = Ok E
    /\ (forall e, In e E -> fst e < n /\ snd e < n)
    /\ length dfm = n
    /\ map data (mapped_rows um out)
       = filter (fun x => negb (is_unmapped um x)) df
    /\ mapped_rows um out = mark_mapped keep dfm (connected_components n E).
Proof.
  intros H Hpos.
  destruct (_dedup_chunk_inv _ _ _ _ _ _ _ _ H) as [p [cl [Hp [Hcl Hout]]]].
  destruct (clusterid_column_inv _ _ _ _ _ _ Hcl) as [Hlen HE].
  assert (Hlf : length (filter (fun t => negb (is_unmapped um (snd t)))
                               (reset_index df))
                = length (filter (fun y => negb (is_unmapped um y)) df))
    by apply (length_filter_reset_index (fun y => negb (is_unmapped um y))).
  assert (Hlm : length cl = length (filter (fun t => negb (is_unmapped um (snd t)))
                                           (reset_index df))) by congruence.
  assert (HM : mapped_rows um out
               = mark_mapped keep
                   (filter (fun t => negb (is_unmapped um (snd t)))
                           (reset_index df)) cl).
  { rewrite Hout. now apply mapped_rows_dedup_chunk. }
  rewrite HM in *. rewrite length_mark_mapped in * by assumption.
  destruct (HE ltac:(lia)) as [E [HgE HclE]].
  exists p, E. cbv zeta.
  rewrite map_data_mark_mapped by assumption.
  rewrite (map_snd_filter_reset_index (fun y => negb (is_unmapped um y))).
  rewrite Hlf.
  repeat split; auto.
  - apply (graph_edges_range _ _ _ _ _ _ HgE); assumption.
  - apply (graph_edges_range _ _ _ _ _ _ HgE); assumption.
  - now rewrite HclE.
Qed.

(** The mapped rows of the result keep the order of the input. *)
Lemma mapped_rows_in_input_order (df : list pair) (r : Z) (method : string)
  (keep : bool) (extra : list (string * string)) (backend um : string)
  (out : list row) (i j : nat) :
  lib_dedup._dedup_chunk df r method keep extra backend um = Ok out ->
  j < length (mapped_rows um out) -> i < j ->
  index (nth i (mapped_rows um out) dummy_row)
  < index (nth j (mapped_rows um out) dummy_row).
Proof.
  intros H Hj Hij.
  destruct (_dedup_chunk_mapped _ _ _ _ _ _ _ _ H ltac:(lia))
    as [p [E [Hp [HgE [HE [Hlen [Hdata HM]]]]]]].
  cbv zeta in *. rewrite HM.
  rewrite !nth_mark_mapped
    by (try (now rewrite length_connected_components); lia).
  simpl. unfold reset_index.
  apply (fst_filter_combine_sorted
           (fun t => negb (is_unmapped um (snd t))) df 0 i j
           (0, dummy_pair) Hij).
  fold (reset_index df). lia.
Qed.

(** C2.  In the frame [_dedup_chunk] returns, the mapped rows are in input
    order and, within each connected component of the graph of filtered
    candidate pairs, exactly one row is left unmarked: the one that comes
    first, that is the one with the smallest index; every other row of the
    component is marked duplicate. *)
Theorem dedup_chunk_representative (df : list pair) (r : Z) (method : string)
  (keep : bool) (extra : list (string * string)) (backend um : string)
  (out : list row) :
  lib_dedup._dedup_chunk df r method keep extra backend um = Ok out ->
  forall i, i < length (mapped_rows um out) ->
  exists p E,
    method_norm method = Ok p
    /\ graph_edges backend (map data (mapped_rows um out)) r p extra = Ok E
    /\ (duplicate (nth i (mapped_rows um out) dummy_row) = false
        <-> forall j, j < length (mapped_rows um out) ->
                      connected E i j -> i <= j)
    /\ (exists k, k < length (mapped_rows um out) /\ connected E i k
                  /\ duplicate (nth k (mapped_rows um out) dummy_row) = false
                  /\ forall k', k' < length (mapped_rows um out) ->
                       connected E i k' ->
                       duplicate (nth k' (mapped_rows um out) dummy_row) = false ->
                       k' = k)
    /\ (forall j, j < length (mapped_rows um out) -> i < j ->
          index (nth i (mapped_rows um out) dummy_row)
          < index (nth j (mapped_rows um out) dummy_row)).
Proof.
  intros H i Hi.
  destruct (_dedup_chunk_mapped _ _ _ _ _ _ _ _ H ltac:(lia))
    as [p [E [Hp [HgE [HE [Hlen [Hdata HM]]]]]]].
  cbv zeta in *. set (M := mapped_rows um out) in *. set (n := length M) in *.
  exists p, E. split; [assumption|]. split; [assumption|].
  assert (Hdup : forall x, x < n ->
            duplicate (nth x M dummy_row)
            = nth x (duplicated (connected_components n E)) false).
  { intros x Hx. rewrite HM, nth_mark_mapped; [reflexivity| |lia].
    now rewrite length_connected_components. }
  assert (Hmin : forall x, x < n ->
            (duplicate (nth x M dummy_row) = false
             <-> forall j, j < n -> connected E x j -> x <= j)).
  { intros x Hx. rewrite Hdup by assumption. split.
    - intros Hf j Hj Hc. destruct (Nat.le_gt_cases x j) as [|Hlt]; auto.
      assert (Ht : nth x (duplicated (connected_components n E)) false = true).
      { apply marked_iff_earlier; auto. exists j. auto. }
      congruence.
    - intros Hall.
      destruct (nth x (duplicated (connected_components n E)) false) eqn:Hd;
        auto.
      apply marked_iff_earlier in Hd; auto. destruct Hd as [j [Hj Hc]].
      specialize (Hall j ltac:(lia) Hc). lia. }
  split; [apply Hmin; assumption|]. split.
  - destruct (first_of_component n E i HE Hi) as [k [Hk [Hc Hd]]].
    exists k. split; [lia|]. split; [assumption|].
    split; [rewrite Hdup by lia; assumption|].
    intros k' Hk' Hc' Hd'.
    assert (Hkk : connected E k k').
    { apply connected_trans with i; [now apply connected_sym|assumption]. }
    rewrite <- Hdup in Hd by lia.
    pose proof (proj1 (Hmin k ltac:(lia)) Hd k' Hk' Hkk).
    pose proof (proj1 (Hmin k' Hk') Hd' k ltac:(lia) (connected_sym _ _ _ Hkk)).
    lia.
  - intros j Hj Hij. eapply mapped_rows_in_input_order; eauto.
Qed.

(* ================================================================== *)
(** * Edges of the graph *)

Lemma rbind_Ok {A B : Type} (m : result A) (k : A -> result B) (b : B) :
  rbind m k = Ok b -> exists a, m = Ok a /\ k a = Ok b.
Proof. destruct m as [a|e]; simpl; [eauto|discriminate]. Qed.

Lemma select_map_filter {A : Type} (f : A -> bool) (l : list A) :
  select (map f l) l = filter f l.
Proof.
  induction l as [|x l IH]; simpl; [reflexivity|].
  destruct (f x); now rewrite IH.
Qed.

Lemma nth_points (df : list pair) (i : nat) :
  nth i (points df) (0, 0)%Z = position_of (nth i df dummy_pair).
Proof.
  unfold points. change (0, 0)%Z with (position_of dummy_pair).
  change (fun x : pair => (pos1 x, pos2 x)) with position_of.
  apply map_nth.
Qed.

(** The graph has the edge [(i, j)] exactly when the neighbour query lists
    the pair and every column pair of [need_to_match] compares equal. *)
Lemma graph_edges_spec (backend : string) (df : list pair) (r : Z) (p : norm)
  (extra : list (string * string)) (E : list (nat * nat)) (i j : nat) :
  graph_edges backend df r p extra = Ok E ->
  (In (i, j) E <->
   i < length df /\ j < length df
   /\ (if String.eqb backend "sklearn" then i <> j else i < j)
   /\ (minkowski p (position_of (nth i df dummy_pair))
                   (position_of (nth j df dummy_pair)) <= r)%Z
   /\ nonpos_match (need_to_match extra) (nth i df dummy_pair)
                   (nth j df dummy_pair) = true).
Proof.
  unfold graph_edges, nonpos_matches. intros H.
  apply rbind_Ok in H. destruct H as [a [Ha H]].
  apply rbind_Ok in H. destruct H as [m [Hm H]].
  apply rbind_Ok in Hm. destruct Hm as [u [_ Hm]].
  injection Hm as <-. injection H as <-.
  rewrite (select_map_filter
             (fun ij => nonpos_match (need_to_match extra)
                          (nth (fst ij) df dummy_pair)
                          (nth (snd ij) df dummy_pair))).
  rewrite filter_In. simpl.
  assert (Hcand : In (i, j) a <->
            i < length df /\ j < length df
            /\ (if String.eqb backend "sklearn" then i <> j else i < j)
            /\ (minkowski p (position_of (nth i df dummy_pair))
                  (position_of (nth j df dummy_pair)) <= r)%Z).
  { unfold candidates in Ha.
    destruct (String.eqb backend "sklearn");
      [|destruct (String.eqb backend "scipy"); [|discriminate]];
      injection Ha as <-;
      unfold radius_neighbors, query_pairs, all_index_pairs;
      rewrite filter_In, in_prod_iff, !in_seq; simpl;
      rewrite !nth_points, andb_true_iff, Z.leb_le;
      unfold points; rewrite length_map.
    - rewrite negb_true_iff, Nat.eqb_neq. intuition lia.
    - rewrite Nat.ltb_lt. intuition lia. }
  rewrite Hcand. tauto.
Qed.

Lemma nonpos_match_same_key (extra : list (string * string)) (x y : pair) :
  nonpos_match (need_to_match extra) x y = true -> same_key x y.
Proof.
  unfold nonpos_match, need_to_match. simpl.
  rewrite !andb_true_iff. unfold value, column. simpl.
  intros [H1 [H2 [H3 [H4 _]]]].
  apply String.eqb_eq in H1, H2, H3, H4. unfold same_key. auto.
Qed.

Lemma connected_same_key (backend : string) (df : list pair) (r : Z)
  (p : norm) (extra : list (string * string)) (E : list (nat * nat))
  (i j : nat) :
  graph_edges backend df r p extra = Ok E ->
  connected E i j ->
  same_key (nth i df dummy_pair) (nth j df dummy_pair).
Proof.
  intros HE H. induction H.
  - unfold same_key. auto.
  - apply (graph_edges_spec _ _ _ _ _ _ i j HE) in H.
    eapply nonpos_match_same_key. apply H.
  - unfold same_key in *. intuition congruence.
  - unfold same_key in *. intuition congruence.
Qed.

(* ================================================================== *)
(** * The parent column *)

Lemma lookup_parent_table_from (l : list nat) :
  forall (ids : list string) (seen : list nat) (k : nat),
    length ids = length l -> k < length l ->
    nth k (duplicated_from seen l) false = false ->
    lookup_cluster (nth k l 0)
      (select (map negb (duplicated_from seen l)) (combine l ids))
    = parent (nth k ids ""%string).
Proof.
  induction l as [|c l IH]; intros ids seen k Hl Hk Hd; simpl in Hk; [lia|].
  destruct ids as [|id ids]; [discriminate|]. simpl in Hl.
  destruct k as [|k]; simpl in *.
  - rewrite Hd. simpl. now rewrite Nat.eqb_refl.
  - assert (Hne : nth k l 0 <> c).
    { intros Heq.
      assert (Ht : nth k (duplicated_from (c :: seen) l) false = true).
      { apply duplicated_from_spec; [lia|]. left. left. congruence. }
      congruence. }
    destruct (existsb (Nat.eqb c) seen); simpl.
    + apply IH; auto; lia.
    + apply Nat.eqb_neq in Hne. rewrite Hne. apply IH; auto; lia.
Qed.

Lemma lookup_parent_table (df : list pair) (cl : list nat) (i k : nat) :
  length cl = length df -> i < length cl -> k < length cl ->
  nth k cl 0 = nth i cl 0 ->
  nth k (duplicated cl) false = false ->
  lookup_cluster (nth i cl 0) (parent_table df cl (duplicated cl))
  = parent (readID (nth k df dummy_pair)).
Proof.
  intros Hl Hi Hk Heq Hd. rewrite <- Heq. unfold parent_table, duplicated.
  rewrite lookup_parent_table_from; auto.
  - change ""%string with (readID dummy_pair). now rewrite map_nth.
  - now rewrite length_map.
Qed.

(* ================================================================== *)
(** * Claims on the batch backend *)

(** C5 (as amended).  With [keep_parent_id], the [parent_readID] of a row
    marked duplicate is the [readID] of the unmarked row of its component:
    an earlier row, with the same chromosomes and strands, joined to the
    duplicate by a chain of edges, each edge between two rows within the
    radius. *)
Theorem parent_is_representative (df : list pair) (r : Z) (method : string)
  (extra : list (string * string)) (backend um : string) (out : list row) :
  lib_dedup._dedup_chunk df r method true extra backend um = Ok out ->
  forall i, i < length (mapped_rows um out) ->
  duplicate (nth i (mapped_rows um out) dummy_row) = true ->
  exists p E k,
    method_norm method = Ok p
    /\ graph_edges backend (map data (mapped_rows um out)) r p extra = Ok E
    /\ k < i
    /\ duplicate (nth k (mapped_rows um out) dummy_row) = false
    /\ parent_readID (nth i (mapped_rows um out) dummy_row)
       = parent (readID (data (nth k (mapped_rows um out) dummy_row)))
    /\ index (nth k (mapped_rows um out) dummy_row)
       < index (nth i (mapped_rows um out) dummy_row)
    /\ same_key (data (nth k (mapped_rows um out) dummy_row))
                (data (nth i (mapped_rows um out) dummy_row))
    /\ connected E i k
    /\ (forall a b, In (a, b) E ->
          (minkowski p
             (position_of (data (nth a (mapped_rows um out) dummy_row)))
             (position_of (data (nth b (mapped_rows um out) dummy_row)))
           <= r)%Z).
Proof.
  intros H i Hi Hdup.
  destruct (_dedup_chunk_mapped _ _ _ _ _ _ _ _ H ltac:(lia))
    as [p [E [Hp [HgE [HE [Hlen [Hdata HM]]]]]]].
  cbv zeta in *. set (M := mapped_rows um out) in *. set (n := length M) in *.
  set (dfm := filter (fun t => negb (is_unmapped um (snd t))) (reset_index df))
    in *.
  set (cl := connected_components n E) in *.
  assert (Hcl : length cl = n) by apply length_connected_components.
  assert (Hrow : forall x, x < n ->
            nth x M dummy_row
            = mk_row (fst (nth x dfm (0, dummy_pair)))
                     (snd (nth x dfm (0, dummy_pair)))
                     (nth x (duplicated cl) false)
                     (lookup_cluster (nth x cl 0)
                        (parent_table (map snd dfm) cl (duplicated cl)))).
  { intros x Hx. rewrite HM. apply nth_mark_mapped; lia. }
  assert (Hnd : forall x, nth x (map data M) dummy_pair
                          = data (nth x M dummy_row)).
  { intros x. change dummy_pair with (data dummy_row). apply map_nth. }
  destruct (first_of_component n E i HE Hi) as [k [Hk [Hc Hd]]].
  fold cl in Hd.
  assert (Hki : k < i).
  { destruct (Nat.eq_dec k i) as [->|]; [|lia].
    rewrite (Hrow i Hi) in Hdup. simpl in Hdup. congruence. }
  exists p, E, k.
  split; [assumption|]. split; [assumption|]. split; [assumption|].
  split; [rewrite Hrow by lia; assumption|].
  split.
  { rewrite (Hrow i Hi), (Hrow k ltac:(lia)). simpl.
    rewrite (lookup_parent_table (map snd dfm) cl i k).
    - f_equal. f_equal. change dummy_pair with (snd (0, dummy_pair)).
      apply map_nth.
    - rewrite length_map. lia.
    - lia.
    - lia.
    - assert (Hl : label cl k = label cl i).
      { apply (connected_components_spec n E HE); try lia.
        now apply connected_sym. }
      unfold label in Hl.
      now rewrite (nth_indep _ 0 k), (nth_indep _ 0 i) by lia.
    - assumption. }
  split.
  { eapply mapped_rows_in_input_order; eauto. }
  split.
  { rewrite <- !Hnd.
    apply (connected_same_key backend (map data M) r p extra E); auto.
    now apply connected_sym. }
  split; [assumption|].
  intros a b Hab. rewrite <- !Hnd.
  apply (graph_edges_spec _ _ _ _ _ _ a b HgE) in Hab. tauto.
Qed.

(** The amended C5 at the third read of [chain]. *)
Lemma parent_is_representative_witness :
  exists out,
    lib_dedup._dedup_chunk chain 3 "max" true [] "scipy" "!" = Ok out
    /\ exists p E k,
         method_norm "max" = Ok p
         /\ graph_edges "scipy" (map data (mapped_rows "!" out)) 3 p [] = Ok E
         /\ k < 2
         /\ duplicate (nth k (mapped_rows "!" out) dummy_row) = false
         /\ parent_readID (nth 2 (mapped_rows "!" out) dummy_row)
            = parent (readID (data (nth k (mapped_rows "!" out) dummy_row)))
         /\ index (nth k (mapped_rows "!" out) dummy_row)
            < index (nth 2 (mapped_rows "!" out) dummy_row)
         /\ same_key (data (nth k (mapped_rows "!" out) dummy_row))
                     (data (nth 2 (mapped_rows "!" out) dummy_row))
         /\ connected E 2 k
         /\ (forall a b, In (a, b) E ->
               (minkowski p
                  (position_of (data (nth a (mapped_rows "!" out) dummy_row)))
                  (position_of (data (nth b (mapped_rows "!" out) dummy_row)))
                <= 3)%Z).
Proof.
  eexists. split; [vm_compute; reflexivity|].
  eapply (parent_is_representative chain 3 "max" [] "scipy" "!").
  - vm_compute. reflexivity.
  - vm_compute. lia.
  - vm_compute. reflexivity.
Defined.

(** C5, as the specification states it, fails on [chain]: the parent of
    the third read is the first one, six base pairs away with radius 3. *)
Lemma parent_beyond_radius :
  exists out,
    lib_dedup._dedup_chunk chain 3 "max" true [] "scipy" "!" = Ok out
    /\ ~ parent_within_radius 3 p_inf out.
Proof.
  eexists. split; [vm_compute; reflexivity|].
  intros Hclaim.
  destruct (Hclaim (mk_row 2 (nth 2 chain dummy_pair) true (parent "r1")))
    as [P [HP [_ [Hpar [_ [_ Hdist]]]]]].
  - right. right. left. reflexivity.
  - reflexivity.
  - simpl in Hpar.
    destruct HP as [<-|[<-|[<-|[]]]]; simpl in Hpar; try discriminate.
    vm_compute in Hdist. apply Hdist. reflexivity.
Qed.

(** C2 at the second read of [chain]. *)
Lemma dedup_chunk_representative_witness :
  exists out,
    lib_dedup._dedup_chunk chain 3 "max" false [] "scipy" "!" = Ok out
    /\ exists p E,
         method_norm "max" = Ok p
         /\ graph_edges "scipy" (map data (mapped_rows "!" out)) 3 p [] = Ok E
         /\ (duplicate (nth 1 (mapped_rows "!" out) dummy_row) = false
             <-> forall j, j < length (mapped_rows "!" out) ->
                           connected E 1 j -> 1 <= j)
         /\ (exists k, k < length (mapped_rows "!" out) /\ connected E 1 k
               /\ duplicate (nth k (mapped_rows "!" out) dummy_row) = false
               /\ forall k', k' < length (mapped_rows "!" out) ->
                    connected E 1 k' ->
                    duplicate (nth k' (mapped_rows "!" out) dummy_row) = false ->
                    k' = k)
         /\ (forall j, j < length (mapped_rows "!" out) -> 1 < j ->
               index (nth 1 (mapped_rows "!" out) dummy_row)
               < index (nth j (mapped_rows "!" out) dummy_row)).
Proof.
  eexists. split; [vm_compute; reflexivity|].
  eapply (dedup_chunk_representative chain 3 "max" false [] "scipy" "!").
  - vm_compute. reflexivity.
  - vm_compute. lia.
Defined.

(** C1.  [pairtools_dedup.streaming_dedup] on two reads, one per chunk: the
    first chunk carries one row over, the trimming of the second chunk drops
    a hundred rows, and the second read reaches no stream.  The driver of
    [lib/dedup.py] writes both. *)
Theorem streaming_dedup_drops_current_rows :
  pairtools_dedup._dedup_by_chunk_step "max" false 3 [] false "scipy" [] 0
    [read "r1" 100 200]
  = Ok ([mk_row 0 (read "r1" 100 200) false no_column],
        [read "r1" 100 200], 100)
  /\ sink_records
       (fst (pairtools_dedup.streaming_dedup "max" false 3 [] false "scipy"
               "!" true true false two_far 1))
     = (["r1"], [], [])%string
  /\ snd (pairtools_dedup.streaming_dedup "max" false 3 [] false "scipy"
            "!" true true false two_far 1) = Ok tt
  /\ sink_records
       (fst (lib_dedup.streaming_dedup "max" 100 false 3 [] false "scipy"
               "!" true true false two_far 1))
     = (["r1"; "r2"], [], [])%string.
Proof. repeat split; vm_compute; reflexivity. Qed.

(** C3.  With the extra column pair (phase1, phase2) the batch backend
    compares phase1 of the first row with phase2 of the second: two reads
    equal in every column but [readID] are not linked, and neither is marked
    duplicate; without the extra pair they are linked. *)
Theorem extra_columns_compared_crosswise :
  (forall name, name <> "readID"%string ->
     column name (phased "r1") = column name (phased "r2"))
  /\ graph_edges "scipy" phased_twins 3 p_inf [("phase1", "phase2")%string]
     = Ok []
  /\ graph_edges "sklearn" phased_twins 3 p_inf [("phase1", "phase2")%string]
     = Ok []
  /\ graph_edges "scipy" phased_twins 3 p_inf [] = Ok [(0, 1)]
  /\ result_map (map duplicate)
       (lib_dedup._dedup_chunk phased_twins 3 "max" false
          [("phase1", "phase2")%string] "scipy" "!")
     = Ok [false; false]
  /\ result_map (map duplicate)
       (pairtools_dedup.dedup_chunk phased_twins 3 "max" false
          [("phase1", "phase2")%string] "scipy" "!")
     = Ok [false; false].
Proof.
  split; [|repeat split; vm_compute; reflexivity].
  intros name Hname. unfold column, phased. simpl.
  destruct (String.eqb_spec name "readID"); [contradiction|reflexivity].
Qed.

(** C4.  On a mapped read followed by an unmapped one, both [_dedup_chunk]
    and [dedup_chunk] return the unmapped row first. *)
Theorem dedup_chunk_moves_unmapped_first :
  result_map (map (fun x => (index x, readID (data x))))
    (lib_dedup._dedup_chunk mapped_then_unmapped 3 "max" false [] "scipy" "!")
  = Ok [(1, "u1"); (0, "r1")]%string
  /\ result_map (map (fun x => (index x, readID (data x))))
       (pairtools_dedup.dedup_chunk mapped_then_unmapped 3 "max" false []
          "scipy" "!")
     = Ok [(0, "u1"); (1, "r1")]%string.
Proof. split; vm_compute; reflexivity. Qed.

(** C6.  [_dedup_by_chunk] with chunks of two on [across_chunks]: after the
    first chunk two rows are carried over while [old_i] is 100, so the whole
    second chunk is discarded and the duplicate [r3] is never reported.
    [_dedup_stream] of [lib/dedup.py] trims as many rows as it carried over
    and reports [r3]. *)
Theorem carryover_trim_mismatch :
  result_map (fun t => (length (snd (fst t)), snd t))
    (pairtools_dedup._dedup_by_chunk_step "max" false 3 [] true "scipy" [] 0
       (firstn 2 across_chunks))
  = Ok (2, 100)
  /\ sink_records
       (fst (pairtools_dedup.streaming_dedup "max" false 3 [] true "scipy"
               "!" true true false across_chunks 2))
     = (["r1"; "r2"], [], [])%string
  /\ result_map (fun t => length (snd t))
       (lib_dedup._dedup_stream_step "max" 100 false 3 [] true "scipy" [] 0
          (firstn 2 across_chunks))
     = Ok 2
  /\ sink_records
       (fst (lib_dedup.streaming_dedup "max" 100 false 3 [] true "scipy"
               "!" true true false across_chunks 2))
     = (["r1"; "r2"], ["r3"], [])%string.
Proof. repeat split; vm_compute; reflexivity. Qed.

(** C9, as the specification states it, fails on [late_duplicate] read in
    chunks of three with one row carried over: the first run keeps [a2],
    the second run, on the three reads kept, marks it. *)
Lemma late_duplicate_not_idempotent :
  ~ idempotent
      (fun input => lib_dedup.streaming_dedup "max" 1 false 3 [] false "scipy"
                      "!" true true false input 3)
      late_duplicate.
Proof.
  unfold idempotent. vm_compute. intros [H _]. discriminate H.
Qed.

(** C10.  On an empty body [pairtools_dedup.streaming_dedup] writes nothing
    and ends in the division by [N = 0] of its closing [print]. *)
Theorem streaming_dedup_empty_divides_by_zero (method : string)
  (mark_dups : bool) (max_mismatch : Z)
  (extra_col_pairs : list (string * string)) (save_parent_id : bool)
  (backend unmapped_chrom : string)
  (outstream_dups outstream_unmapped out_stat : bool) (chunksize : nat) :
  pairtools_dedup.streaming_dedup method mark_dups max_mismatch
    extra_col_pairs save_parent_id backend unmapped_chrom outstream_dups
    outstream_unmapped out_stat [] (S chunksize)
  = ([], Raise ZeroDivisionError).
Proof. reflexivity. Qed.

(* ================================================================== *)
(** * A frame without linked rows *)

Lemma ForallOrdPairs_nth {A : Type} (R : A -> A -> Prop) (l : list A) (d : A) :
  ForallOrdPairs R l ->
  forall i j, i < j -> j < length l -> R (nth i l d) (nth j l d).
Proof.
  induction 1 as [|a l Ha Hl IH]; intros i j Hij Hj; simpl in Hj; [lia|].
  destruct j as [|j]; [lia|]. destruct i as [|i]; simpl.
  - rewrite Forall_forall in Ha. apply Ha. apply nth_In. lia.
  - apply IH; lia.
Qed.

Lemma ForallOrdPairs_map_filter {A B : Type} (R : B -> B -> Prop)
  (g : A -> B) (f : A -> bool) (l : list A) (d : A) :
  (forall i j, i < j -> j < length l ->
     f (nth i l d) = true -> f (nth j l d) = true ->
     R (g (nth i l d)) (g (nth j l d))) ->
  ForallOrdPairs R (map g (filter f l)).
Proof.
  induction l as [|a l IH]; intros H; simpl; [constructor|].
  assert (Hl : ForallOrdPairs R (map g (filter f l))).
  { apply IH. intros i j Hij Hj. apply (H (S i) (S j)); simpl; lia. }
  destruct (f a) eqn:Hfa; [|assumption].
  simpl. constructor; [|assumption].
  rewrite Forall_forall. intros y Hy. apply in_map_iff in Hy.
  destruct Hy as [x [<- Hx]]. apply filter_In in Hx. destruct Hx as [Hx Hfx].
  destruct (In_nth _ _ d Hx) as [k [Hk Hkx]].
  specialize (H 0 (S k)). simpl in H. rewrite Hkx in H.
  apply H; auto; lia.
Qed.

Lemma get_loc_incl (df df' : list pair) (name : string) (u : string) :
  incl df' df -> get_loc df name = Ok u -> get_loc df' name = Ok u.
Proof.
  unfold get_loc. intros Hincl.
  destruct (forallb (fun x => is_some (column name x)) df) eqn:Hall;
    [|discriminate].
  intros H. rewrite forallb_forall in Hall.
  assert (H' : forallb (fun x => is_some (column name x)) df' = true).
  { apply forallb_forall. intros x Hx. apply Hall, Hincl, Hx. }
  now rewrite H'.
Qed.

Lemma get_locs_incl (df df' : list pair) (need : list (string * string)) :
  incl df' df -> get_locs df need = Ok tt -> get_locs df' need = Ok tt.
Proof.
  intros Hincl. induction need as [|[lc rc] need IH]; simpl; [auto|].
  intros H. apply rbind_Ok in H. destruct H as [u1 [H1 H]].
  apply rbind_Ok in H. destruct H as [u2 [H2 H]].
  rewrite (get_loc_incl _ _ _ _ Hincl H1). simpl.
  rewrite (get_loc_incl _ _ _ _ Hincl H2). simpl. auto.
Qed.

Lemma graph_edges_inv (backend : string) (df : list pair) (r : Z) (p : norm)
  (extra : list (string * string)) (E : list (nat * nat)) :
  graph_edges backend df r p extra = Ok E ->
  (exists a, candidates backend df r p = Ok a)
  /\ get_locs df (need_to_match extra) = Ok tt.
Proof.
  unfold graph_edges, nonpos_matches. intros H.
  apply rbind_Ok in H. destruct H as [a [Ha H]].
  apply rbind_Ok in H. destruct H as [m [Hm H]].
  apply rbind_Ok in Hm. destruct Hm as [[] [Hg _]].
  split; [now exists a|assumption].
Qed.

Lemma candidates_backend (backend : string) (df df' : list pair) (r : Z)
  (p : norm) (a : list (nat * nat)) :
  candidates backend df r p = Ok a ->
  exists a', candidates backend df' r p = Ok a'.
Proof.
  unfold candidates. destruct (String.eqb backend "sklearn"); [eauto|].
  destruct (String.eqb backend "scipy"); [eauto|discriminate].
Qed.

(** An edge of the graph joins two rows linked in their order of
    appearance. *)
Lemma edge_linked_in_order (backend : string) (df : list pair) (r : Z)
  (p : norm) (extra : list (string * string)) (E : list (nat * nat))
  (i j : nat) :
  graph_edges backend df r p extra = Ok E ->
  i < j -> j < length df ->
  (In (i, j) E \/ In (j, i) E
   <-> linked_in_order backend r p extra (nth i df dummy_pair)
                       (nth j df dummy_pair) = true).
Proof.
  intros HE Hij Hj. unfold linked_in_order, adjacent.
  rewrite (graph_edges_spec _ _ _ _ _ _ i j HE).
  rewrite (graph_edges_spec _ _ _ _ _ _ j i HE).
  rewrite orb_true_iff, !andb_true_iff, !Z.leb_le.
  destruct (String.eqb backend "sklearn"); intuition (try lia; try discriminate).
Qed.

(** A frame no two rows of which are linked has no edge. *)
Lemma graph_edges_unlinked (backend : string) (df : list pair) (r : Z)
  (p : norm) (extra : list (string * string)) :
  (exists a, candidates backend df r p = Ok a) ->
  get_locs df (need_to_match extra) = Ok tt ->
  ForallOrdPairs
    (fun x y => linked_in_order backend r p extra x y = false) df ->
  graph_edges backend df r p extra = Ok [].
Proof.
  intros [a Ha] Hg Hfop.
  assert (HE : exists E, graph_edges backend df r p extra = Ok E).
  { unfold graph_edges, nonpos_matches. rewrite Ha. cbn [rbind].
    rewrite Hg. cbn [rbind]. eauto. }
  destruct HE as [E HE]. rewrite HE. f_equal.
  destruct E as [|[i j] E]; [reflexivity|]. exfalso.
  assert (Hin : In (i, j) ((i, j) :: E)) by now left.
  pose proof (proj1 (graph_edges_spec _ _ _ _ _ _ i j HE) Hin)
    as [Hi [Hj [Hne _]]].
  assert (Hij : i <> j).
  { destruct (String.eqb backend "sklearn"); lia. }
  destruct (Nat.lt_ge_cases i j) as [Hlt|Hge].
  - pose proof (ForallOrdPairs_nth _ _ dummy_pair Hfop i j Hlt Hj) as Hf.
    simpl in Hf.
    assert (Ht : linked_in_order backend r p extra (nth i df dummy_pair)
                   (nth j df dummy_pair) = true).
    { apply (edge_linked_in_order _ _ _ _ _ _ i j HE); auto. }
    congruence.
  - assert (Hlt : j < i) by lia.
    pose proof (ForallOrdPairs_nth _ _ dummy_pair Hfop j i Hlt Hi) as Hf.
    simpl in Hf.
    assert (Ht : linked_in_order backend r p extra (nth j df dummy_pair)
                   (nth i df dummy_pair) = true).
    { apply (edge_linked_in_order _ _ _ _ _ _ j i HE); auto. }
    congruence.
Qed.

Lemma duplicated_from_seq (n s : nat) (seen : list nat) :
  (forall x, In x seen -> x < s) ->
  duplicated_from seen (seq s n) = repeat false n.
Proof.
  revert s seen. induction n as [|n IH]; intros s seen Hseen; simpl;
    [reflexivity|].
  f_equal.
  - destruct (existsb (Nat.eqb s) seen) eqn:He; [|reflexivity].
    apply existsb_eqb_In in He. apply Hseen in He. lia.
  - apply IH. intros x [<-|Hx]; [lia|]. apply Hseen in Hx. lia.
Qed.

Lemma duplicated_seq (n : nat) : duplicated (seq 0 n) = repeat false n.
Proof. apply duplicated_from_seq. intros x []. Qed.

(** Without edges no mapped row is marked. *)
Lemma mark_mapped_no_edges (keep : bool) (dfm : list (nat * pair)) (x : row) :
  In x (mark_mapped keep dfm (seq 0 (length dfm))) -> duplicate x = false.
Proof.
  intros Hx. destruct (In_nth _ _ dummy_row Hx) as [k [Hk <-]].
  rewrite length_mark_mapped in Hk by now rewrite length_seq.
  rewrite nth_mark_mapped; [|now rewrite length_seq|assumption].
  simpl. rewrite duplicated_seq. apply nth_repeat.
Qed.

(* ================================================================== *)
(** * One chunk through [_dedup_stream] *)

Lemma position_head (k : nat) (ix : list nat) :
  lib_dedup.position k (k :: ix) = Some 0.
Proof. simpl. now rewrite Nat.eqb_refl. Qed.

Lemma position_app_skip (k : nat) (l1 l2 : list nat) :
  (forall i, In i l1 -> i <> k) ->
  lib_dedup.position k (l1 ++ k :: l2) = Some (length l1).
Proof.
  induction l1 as [|a l1 IH]; intros H; simpl.
  - now rewrite Nat.eqb_refl.
  - assert (Ha : a <> k) by (apply H; now left).
    apply Nat.eqb_neq in Ha. rewrite Ha.
    rewrite IH; [reflexivity|]. intros i Hi. apply H. now right.
Qed.

Lemma map_index_mark_unmapped (keep : bool) (dfu : list (nat * pair)) :
  map index (mark_unmapped keep dfu) = map fst dfu.
Proof. unfold mark_unmapped. rewrite map_map. reflexivity. Qed.

Lemma skipn_length_app {A : Type} (l1 l2 : list A) :
  skipn (length l1) (l1 ++ l2) = l2.
Proof. induction l1; simpl; auto. Qed.

(** The slice [df_marked.loc[0:, :]] of the first chunk: the whole frame when
    the first row of the input is unmapped, and otherwise only its mapped
    rows, since they follow the unmapped ones. *)
Lemma loc_from_0_dedup_chunk (x : pair) (l : list pair) (r : Z)
  (method : string) (keep : bool) (extra : list (string * string))
  (backend um : string) (out : list row) :
  lib_dedup._dedup_chunk (x :: l) r method keep extra backend um = Ok out ->
  lib_dedup.loc_from 0 out
  = Ok (if is_unmapped um x then out else mapped_rows um out).
Proof.
  intros H.
  destruct (_dedup_chunk_inv _ _ _ _ _ _ _ _ H) as [p [cl [Hp [Hcl Hout]]]].
  destruct (clusterid_column_inv _ _ _ _ _ _ Hcl) as [Hlen _].
  assert (HM : mapped_rows um out
               = mark_mapped keep
                   (filter (fun t => negb (is_unmapped um (snd t)))
                           (reset_index (x :: l))) cl).
  { rewrite Hout. now apply mapped_rows_dedup_chunk. }
  rewrite HM. clear HM. subst out. unfold lib_dedup.loc_from.
  unfold reset_index in *. simpl in *.
  destruct (is_unmapped um x) eqn:Hx; simpl in *.
  - reflexivity.
  - destruct cl as [|c cl]; [discriminate|].
    unfold mark_mapped at 1. simpl.
    rewrite map_app. simpl.
    rewrite map_index_mark_unmapped.
    rewrite position_app_skip.
    + rewrite length_map.
      set (Uo := mark_unmapped keep _).
      replace (length (filter _ _)) with (length Uo)
        by (unfold Uo, mark_unmapped; now rewrite length_map).
      rewrite skipn_length_app. reflexivity.
    + intros i Hi. apply in_map_iff in Hi. destruct Hi as [[a b] [<- Hab]].
      apply filter_In in Hab. destruct Hab as [Hab _].
      apply in_combine_l in Hab. apply in_seq in Hab. simpl. lia.
Qed.

Lemma chunks_fuel_nil {A : Type} (fuel n : nat) :
  @chunks_fuel A fuel n [] = [].
Proof. destruct fuel; reflexivity. Qed.

(** A body that fits in one chunk is read as one frame. *)
Lemma read_table_single {A : Type} (chunksize : nat) (x : A) (l : list A) :
  length (x :: l) <= chunksize ->
  read_table chunksize (x :: l) = Ok [x :: l].
Proof.
  intros H. unfold read_table.
  destruct chunksize as [|n]; [simpl in H; lia|].
  change (Nat.eqb (S n) 0) with false. cbv iota.
  change (length (x :: l)) with (S (length l)).
  cbn [chunks_fuel]. rewrite firstn_all2 by assumption.
  rewrite skipn_all2 by assumption. now rewrite chunks_fuel_nil.
Qed.

Lemma written_app (s : sink) (t1 t2 : list event) :
  written s (t1 ++ t2) = written s t1 ++ written s t2.
Proof.
  induction t1 as [|e t1 IH]; simpl; [reflexivity|].
  destruct e; auto. destruct (sink_eqb s s0); [|auto].
  now rewrite IH, app_assoc.
Qed.

Lemma records_unique_write_chunk (um : string) (od ou os : bool)
  (f : list row) :
  records unique_sink (lib_dedup.write_chunk um od ou os f) = unique_rows um f.
Proof.
  unfold records, lib_dedup.write_chunk, unique_rows.
  destruct os, od, ou; simpl; rewrite ?app_nil_r, map_map; reflexivity.
Qed.

Lemma records_dups_write_chunk (um : string) (od ou os : bool) (f : list row) :
  (forall x, In x f -> duplicate x = false) ->
  records dups_sink (lib_dedup.write_chunk um od ou os f) = [].
Proof.
  intros Hf. unfold records, lib_dedup.write_chunk.
  assert (Hnone : filter (fun x => is_mapped um (data x) && duplicate x) f = []).
  { apply filter_none. intros x Hx. rewrite (Hf x Hx). apply andb_false_r. }
  rewrite Hnone. destruct os, od, ou; reflexivity.
Qed.

Lemma filter_relabel (g : row -> bool) (y : list row) :
  (forall x i, g (mk_row i (data x) (duplicate x) (parent_readID x)) = g x) ->
  map data (filter g (relabel y)) = map data (filter g y).
Proof.
  intros Hg. unfold relabel. generalize 0 as s.
  induction y as [|x y IH]; intros s; simpl; [reflexivity|].
  rewrite Hg. destruct (g x); simpl; now rewrite IH.
Qed.

Lemma unique_rows_relabel (um : string) (y : list row) :
  unique_rows um (relabel y) = unique_rows um y.
Proof. unfold unique_rows. apply filter_relabel. reflexivity. Qed.

Lemma unique_rows_mark_DD (um : string) (y : list row) :
  unique_rows um (map mark_DD y) = unique_rows um y.
Proof.
  unfold unique_rows. induction y as [|x y IH]; simpl; [reflexivity|].
  unfold mark_DD at 1 2 3. destruct (duplicate x) eqn:Hd; simpl.
  - rewrite !andb_false_r. apply IH.
  - rewrite Hd. destruct (is_mapped um (data x)); simpl; now rewrite IH.
Qed.

Lemma duplicate_relabel (y : list row) :
  (forall x, In x y -> duplicate x = false) ->
  forall x, In x (relabel y) -> duplicate x = false.
Proof.
  intros H x Hx. unfold relabel in Hx. apply in_map_iff in Hx.
  destruct Hx as [[i z] [<- Hz]]. apply in_combine_r in Hz. simpl. auto.
Qed.

Lemma duplicate_mark_DD (y : list row) :
  (forall x, In x y -> duplicate x = false) ->
  forall x, In x (map mark_DD y) -> duplicate x = false.
Proof.
  intros H x Hx. apply in_map_iff in Hx. destruct Hx as [z [<- Hz]].
  unfold mark_DD. rewrite (H z Hz). auto.
Qed.

(** [_dedup_chunk] neither adds nor loses a row. *)
Lemma length_dedup_chunk (df : list pair) (r : Z) (method : string)
  (keep : bool) (extra : list (string * string)) (backend um : string)
  (out : list row) :
  lib_dedup._dedup_chunk df r method keep extra backend um = Ok out ->
  length out = length df.
Proof.
  intros H.
  destruct (_dedup_chunk_inv _ _ _ _ _ _ _ _ H) as [p [cl [Hp [Hcl Hout]]]].
  destruct (clusterid_column_inv _ _ _ _ _ _ Hcl) as [Hlen _].
  subst out. rewrite length_app. unfold mark_unmapped. rewrite length_map.
  rewrite length_mark_mapped
    by (now rewrite (length_filter_reset_index
                       (fun y => negb (is_unmapped um y)))).
  rewrite (length_filter_reset_index (is_unmapped um)).
  rewrite (length_filter_reset_index (fun y => negb (is_unmapped um y))).
  apply filter_length.
Qed.

Lemma nth_map_data (M : list row) (i : nat) :
  nth i (map data M) dummy_pair = data (nth i M dummy_row).
Proof. change dummy_pair with (data dummy_row). apply map_nth. Qed.

(** The unmarked mapped rows of a chunk: none is linked to another. *)
Lemma unique_rows_mapped_unlinked (df : list pair) (r : Z) (method : string)
  (keep : bool) (extra : list (string * string)) (backend bang um : string)
  (out : list row) (p : norm) :
  lib_dedup._dedup_chunk df r method keep extra backend bang = Ok out ->
  method_norm method = Ok p ->
  (forall b, In b (unique_rows um (mapped_rows bang out)) ->
     is_unmapped bang b = false)
  /\ ForallOrdPairs
       (fun x y => linked_in_order backend r p extra x y = false)
       (unique_rows um (mapped_rows bang out))
  /\ (unique_rows um (mapped_rows bang out) <> [] ->
      (exists a, candidates backend
                   (unique_rows um (mapped_rows bang out)) r p = Ok a)
      /\ get_locs (unique_rows um (mapped_rows bang out))
                  (need_to_match extra) = Ok tt).
Proof.
  intros H Hp. split.
  { intros b Hb. unfold unique_rows in Hb. apply in_map_iff in Hb.
    destruct Hb as [x [<- Hx]]. apply filter_In in Hx. destruct Hx as [Hx _].
    unfold mapped_rows in Hx. apply filter_In in Hx. destruct Hx as [_ Hx].
    now apply negb_true_iff in Hx. }
  destruct (Nat.eq_dec (length (mapped_rows bang out)) 0) as [H0|H0].
  { apply length_zero_iff_nil in H0. rewrite H0. unfold unique_rows. simpl.
    split; [constructor|]. intros Hne. now elim Hne. }
  destruct (_dedup_chunk_mapped _ _ _ _ _ _ _ _ H ltac:(lia))
    as [p' [E [Hp' [HgE [HE [Hlen [Hdata HM]]]]]]].
  cbv zeta in *. assert (p' = p) by congruence. subst p'.
  set (M := mapped_rows bang out) in *. set (n := length M) in *.
  assert (Hincl : incl (unique_rows um M) (map data M)).
  { intros b Hb. unfold unique_rows in Hb. apply in_map_iff in Hb.
    destruct Hb as [x [<- Hx]]. apply filter_In in Hx. apply in_map. tauto. }
  split.
  - unfold unique_rows.
    apply ForallOrdPairs_map_filter with (d := dummy_row).
    intros i j Hij Hj Hfi Hfj.
    destruct (linked_in_order backend r p extra (data (nth i M dummy_row))
                (data (nth j M dummy_row))) eqn:Hlink; [|reflexivity].
    exfalso. rewrite <- !nth_map_data in Hlink.
    apply (edge_linked_in_order _ _ _ _ _ _ i j HgE Hij) in Hlink;
      [|now rewrite length_map].
    assert (Hc : connected E j i).
    { destruct Hlink as [Hl|Hl];
        [apply connected_sym|]; now apply connected_edge. }
    assert (Hd : nth j (duplicated (connected_components n E)) false = true).
    { apply marked_iff_earlier; auto. exists i. auto. }
    apply andb_true_iff in Hfj. destruct Hfj as [_ Hfj].
    rewrite HM, nth_mark_mapped in Hfj;
      [|now rewrite length_connected_components|fold n in Hj; lia].
    simpl in Hfj. rewrite Hd in Hfj. discriminate.
  - intros _. destruct (graph_edges_inv _ _ _ _ _ _ HgE) as [[a Ha] Hg].
    split.
    + eapply candidates_backend. exact Ha.
    + eapply get_locs_incl; eauto.
Qed.

(** The unique records of a whole marked chunk: those of unmapped rows, then
    those of the mapped rows. *)
Lemma unique_rows_dedup_chunk (df : list pair) (r : Z) (method : string)
  (keep : bool) (extra : list (string * string)) (backend bang um : string)
  (out : list row) :
  lib_dedup._dedup_chunk df r method keep extra backend bang = Ok out ->
  exists A, unique_rows um out = A ++ unique_rows um (mapped_rows bang out)
            /\ forall a, In a A -> is_unmapped bang a = true.
Proof.
  intros H.
  destruct (_dedup_chunk_inv _ _ _ _ _ _ _ _ H) as [p [cl [Hp [Hcl Hout]]]].
  destruct (clusterid_column_inv _ _ _ _ _ _ Hcl) as [Hlen _].
  assert (HM : mapped_rows bang out
               = mark_mapped keep
                   (filter (fun t => negb (is_unmapped bang (snd t)))
                           (reset_index df)) cl).
  { rewrite Hout. now apply mapped_rows_dedup_chunk. }
  rewrite HM. rewrite Hout.
  exists (unique_rows um
            (mark_unmapped keep
               (filter (fun t => is_unmapped bang (snd t)) (reset_index df)))).
  split.
  - unfold unique_rows. now rewrite filter_app, map_app.
  - intros a Ha. unfold unique_rows in Ha. apply in_map_iff in Ha.
    destruct Ha as [x [<- Hx]]. apply filter_In in Hx. destruct Hx as [Hx _].
    unfold mark_unmapped in Hx. apply in_map_iff in Hx.
    destruct Hx as [t [<- Ht]]. apply filter_In in Ht. simpl. tauto.
Qed.

Lemma connected_components_nil (n : nat) : connected_components n [] = seq 0 n.
Proof. reflexivity. Qed.

(** A frame made of unmapped rows followed by mapped rows none of which is
    linked to another comes back in the same order, with no row marked. *)
Lemma dedup_chunk_unlinked (A B : list pair) (r : Z) (method : string)
  (keep : bool) (extra : list (string * string)) (backend bang : string)
  (p : norm) :
  method_norm method = Ok p ->
  (forall a, In a A -> is_unmapped bang a = true) ->
  (forall b, In b B -> is_unmapped bang b = false) ->
  ForallOrdPairs (fun x y => linked_in_order backend r p extra x y = false) B ->
  (B <> [] -> (exists a, candidates backend B r p = Ok a)
              /\ get_locs B (need_to_match extra) = Ok tt) ->
  exists out,
    lib_dedup._dedup_chunk (A ++ B) r method keep extra backend bang = Ok out
    /\ map data out = A ++ B
    /\ forall x, In x out -> duplicate x = false.
Proof.
  intros Hp HA HB Hfop Hok.
  assert (HfB : filter (fun x => negb (is_unmapped bang x)) (A ++ B) = B).
  { rewrite filter_app, filter_none, filter_all; [reflexivity| |].
    - intros x Hx. now rewrite (HB x Hx).
    - intros x Hx. now rewrite (HA x Hx). }
  assert (HfA : filter (is_unmapped bang) (A ++ B) = A).
  { rewrite filter_app, filter_all, filter_none; [apply app_nil_r| |].
    - intros x Hx. now rewrite (HB x Hx).
    - intros x Hx. now rewrite (HA x Hx). }
  assert (Hcl : clusterid_column backend B r p extra = Ok (seq 0 (length B))).
  { unfold clusterid_column. destruct B as [|b B]; [reflexivity|].
    change (Nat.ltb 0 (length (b :: B))) with true. cbv iota.
    destruct Hok as [Hc Hg]; [discriminate|].
    rewrite (graph_edges_unlinked _ _ _ _ _ Hc Hg Hfop). reflexivity. }
  assert (Hlen : length (seq 0 (length B))
                 = length (filter (fun t => negb (is_unmapped bang (snd t)))
                                  (reset_index (A ++ B)))).
  { rewrite (length_filter_reset_index
               (fun y => negb (is_unmapped bang y))), HfB.
    apply length_seq. }
  eexists. split; [|split].
  - unfold lib_dedup._dedup_chunk. rewrite Hp. cbn [rbind].
    rewrite (map_snd_filter_reset_index
               (fun x => negb (is_unmapped bang x))), HfB, Hcl.
    cbn [rbind]. reflexivity.
  - rewrite map_app, map_data_mark_unmapped, map_data_mark_mapped by assumption.
    rewrite (map_snd_filter_reset_index (is_unmapped bang)), HfA.
    now rewrite (map_snd_filter_reset_index
                   (fun x => negb (is_unmapped bang x))), HfB.
  - intros x Hx. apply in_app_or in Hx. destruct Hx as [Hx|Hx].
    + unfold mark_unmapped in Hx. apply in_map_iff in Hx.
      now destruct Hx as [t [<- _]].
    + rewrite length_seq in Hlen. rewrite Hlen in Hx.
      eapply mark_mapped_no_edges; eauto.
Qed.

Section single_chunk.

Variables (method : string) (carryover : nat) (mark_dups : bool) (r : Z)
  (extra : list (string * string)) (keep : bool) (backend um : string)
  (od ou os : bool) (chunksize : nat).

Local Notation run input :=
  (lib_dedup.streaming_dedup method carryover mark_dups r extra keep backend
     um od ou os input chunksize).

Local Notation step input :=
  (lib_dedup._dedup_stream_step method carryover mark_dups r extra keep
     backend [] 0 input).

Lemma streaming_dedup_nil : fst (run []) = [].
Proof.
  unfold lib_dedup.streaming_dedup, lib_dedup._dedup_stream, read_table.
  destruct (Nat.eqb chunksize 0); reflexivity.
Qed.

(** What is written for a body read as one chunk. *)
Lemma streaming_dedup_single (x : pair) (l : list pair) :
  length (x :: l) <= chunksize ->
  fst (run (x :: l))
  = match step (x :: l) with
    | Ok (f, _) => lib_dedup.write_chunk um od ou os f
    | Raise _ => []
    end.
Proof.
  intros H. unfold lib_dedup.streaming_dedup, lib_dedup._dedup_stream.
  rewrite (read_table_single _ _ _ H). cbn [lib_dedup._dedup_stream_loop].
  destruct (step (x :: l)) as [[f c]|e]; simpl; [apply app_nil_r|reflexivity].
Qed.

Lemma dedup_stream_step_first (input : list pair) (f : list row)
  (c : list pair) :
  step input = Ok (f, c) ->
  exists out y,
    lib_dedup._dedup_chunk input r method keep extra backend "!" = Ok out
    /\ lib_dedup.loc_from 0 out = Ok y
    /\ unique_rows um f = unique_rows um y
    /\ ((forall x, In x y -> duplicate x = false) ->
        forall x, In x f -> duplicate x = false).
Proof.
  unfold lib_dedup._dedup_stream_step. simpl app. intros H.
  apply rbind_Ok in H. destruct H as [out [Hout H]].
  apply rbind_Ok in H. destruct H as [y [Hy H]].
  injection H as <- _. exists out, y. split; [assumption|].
  split; [assumption|]. destruct mark_dups.
  - split.
    + now rewrite unique_rows_mark_DD, unique_rows_relabel.
    + intros Hall. apply duplicate_mark_DD, duplicate_relabel, Hall.
  - split.
    + apply unique_rows_relabel.
    + intros Hall. apply duplicate_relabel, Hall.
Qed.

Lemma unique_rows_is_mapped (y : list row) (u : pair) :
  In u (unique_rows um y) -> is_mapped um u = true.
Proof.
  unfold unique_rows. intros H. apply in_map_iff in H.
  destruct H as [x [<- Hx]]. apply filter_In in Hx.
  destruct Hx as [_ Hx]. now apply andb_true_iff in Hx.
Qed.

Lemma unique_rows_unmarked (y : list row) :
  (forall x, In x y -> duplicate x = false) ->
  unique_rows um y = filter (is_mapped um) (map data y).
Proof.
  intros H. unfold unique_rows. rewrite <- filter_map_data. f_equal.
  apply filter_ext_in. intros x Hx. rewrite (H x Hx). apply andb_true_r.
Qed.

(** C9 (as amended).  When the body fits in one chunk, running
    [streaming_dedup] of [lib/dedup.py] on the records it sent to the unique
    stream sends the same records to the unique stream, in the same order,
    and none to the duplicates stream. *)
Theorem single_chunk_idempotent (input : list pair) :
  length input <= chunksize ->
  idempotent (fun i => run i) input.
Proof.
  intros Hfit. unfold idempotent. cbv beta zeta.
  destruct input as [|x l].
  { rewrite streaming_dedup_nil.
    change (records unique_sink []) with (@nil pair).
    rewrite streaming_dedup_nil. split; reflexivity. }
  rewrite (streaming_dedup_single x l Hfit).
  destruct (step (x :: l)) as [[f c]|e] eqn:Hstep;
    [|change (records unique_sink []) with (@nil pair);
      rewrite streaming_dedup_nil; split; reflexivity].
  rewrite records_unique_write_chunk.
  destruct (dedup_stream_step_first _ _ _ Hstep)
    as [out [y [Hout [Hy [Huniq _]]]]].
  rewrite Huniq.
  assert (Hlen : length (unique_rows um y) <= chunksize).
  { apply Nat.le_trans with (length y).
    - unfold unique_rows. rewrite length_map. apply filter_length_le.
    - rewrite (loc_from_0_dedup_chunk _ _ _ _ _ _ _ _ _ Hout) in Hy.
      injection Hy as <-.
      pose proof (length_dedup_chunk _ _ _ _ _ _ _ _ Hout) as Hl.
      destruct (is_unmapped "!" x); [lia|].
      unfold mapped_rows.
      pose proof (filter_length_le
                    (fun z => negb (is_unmapped "!" (data z))) out). lia. }
  pose proof (unique_rows_is_mapped y) as Hmapped.
  assert (Hp : exists p, method_norm method = Ok p).
  { destruct (_dedup_chunk_inv _ _ _ _ _ _ _ _ Hout) as [p [_ [Hp _]]]. eauto. }
  destruct Hp as [p Hp].
  destruct (unique_rows_mapped_unlinked _ _ _ _ _ _ _ um _ _ Hout Hp)
    as [HB [Hfop Hok]].
  assert (Hsplit : exists A,
            unique_rows um y = A ++ unique_rows um (mapped_rows "!" out)
            /\ forall a, In a A -> is_unmapped "!" a = true).
  { rewrite (loc_from_0_dedup_chunk _ _ _ _ _ _ _ _ _ Hout) in Hy.
    injection Hy as <-. destruct (is_unmapped "!" x).
    - eapply unique_rows_dedup_chunk; eauto.
    - exists []. split; [reflexivity|]. intros a []. }
  destruct Hsplit as [A [HU HA]].
  set (B := unique_rows um (mapped_rows "!" out)) in *.
  destruct (dedup_chunk_unlinked A B r method keep extra backend "!" p
              Hp HA HB Hfop Hok) as [out2 [Hout2 [Hdata2 Hflags2]]].
  rewrite HU in *.
  destruct (A ++ B) as [|u U] eqn:HAB.
  { rewrite streaming_dedup_nil. split; reflexivity. }
  rewrite (streaming_dedup_single u U Hlen).
  pose proof (loc_from_0_dedup_chunk _ _ _ _ _ _ _ _ _ Hout2) as Hy2.
  assert (Hy2' : lib_dedup.loc_from 0 out2 = Ok out2).
  { rewrite Hy2. f_equal. destruct (is_unmapped "!" u) eqn:Hu; [reflexivity|].
    unfold mapped_rows. apply filter_all. intros z Hz.
    assert (Hin : In (data z) (u :: U)) by (rewrite <- Hdata2; now apply in_map).
    assert (HAnil : A = []).
    { destruct A as [|a A]; [reflexivity|]. simpl in HAB.
      injection HAB as -> _. rewrite (HA u) in Hu; [discriminate|now left]. }
    subst A. simpl in HAB. rewrite <- HAB in Hin. now rewrite (HB _ Hin). }
  destruct (step (u :: U)) as [[f2 c2]|e2] eqn:Hstep2.
  - destruct (dedup_stream_step_first _ _ _ Hstep2)
      as [out2' [y2 [Hout2' [Hy2'' [Huniq2 Hfl2]]]]].
    assert (out2' = out2) by congruence. subst out2'.
    assert (y2 = out2) by congruence. subst y2.
    rewrite records_unique_write_chunk, Huniq2.
    rewrite records_dups_write_chunk by auto.
    split; [|reflexivity].
    rewrite unique_rows_unmarked by assumption.
    rewrite Hdata2. apply filter_all. intros z Hz. apply Hmapped. exact Hz.
  - exfalso. unfold lib_dedup._dedup_stream_step in Hstep2. simpl app in Hstep2.
    rewrite Hout2 in Hstep2. cbn [rbind] in Hstep2.
    rewrite Hy2' in Hstep2. cbn [rbind] in Hstep2. discriminate.
Qed.

End single_chunk.

(** The amended C9 on [late_duplicate] read as one chunk. *)
Lemma single_chunk_idempotent_witness :
  idempotent
    (fun i => lib_dedup.streaming_dedup "max" 1 false 3 [] false "scipy" "!"
                true true false i 4)
    late_duplicate.
Proof.
  apply (single_chunk_idempotent "max" 1 false 3 [] false "scipy" "!"
           true true false 4 late_duplicate).
  vm_compute. lia.
Defined.

(* ================================================================== *)
(** * The online driver *)

Lemma getitem_nth {A : Type} (l : list A) (k : nat) (d : A) :
  k < length l -> getitem l k = Ok (nth k l d).
Proof.
  intros H. unfold getitem.
  destruct (nth_error l k) as [x|] eqn:E.
  - f_equal. symmetry. now apply nth_error_nth.
  - apply nth_error_None in E. lia.
Qed.

Lemma getitem_Ok {A : Type} (l : list A) (k : nat) (d x : A) :
  getitem l k = Ok x -> k < length l /\ x = nth k l d.
Proof.
  unfold getitem. destruct (nth_error l k) as [y|] eqn:E; [|discriminate].
  intros [= <-]. split.
  - apply nth_error_Some. congruence.
  - symmetry. now apply nth_error_nth.
Qed.

Lemma int_Ok (s : string) (z : Z) : int s = Ok z -> int_or_0 s = z.
Proof.
  unfold int, int_or_0. destruct (parse_int s); [|discriminate].
  now intros [= ->].
Qed.

Lemma int_None (s : string) : parse_int s = None -> int s = Raise ValueError.
Proof. unfold int. now intros ->. Qed.

Lemma io_bind_lift_Ok {A B : Type} (a : A) (k : A -> io B) :
  io_bind (lift (Ok a)) k = k a.
Proof. unfold io_bind, lift. now destruct (k a). Qed.

Lemma io_bind_lift_Raise {A B : Type} (e : exn) (k : A -> io B) :
  io_bind (lift (Raise e)) k = ([], Raise e).
Proof. reflexivity. Qed.

Lemma io_bind_ret {A B : Type} (a : A) (k : A -> io B) :
  io_bind (io_ret a) k = k a.
Proof. unfold io_bind, io_ret. now destruct (k a). Qed.

(** A successful sequence: both parts succeed and the traces follow each
    other. *)
Lemma io_bind_Ok {A B : Type} (m : io A) (k : A -> io B) (tr : list event)
  (b : B) :
  io_bind m k = (tr, Ok b) ->
  exists tr1 a tr2, m = (tr1, Ok a) /\ k a = (tr2, Ok b) /\ tr = tr1 ++ tr2.
Proof.
  unfold io_bind. destruct m as [tr1 [a|e]]; [|discriminate].
  destruct (k a) as [tr2 rb] eqn:Hk. intros [= <- ->].
  exists tr1, a, tr2. auto.
Qed.

Lemma lift_Ok {A : Type} (r : result A) (tr : list event) (a : A) :
  lift r = (tr, Ok a) -> r = Ok a /\ tr = [].
Proof. unfold lift. intros [= <- ->]. auto. Qed.

Section online_driver.

Variable fmt : pairsam_format.
Variable D : OnlineDuplicateDetector.

Variables (method : string) (max_mismatch : Z) (sep : string)
  (c1ind c2ind p1ind p2ind s1ind s2ind : nat)
  (extra_cols1 extra_cols2 : list nat) (unmapped_chrom : string)
  (outstream_dups outstream_unmapped out_stat mark_dups keep_parent_id : bool)
  (readid_ind : nat).

Local Notation maxind :=
  (lib_dedup.maxind fmt c1ind c2ind p1ind p2ind s1ind s2ind extra_cols1
     extra_cols2 out_stat).

Local Notation loop :=
  (lib_dedup.loop fmt D method max_mismatch sep c1ind c2ind p1ind p2ind
     s1ind s2ind extra_cols1 extra_cols2 unmapped_chrom outstream_dups
     outstream_unmapped out_stat mark_dups keep_parent_id readid_ind).

Local Notation process_line :=
  (lib_dedup.process_line fmt D method max_mismatch sep c1ind c2ind p1ind
     p2ind s1ind s2ind extra_cols1 extra_cols2 unmapped_chrom outstream_dups
     outstream_unmapped out_stat mark_dups keep_parent_id readid_ind).

Lemma maxind_bounds :
  c1ind <= maxind /\ c2ind <= maxind /\ p1ind <= maxind /\ p2ind <= maxind
  /\ s1ind <= maxind /\ s2ind <= maxind
  /\ (out_stat = true -> COL_PTYPE fmt <= maxind).
Proof.
  unfold lib_dedup.maxind, lib_dedup.ptind, list_max_nat. simpl.
  destruct (lib_dedup.nonempty extra_cols1 && lib_dedup.nonempty extra_cols2),
    out_stat; repeat split; try lia; intros; try discriminate; lia.
Qed.

(** C8 (as amended).  When the loop takes up a line with both sides mapped
    whose pos1 or pos2 field [int()] does not accept, it raises [ValueError]
    at once: nothing is written or reported for the line, and it is not
    handed to the detector. *)
Theorem unparseable_position_raises
  (st : lib_dedup.state D) (rawline : string) (instream : list string)
  (cols : list string) :
  lib_dedup.is_empty rawline = false ->
  lib_dedup.is_empty (strip_newline rawline) = false ->
  split (strip_newline rawline) sep = Ok cols ->
  maxind < length cols ->
  has_unmapped_side c1ind c2ind unmapped_chrom cols = false ->
  parse_int (nth p1ind cols ""%string) = None
  \/ parse_int (nth p2ind cols ""%string) = None ->
  loop (rawline :: instream) st = ([], Raise ValueError).
Proof.
  intros Hraw Hstrip Hsplit Hlen Hmapped Hbad.
  destruct maxind_bounds as [B1 [B2 [B3 [B4 _]]]].
  cbn [lib_dedup.loop]. rewrite Hraw, Hstrip.
  assert (Hp : process_line st (strip_newline rawline)
               = ([], Raise ValueError)).
  { unfold lib_dedup.process_line. rewrite Hsplit, io_bind_lift_Ok.
    assert (Hle : (length cols <=? maxind) = false)
      by (apply Nat.leb_gt; lia).
    rewrite Hle, io_bind_lift_Ok.
    rewrite (getitem_nth cols c1ind ""%string), io_bind_lift_Ok by lia.
    rewrite (getitem_nth cols c2ind ""%string), io_bind_lift_Ok by lia.
    unfold has_unmapped_side in Hmapped. rewrite Hmapped.
    assert (Hm : lib_dedup.mapped_line D c1ind c2ind p1ind p2ind s1ind s2ind
                   extra_cols1 extra_cols2 st (strip_newline rawline) cols
                 = Raise ValueError).
    { unfold lib_dedup.mapped_line.
      rewrite (getitem_nth cols c1ind ""%string) by lia. cbn [rbind].
      destruct (lib_dedup.fetchadd _ _) as [v1 d1].
      rewrite (getitem_nth cols c2ind ""%string) by lia. cbn [rbind].
      destruct (lib_dedup.fetchadd _ _) as [v2 d2].
      rewrite (getitem_nth cols p1ind ""%string) by lia. cbn [rbind].
      destruct (parse_int (nth p1ind cols ""%string)) as [z1|] eqn:Hz1.
      - destruct Hbad as [Hbad|Hbad]; [discriminate|].
        unfold int at 1. rewrite Hz1. cbn [rbind].
        rewrite (getitem_nth cols p2ind ""%string) by lia. cbn [rbind].
        rewrite (int_None _ Hbad). reflexivity.
      - unfold int at 1. rewrite Hz1. reflexivity. }
    rewrite Hm. apply io_bind_lift_Raise. }
  rewrite Hp. reflexivity.
Qed.

End online_driver.

(** The amended C8 on a position with a letter. *)
Lemma unparseable_position_raises_witness :
  lib_dedup.loop pairsam dedup_cython.detector "max" 3 tab 1 3 2 4 5 6 [] []
    "!" true true true false false 0
    [pairs_line ["r1"; "chr1"; "1x"; "chr2"; "200"; "+"; "+"; "UU"]%string]
    (lib_dedup.initial dedup_cython.detector "max" 3 false)
  = ([], Raise ValueError).
Proof.
  eapply (unparseable_position_raises pairsam dedup_cython.detector "max" 3
            tab 1 3 2 4 5 6 [] [] "!" true true true false false 0).
  - reflexivity.
  - reflexivity.
  - vm_compute. reflexivity.
  - vm_compute. lia.
  - reflexivity.
  - left. reflexivity.
Defined.

(** C8, as the specification states it, fails on a line with the position
    -5, which is read, classified and written, and on a line with an
    unmapped side, which is written before its positions are parsed. *)
Lemma invalid_position_not_rejected :
  ~ position_validated online_run tab 2 4 negative_position_line
  /\ ~ position_validated online_run tab 2 4 unmapped_bad_position_line.
Proof.
  split; intros H.
  - destruct (H _ eq_refl) as [e He]; [left; reflexivity|].
    vm_compute in He. discriminate He.
  - destruct (H _ eq_refl) as [e He]; [left; reflexivity|].
    vm_compute in He. discriminate He.
Qed.

(* ================================================================== *)
(** * Reports of the online driver *)

Lemma skipn_combine {A B : Type} (n : nat) (l : list A) (l' : list B) :
  skipn n (combine l l') = combine (skipn n l) (skipn n l').
Proof.
  revert l l'. induction n as [|n IH]; intros l l'; [reflexivity|].
  destruct l as [|a l]; [reflexivity|].
  destruct l' as [|b l']; simpl; [now rewrite combine_nil|apply IH].
Qed.

Lemma skipn_cons_nth {A : Type} (i : nat) (l : list A) (d : A) :
  i < length l -> skipn i l = nth i l d :: skipn (S i) l.
Proof.
  revert l. induction i as [|i IH]; intros [|a l] H; simpl in *; try lia.
  - reflexivity.
  - apply IH. lia.
Qed.

Lemma skipn_S_update {A : Type} (i : nat) (l : list A) (x : A) :
  skipn (S i) (update l i x) = skipn (S i) l.
Proof.
  revert l. induction i as [|i IH]; intros [|a l]; simpl; auto.
  apply IH.
Qed.

Lemma length_update {A : Type} (i : nat) (l : list A) (x : A) :
  length (update l i x) = length l.
Proof.
  revert l. induction i as [|i IH]; intros [|a l]; simpl; auto.
Qed.

Lemma combine_app_split {A B : Type} (r1 r2 : list B) (X Y : list A) :
  length r1 <= length X ->
  combine (X ++ Y) (r1 ++ r2)
  = combine X r1 ++ combine (skipn (length r1) X ++ Y) r2.
Proof.
  revert X. induction r1 as [|b r1 IH]; intros X H; simpl.
  - now rewrite combine_nil.
  - destruct X as [|x X]; simpl in *; [lia|].
    f_equal. apply IH. lia.
Qed.

Section online_reports.

Variable fmt : pairsam_format.
Variable D : OnlineDuplicateDetector.

Variables (method : string) (max_mismatch : Z) (sep : string)
  (c1ind c2ind p1ind p2ind s1ind s2ind : nat)
  (extra_cols1 extra_cols2 : list nat) (unmapped_chrom : string)
  (outstream_dups outstream_unmapped mark_dups keep_parent_id : bool)
  (readid_ind : nat).

Local Notation call :=
  (call_of c1ind c2ind p1ind p2ind s1ind s2ind (COL_PTYPE fmt)).

Local Notation classified :=
  (classified_events c1ind c2ind p1ind p2ind s1ind s2ind (COL_PTYPE fmt)).

Local Notation P := (filter (is_classified_event unmapped_chrom)).

Local Notation Q := (filter (is_unmapped_call unmapped_chrom)).

Local Notation unmapped_side :=
  (has_unmapped_side c1ind c2ind unmapped_chrom).

(** A successful report is one call of [add_pair], on the columns of the
    line. *)
Lemma report_Ok (cols : list string) (tag : option string)
  (tr : list event) (u : unit) :
  lib_dedup.report fmt c1ind c2ind p1ind p2ind s1ind s2ind cols tag
  = (tr, Ok u) ->
  tr = [call cols tag].
Proof.
  unfold lib_dedup.report. intros H.
  apply io_bind_Ok in H. destruct H as [t1 [a1 [r1 [H1 [H ->]]]]].
  apply io_bind_Ok in H. destruct H as [t2 [a2 [r2 [H2 [H ->]]]]].
  apply io_bind_Ok in H. destruct H as [t3 [a3 [r3 [H3 [H ->]]]]].
  apply io_bind_Ok in H. destruct H as [t4 [a4 [r4 [H4 [H ->]]]]].
  apply io_bind_Ok in H. destruct H as [t5 [a5 [r5 [H5 [H ->]]]]].
  apply io_bind_Ok in H. destruct H as [t6 [a6 [r6 [H6 [H ->]]]]].
  apply io_bind_Ok in H. destruct H as [t7 [a7 [r7 [H7 [H ->]]]]].
  apply lift_Ok in H1, H2, H3, H4, H5, H6, H7.
  destruct H1 as [H1 ->], H2 as [H2 ->], H3 as [H3 ->], H4 as [H4 ->],
    H5 as [H5 ->], H6 as [H6 ->], H7 as [H7 ->].
  unfold emit in H. injection H as <-. simpl.
  apply (getitem_Ok _ _ ""%string) in H1, H3, H4, H6.
  apply rbind_Ok in H2, H5.
  destruct H2 as [f2 [G2 I2]], H5 as [f5 [G5 I5]].
  apply (getitem_Ok _ _ ""%string) in G2, G5.
  apply int_Ok in I2, I5.
  destruct H1 as [_ ->], H3 as [_ ->], H4 as [_ ->], H6 as [_ ->],
    G2 as [_ ->], G5 as [_ ->].
  unfold call_of. rewrite I2, I5. f_equal. f_equal.
  destruct tag as [t|].
  - now injection H7.
  - apply (getitem_Ok _ _ ""%string) in H7. tauto.
Qed.

Lemma classified_call (cols : list string) (tag : option string) :
  is_classified_event unmapped_chrom (call cols tag)
  = negb (unmapped_side cols).
Proof. reflexivity. Qed.

Lemma unmapped_call (cols : list string) (tag : option string) :
  is_unmapped_call unmapped_chrom (call cols tag) = unmapped_side cols.
Proof. reflexivity. Qed.

(** One pass of the loop over the detector's marks. *)
Lemma emit_one_Ok (i : nat) (dup : bool) (parents : list Z)
  (lb : list string) (cb cb' : list (list string)) (tr : list event) :
  lib_dedup.emit_one fmt sep c1ind c2ind p1ind p2ind s1ind s2ind
    outstream_dups true mark_dups keep_parent_id readid_ind i dup parents
    lb cb = (tr, Ok cb') ->
  length lb = length cb ->
  unmapped_side (nth i cb []) = false ->
  i < length cb
  /\ P tr = classified (nth i lb ""%string, nth i cb [], dup)
  /\ Q tr = []
  /\ (cb' = cb \/ exists c, cb' = update cb i c).
Proof.
  unfold lib_dedup.emit_one. intros H Hlen Hm. destruct dup; cbn [negb] in H.
  - apply io_bind_Ok in H. destruct H as [t1 [[] [r1 [H1 [H ->]]]]].
    apply io_bind_Ok in H1. destruct H1 as [t2 [cols [r2 [H2 [H1 ->]]]]].
    apply lift_Ok in H2. destruct H2 as [H2 ->].
    apply (getitem_Ok _ _ []) in H2. destruct H2 as [Hi ->].
    apply report_Ok in H1. subst r2. split; [assumption|].
    assert (Hrest : P r1 = [] /\ Q r1 = []
                    /\ (cb' = cb \/ exists c, cb' = update cb i c)).
    { destruct outstream_dups.
      - apply io_bind_Ok in H. destruct H as [t3 [oc [r3 [H3 [H ->]]]]].
        apply io_bind_Ok in H. destruct H as [t4 [output [r4 [H4 [H ->]]]]].
        apply io_bind_Ok in H. destruct H as [t5 [[] [r5 [H5 [H ->]]]]].
        apply io_bind_Ok in H. destruct H as [t6 [[] [r6 [H6 [H ->]]]]].
        apply lift_Ok in H3, H4. destruct H3 as [H3 ->], H4 as [H4 ->].
        unfold emit in H5, H6. injection H5 as <-. injection H6 as <-.
        unfold io_ret in H. injection H as <- <-.
        split; [reflexivity|]. split; [reflexivity|].
        destruct mark_dups.
        + apply rbind_Ok in H3. destruct H3 as [c0 [_ H3]].
          apply rbind_Ok in H3. destruct H3 as [c1 [_ H3]].
          injection H3 as <-. right. simpl. eauto.
        + apply rbind_Ok in H3. destruct H3 as [l0 [_ H3]].
          injection H3 as <-. now left.
      - unfold io_ret in H. injection H as <- <-. auto. }
    destruct Hrest as [HP [HQ Hcb]].
    rewrite !filter_app, HP, HQ. unfold has_unmapped_side in Hm.
    simpl. rewrite Hm. simpl. auto.
  - apply io_bind_Ok in H. destruct H as [t1 [line [r1 [H1 [H ->]]]]].
    apply io_bind_Ok in H. destruct H as [t2 [[] [r2 [H2 [H ->]]]]].
    apply io_bind_Ok in H. destruct H as [t3 [[] [r3 [H3 [H ->]]]]].
    apply io_bind_Ok in H. destruct H as [t4 [[] [r4 [H4 [H ->]]]]].
    apply io_bind_Ok in H4. destruct H4 as [t5 [cols [r5 [H5 [H4 ->]]]]].
    apply lift_Ok in H1, H5. destruct H1 as [H1 ->], H5 as [H5 ->].
    apply (getitem_Ok _ _ ""%string) in H1. destruct H1 as [_ ->].
    apply (getitem_Ok _ _ []) in H5. destruct H5 as [Hi ->].
    apply report_Ok in H4. subst r5.
    unfold emit in H2, H3. injection H2 as <-. injection H3 as <-.
    unfold io_ret in H. injection H as <- <-.
    split; [assumption|]. unfold has_unmapped_side in Hm.
    simpl. rewrite Hm. simpl. auto.
Qed.

Lemma emit_all_Ok (res : list bool) :
  forall (i : nat) (parents : list Z) (lb : list string)
    (cb cb' : list (list string)) (tr : list event),
    lib_dedup.emit_all fmt sep c1ind c2ind p1ind p2ind s1ind s2ind
      outstream_dups true mark_dups keep_parent_id readid_ind i res parents
      lb cb = (tr, Ok cb') ->
    length lb = length cb ->
    i <= length cb ->
    Forall (fun c => unmapped_side c = false) (skipn i cb) ->
    i + length res <= length cb
    /\ P tr = flat_map classified
                (combine (combine (skipn i lb) (skipn i cb)) res)
    /\ Q tr = []
    /\ length cb' = length cb
    /\ skipn (i + length res) cb' = skipn (i + length res) cb.
Proof.
  induction res as [|dup res IH];
    intros i parents lb cb cb' tr H Hlen Hile Hall.
  - simpl in H. unfold io_ret in H. injection H as <- <-.
    rewrite combine_nil. simpl. rewrite Nat.add_0_r.
    repeat split; auto.
  - cbn [lib_dedup.emit_all] in H.
    apply io_bind_Ok in H. destruct H as [t1 [cb1 [t2 [H1 [H2 ->]]]]].
    assert (Hi : i < length cb).
    { unfold lib_dedup.emit_one in H1.
      destruct dup; cbn [negb] in H1.
      - apply io_bind_Ok in H1. destruct H1 as [a [[] [b [H1 _]]]].
        apply io_bind_Ok in H1. destruct H1 as [a' [c [b' [H1 _]]]].
        apply lift_Ok in H1. destruct H1 as [H1 _].
        now apply (getitem_Ok _ _ []) in H1.
      - apply io_bind_Ok in H1. destruct H1 as [a [l [b [H1 _]]]].
        apply lift_Ok in H1. destruct H1 as [H1 _].
        apply (getitem_Ok _ _ ""%string) in H1. lia. }
    rewrite (skipn_cons_nth i cb []) in Hall by assumption.
    inversion Hall as [|c l Hc Hl]; subst.
    destruct (emit_one_Ok _ _ _ _ _ _ _ H1 Hlen Hc)
      as [_ [HP1 [HQ1 Hcb1]]].
    assert (Hlen1 : length lb = length cb1).
    { destruct Hcb1 as [->|[c ->]]; [assumption|].
      now rewrite length_update. }
    assert (Hskip1 : skipn (S i) cb1 = skipn (S i) cb).
    { destruct Hcb1 as [->|[c ->]]; [reflexivity|]. apply skipn_S_update. }
    assert (Hall1 : Forall (fun c => unmapped_side c = false)
                      (skipn (S i) cb1)) by now rewrite Hskip1.
    assert (Hile1 : S i <= length cb1) by lia.
    destruct (IH _ _ _ _ _ _ H2 Hlen1 Hile1 Hall1)
      as [Hle [HP2 [HQ2 [Hl2 Hs2]]]].
    assert (Hcb1len : length cb1 = length cb) by lia.
    simpl length. split; [lia|].
    rewrite !filter_app, HP1, HP2, HQ1, HQ2, Hskip1.
    rewrite (skipn_cons_nth i cb []) by assumption.
    rewrite (skipn_cons_nth i lb ""%string) by lia.
    split; [reflexivity|]. split; [reflexivity|]. split; [lia|].
    replace (i + S (length res)) with (S i + length res) by lia.
    rewrite Hs2.
    replace (S i + length res) with (length res + S i) by lia.
    rewrite <- !skipn_skipn. now rewrite Hskip1.
Qed.

End online_reports.

Lemma Forall_skipn_of {A : Type} (Pr : A -> Prop) (n : nat) (l : list A) :
  Forall Pr l -> Forall Pr (skipn n l).
Proof.
  revert l. induction n as [|n IH]; intros [|a l] H; simpl; auto.
  inversion H; subst. auto.
Qed.

Lemma combine_app_eq {A B : Type} (l1 l2 : list A) (r1 r2 : list B) :
  length l1 = length r1 ->
  combine (l1 ++ l2) (r1 ++ r2) = combine l1 r1 ++ combine l2 r2.
Proof.
  revert r1. induction l1 as [|a l1 IH]; intros [|b r1] H; simpl in *;
    try discriminate; [reflexivity|].
  f_equal. apply IH. lia.
Qed.

Section online_loop.

Variable fmt : pairsam_format.
Variable D : OnlineDuplicateDetector.

Variables (method : string) (max_mismatch : Z) (sep : string)
  (c1ind c2ind p1ind p2ind s1ind s2ind : nat)
  (extra_cols1 extra_cols2 : list nat) (unmapped_chrom : string)
  (outstream_dups outstream_unmapped mark_dups keep_parent_id : bool)
  (readid_ind : nat).

Local Notation call :=
  (call_of c1ind c2ind p1ind p2ind s1ind s2ind (COL_PTYPE fmt)).

Local Notation classified :=
  (classified_events c1ind c2ind p1ind p2ind s1ind s2ind (COL_PTYPE fmt)).

Local Notation P := (filter (is_classified_event unmapped_chrom)).

Local Notation Q := (filter (is_unmapped_call unmapped_chrom)).

Local Notation unmapped_side :=
  (has_unmapped_side c1ind c2ind unmapped_chrom).

Local Notation consistent :=
  (buffers_consistent c1ind c2ind unmapped_chrom D).

Local Notation flush :=
  (lib_dedup.flush fmt D sep c1ind c2ind p1ind p2ind s1ind s2ind
     outstream_dups true mark_dups keep_parent_id readid_ind).

Local Notation process_line :=
  (lib_dedup.process_line fmt D method max_mismatch sep c1ind c2ind p1ind
     p2ind s1ind s2ind extra_cols1 extra_cols2 unmapped_chrom outstream_dups
     outstream_unmapped true mark_dups keep_parent_id readid_ind).

Local Notation loop :=
  (lib_dedup.loop fmt D method max_mismatch sep c1ind c2ind p1ind p2ind
     s1ind s2ind extra_cols1 extra_cols2 unmapped_chrom outstream_dups
     outstream_unmapped true mark_dups keep_parent_id readid_ind).

Lemma length_buffered (st : lib_dedup.state D) :
  consistent st -> length (buffered D st) = length (lib_dedup.cols_buffer D st).
Proof.
  intros [H _]. unfold buffered. rewrite length_combine. lia.
Qed.

(** A flush releases a prefix of the buffer, in order. *)
Lemma flush_Ok (at_end : bool) (st st' : lib_dedup.state D)
  (tr : list event) :
  flush at_end st = (tr, Ok st') ->
  consistent st ->
  exists res,
    length res <= length (buffered D st)
    /\ P tr = flat_map classified (combine (buffered D st) res)
    /\ Q tr = []
    /\ buffered D st' = skipn (length res) (buffered D st)
    /\ consistent st'
    /\ (at_end = true -> length res = length (buffered D st)).
Proof.
  intros H Hc. pose proof (length_buffered st Hc) as Hlb.
  destruct Hc as [Hlen Hall].
  unfold lib_dedup.flush in H.
  apply io_bind_Ok in H. destruct H as [t1 [a1 [r1 [H1 [H ->]]]]].
  apply io_bind_Ok in H. destruct H as [t2 [a2 [r2 [H2 [H ->]]]]].
  apply io_bind_Ok in H. destruct H as [t3 [a3 [r3 [H3 [H ->]]]]].
  apply io_bind_Ok in H. destruct H as [t4 [a4 [r4 [H4 [H ->]]]]].
  apply io_bind_Ok in H. destruct H as [t5 [a5 [r5 [H5 [H ->]]]]].
  apply io_bind_Ok in H. destruct H as [t6 [a6 [r6 [H6 [H ->]]]]].
  apply lift_Ok in H1, H2, H3, H4, H5, H6.
  destruct H1 as [_ ->], H2 as [_ ->], H3 as [_ ->], H4 as [_ ->],
    H5 as [_ ->], H6 as [_ ->].
  cbv zeta in H.
  set (pushed := push D (lib_dedup.dd D st) a1 a2 a3 a4 a5 a6) in *.
  set (finished := finish D (fst pushed)) in *.
  set (res := if at_end then fst (snd pushed) ++ fst (snd finished)
              else fst (snd pushed)) in *.
  set (parents := if at_end then snd (snd pushed) ++ snd (snd finished)
                  else snd (snd pushed)) in *.
  apply io_bind_Ok in H. destruct H as [t7 [cb1 [r7 [H7 [H ->]]]]].
  apply io_bind_Ok in H. destruct H as [t8 [[] [r8 [H8 [H ->]]]]].
  apply lift_Ok in H8. destruct H8 as [H8 ->].
  unfold io_ret in H. injection H as <- <-.
  destruct (emit_all_Ok fmt sep c1ind c2ind p1ind p2ind s1ind s2ind
              unmapped_chrom outstream_dups mark_dups keep_parent_id
              readid_ind res 0 parents _ _ _ _ H7 Hlen (Nat.le_0_l _) Hall)
    as [Hle [HP [HQ [Hl1 Hs1]]]].
  simpl in Hle, HP, Hs1.
  exists res. simpl. rewrite !app_nil_r.
  unfold buffered in *. simpl.
  split; [lia|]. split; [assumption|]. split; [assumption|].
  split; [now rewrite skipn_combine, Hs1|].
  split.
  - unfold buffers_consistent. simpl. split.
    + rewrite !length_skipn. lia.
    + rewrite Hs1. now apply Forall_skipn_of.
  - intros ->. simpl in H8.
    destruct (length (skipn (length res) (lib_dedup.line_buffer D st)) =? 0)
      eqn:E; [|discriminate].
    apply Nat.eqb_eq in E. rewrite length_skipn in E. lia.
Qed.

Lemma mapped_line_Ok (st st1 : lib_dedup.state D) (s : string)
  (cols : list string) :
  lib_dedup.mapped_line D c1ind c2ind p1ind p2ind s1ind s2ind extra_cols1
    extra_cols2 st s cols = Ok st1 ->
  lib_dedup.line_buffer D st1 = lib_dedup.line_buffer D st ++ [s]
  /\ lib_dedup.cols_buffer D st1 = lib_dedup.cols_buffer D st ++ [cols].
Proof.
  unfold lib_dedup.mapped_line. intros H.
  apply rbind_Ok in H. destruct H as [k1 [_ H]].
  destruct (lib_dedup.fetchadd k1 _) as [v1 d1].
  apply rbind_Ok in H. destruct H as [k2 [_ H]].
  destruct (lib_dedup.fetchadd k2 _) as [v2 d2].
  apply rbind_Ok in H. destruct H as [f1 [_ H]].
  apply rbind_Ok in H. destruct H as [z1 [_ H]].
  apply rbind_Ok in H. destruct H as [f2 [_ H]].
  apply rbind_Ok in H. destruct H as [z2 [_ H]].
  apply rbind_Ok in H. destruct H as [keys [_ H]].
  destruct (lib_dedup.fetchadd (fst keys) _) as [w1 e1].
  destruct (lib_dedup.fetchadd (snd keys) _) as [w2 e2].
  injection H as <-. simpl. auto.
Qed.

(** One line: the line joins the buffer or is reported as unmapped, and a
    prefix of the buffer may be released. *)
Lemma process_line_Ok (st st' : lib_dedup.state D) (s : string)
  (tr : list event) :
  process_line st s = (tr, Ok st') ->
  consistent st ->
  exists res cols,
    split s sep = Ok cols
    /\ length res
       <= length (buffered D st
                  ++ (if unmapped_side cols then [] else [(s, cols)]))
    /\ P tr = flat_map classified
                (combine (buffered D st
                          ++ (if unmapped_side cols then [] else [(s, cols)]))
                         res)
    /\ Q tr = (if unmapped_side cols then [call cols None] else [])
    /\ buffered D st'
       = skipn (length res)
               (buffered D st
                ++ (if unmapped_side cols then [] else [(s, cols)]))
    /\ consistent st'.
Proof.
  intros H Hc. unfold lib_dedup.process_line in H.
  apply io_bind_Ok in H. destruct H as [t1 [cols [r1 [H1 [H ->]]]]].
  apply lift_Ok in H1. destruct H1 as [Hsplit ->].
  apply io_bind_Ok in H. destruct H as [t2 [[] [r2 [H2 [H ->]]]]].
  apply lift_Ok in H2. destruct H2 as [_ ->].
  apply io_bind_Ok in H. destruct H as [t3 [k1 [r3 [H3 [H ->]]]]].
  apply io_bind_Ok in H. destruct H as [t4 [k2 [r4 [H4 [H ->]]]]].
  apply lift_Ok in H3, H4. destruct H3 as [H3 ->], H4 as [H4 ->].
  apply (getitem_Ok _ _ ""%string) in H3, H4.
  destruct H3 as [_ ->], H4 as [_ ->].
  apply io_bind_Ok in H. destruct H as [t5 [st1 [r5 [H5 [H ->]]]]].
  simpl app. cbv zeta in H.
  fold (unmapped_side cols) in H5.
  (* the branch *)
  assert (Hbranch :
            P t5 = [] /\ Q t5 = (if unmapped_side cols then [call cols None]
                                 else [])
            /\ buffered D st1
               = buffered D st
                 ++ (if unmapped_side cols then [] else [(s, cols)])
            /\ consistent st1).
  { destruct (unmapped_side cols) eqn:Hu.
    - apply io_bind_Ok in H5. destruct H5 as [t6 [[] [r6 [H6 [H5 ->]]]]].
      unfold io_ret in H5. injection H5 as <- <-.
      unfold lib_dedup.unmapped_line in H6.
      apply io_bind_Ok in H6. destruct H6 as [t7 [[] [r7 [H7 [H6 ->]]]]].
      apply report_Ok in H6. subst r7.
      assert (Hw : P t7 = [] /\ Q t7 = []).
      { destruct outstream_unmapped.
        - apply io_bind_Ok in H7. destruct H7 as [t8 [[] [r8 [H8 [H7 ->]]]]].
          unfold emit in H7, H8. injection H7 as <-. injection H8 as <-.
          split; reflexivity.
        - unfold io_ret in H7. injection H7 as <-. split; reflexivity. }
      destruct Hw as [HwP HwQ].
      rewrite ?app_nil_r, !filter_app, HwP, HwQ.
      unfold has_unmapped_side in Hu. simpl. rewrite Hu. simpl.
      rewrite ?app_nil_r. auto.
    - apply lift_Ok in H5. destruct H5 as [H5 ->].
      apply mapped_line_Ok in H5. destruct H5 as [Hl1 Hc1].
      destruct Hc as [Hlen Hall].
      split; [reflexivity|]. split; [reflexivity|]. split.
      + unfold buffered. rewrite Hl1, Hc1.
        now rewrite combine_app_eq by assumption.
      + unfold buffers_consistent. rewrite Hl1, Hc1, !length_app. simpl.
        split; [lia|]. apply Forall_app. split; [assumption|].
        constructor; [assumption|constructor]. }
  destruct Hbranch as [HP5 [HQ5 [Hb1 Hc1]]].
  set (st2 := lib_dedup.mk_state D _ _ _ _ _ _ _ _ _ _ _ _ _ _) in H.
  assert (Hb2 : buffered D st2 = buffered D st1) by reflexivity.
  assert (Hc2 : consistent st2) by exact Hc1.
  destruct (length (lib_dedup.c1 D st2) =? _).
  - destruct (flush_Ok false _ _ _ H Hc2)
      as [res [Hle [HP [HQ [Hb [Hc' _]]]]]].
    exists res, cols. rewrite Hb2, Hb1 in *.
    rewrite !filter_app, HP5, HQ5, HP, HQ, app_nil_r. simpl.
    repeat split; auto; apply Hc'.
  - unfold io_ret in H. injection H as <- <-.
    exists [], cols. rewrite combine_nil, app_nil_r. simpl.
    rewrite HP5, HQ5, Hb2, Hb1.
    repeat split; auto; try lia; apply Hc2.
Qed.

Local Notation mapped_lines instream :=
  (filter (fun x => negb (unmapped_side (snd x))) (lines_read sep instream)).

Local Notation unmapped_lines instream :=
  (filter (fun x => unmapped_side (snd x)) (lines_read sep instream)).

(** The whole loop: every buffered or later mapped line is classified once,
    in order, and every line with an unmapped side is reported once, in
    order. *)
Lemma loop_Ok (instream : list string) :
  forall (st st' : lib_dedup.state D) (tr : list event),
    loop instream st = (tr, Ok st') ->
    consistent st ->
    exists res,
      length res = length (buffered D st ++ mapped_lines instream)
      /\ P tr = flat_map classified
                  (combine (buffered D st ++ mapped_lines instream) res)
      /\ Q tr = map (fun x => call (snd x) None) (unmapped_lines instream).
Proof.
  induction instream as [|rawline instream IH]; intros st st' tr H Hc.
  - cbn [lib_dedup.loop] in H.
    destruct (flush_Ok true _ _ _ H Hc) as [res [_ [HP [HQ [_ [_ He]]]]]].
    exists res. simpl. rewrite app_nil_r. auto.
  - cbn [lib_dedup.loop lines_read] in *.
    destruct (lib_dedup.is_empty rawline).
    { destruct (flush_Ok true _ _ _ H Hc) as [res [_ [HP [HQ [_ [_ He]]]]]].
      exists res. simpl. rewrite app_nil_r. auto. }
    destruct (lib_dedup.is_empty (strip_newline rawline)).
    { eapply IH; eauto. }
    apply io_bind_Ok in H. destruct H as [t1 [st1 [t2 [H1 [H2 ->]]]]].
    destruct (process_line_Ok _ _ _ _ H1 Hc)
      as [res1 [cols [Hsplit [Hle [HP1 [HQ1 [Hb1 Hc1]]]]]]].
    destruct (IH _ _ _ H2 Hc1) as [res2 [Hl2 [HP2 HQ2]]].
    rewrite Hsplit. cbn [filter snd].
    exists (res1 ++ res2).
    rewrite !filter_app, HP1, HP2, HQ1, HQ2, Hb1.
    rewrite Hb1 in Hl2. rewrite length_app, length_skipn in Hl2.
    destruct (unmapped_side cols) eqn:Hu; cbn [negb].
    + rewrite app_nil_r in *. split; [rewrite !length_app in *; lia|].
      split; [|reflexivity].
      rewrite combine_app_split by assumption.
      now rewrite flat_map_app.
    + split; [rewrite !length_app in *; simpl in *; lia|].
      split; [|reflexivity].
      rewrite <- flat_map_app. f_equal.
      rewrite <- combine_app_split by assumption.
      now rewrite <- app_assoc.
Qed.

(** C7 (as amended).  With a statistics sink, a run of
    [streaming_dedup_cython] that ends normally has called [add_pair] once
    for every line read: for a line with an unmapped side when it is read,
    with its pair type; for a mapped line when its classification is
    released, with "DD" when it is marked duplicate and with its pair type
    when it goes to the unique stream, whatever [mark_dups] is.  The calls
    for mapped lines are in input order and so are the calls for lines with
    an unmapped side. *)
Theorem add_pair_once_per_record (instream : list string) (tr : list event) :
  lib_dedup.streaming_dedup_cython fmt D method max_mismatch sep c1ind c2ind
    p1ind p2ind s1ind s2ind extra_cols1 extra_cols2 unmapped_chrom
    outstream_dups outstream_unmapped true mark_dups keep_parent_id
    readid_ind instream = (tr, Ok tt) ->
  exists res,
    length res = length (mapped_lines instream)
    /\ filter (is_classified_event unmapped_chrom) tr
       = flat_map classified (combine (mapped_lines instream) res)
    /\ filter (is_unmapped_call unmapped_chrom) tr
       = map (fun x => call (snd x) None) (unmapped_lines instream).
Proof.
  unfold lib_dedup.streaming_dedup_cython. intros H.
  apply io_bind_Ok in H. destruct H as [t1 [st' [t2 [H1 [H2 ->]]]]].
  unfold io_ret in H2. injection H2 as <-. rewrite app_nil_r.
  apply loop_Ok in H1.
  - exact H1.
  - split; [reflexivity|constructor].
Qed.

End online_loop.

(** The amended C7 on a mapped line followed by a line with an unmapped
    side. *)
Lemma add_pair_once_per_record_witness :
  exists res,
    length res
    = length (filter (fun x => negb (has_unmapped_side 1 3 "!" (snd x)))
                     (lines_read tab mapped_then_unmapped_lines))
    /\ filter (is_classified_event "!") (fst (online_run mapped_then_unmapped_lines))
       = flat_map (classified_events 1 3 2 4 5 6 (COL_PTYPE pairsam))
           (combine (filter (fun x => negb (has_unmapped_side 1 3 "!" (snd x)))
                            (lines_read tab mapped_then_unmapped_lines)) res)
    /\ filter (is_unmapped_call "!") (fst (online_run mapped_then_unmapped_lines))
       = map (fun x => call_of 1 3 2 4 5 6 (COL_PTYPE pairsam) (snd x) None)
             (filter (fun x => has_unmapped_side 1 3 "!" (snd x))
                     (lines_read tab mapped_then_unmapped_lines)).
Proof.
  apply (add_pair_once_per_record pairsam dedup_cython.detector "max" 3 tab
           1 3 2 4 5 6 [] [] "!" true true false false 0
           mapped_then_unmapped_lines).
  vm_compute. reflexivity.
Defined.

(** C7, as the specification states it, fails on a mapped line followed by
    a line with an unmapped side: the second line is reported first. *)
Lemma reports_not_in_input_order :
  ~ reported_in_input_order online_run mapped_then_unmapped_lines.
Proof.
  intros [res [Hlen H]].
  destruct res as [|b1 [|b2 [|b3 res]]]; try discriminate Hlen.
  destruct b1, b2; vm_compute in H; discriminate H.
Qed.

(* ================================================================== *)
(** * Further properties of the batch backend *)

Lemma concat_chunks_fuel {A : Type} (fuel n : nat) (l : list A) :
  0 < n -> length l <= fuel -> concat (chunks_fuel fuel n l) = l.
Proof.
  intros Hn. revert l. induction fuel as [|fuel IH]; intros l Hl.
  - destruct l; [reflexivity|simpl in Hl; lia].
  - destruct l as [|x l]; [reflexivity|].
    cbn [chunks_fuel concat]. rewrite IH.
    + apply firstn_skipn.
    + rewrite length_skipn. cbn [length] in *. lia.
Qed.

Lemma chunks_fuel_sizes {A : Type} (fuel n : nat) (l : list A) :
  0 < n -> length l <= fuel ->
  Forall (fun df => 0 < length df <= n) (chunks_fuel fuel n l)
  /\ forall k, S k < length (chunks_fuel fuel n l) ->
       length (nth k (chunks_fuel fuel n l) []) = n.
Proof.
  intros Hn. revert l. induction fuel as [|fuel IH]; intros l Hl.
  - simpl. split; [constructor|]. intros k Hk; simpl in Hk; lia.
  - destruct l as [|x l].
    { simpl. split; [constructor|]. intros k Hk; simpl in Hk; lia. }
    cbn [chunks_fuel].
    assert (Hsk : length (skipn n (x :: l)) <= fuel).
    { rewrite length_skipn. cbn [length] in *. lia. }
    destruct (IH _ Hsk) as [IH1 IH2]. split.
    + constructor; [|assumption].
      rewrite length_firstn. simpl length. lia.
    + intros [|k] Hk; cbn [nth length] in *.
      * rewrite length_firstn.
        destruct (skipn n (x :: l)) as [|y t] eqn:E.
        -- rewrite chunks_fuel_nil in Hk. simpl in Hk. lia.
        -- assert (Hlen : length (skipn n (x :: l)) = S (length t))
             by now rewrite E.
           rewrite length_skipn in Hlen. lia.
      * apply IH2. lia.
Qed.



Lemma Permutation_filter_split {A : Type} (f : A -> bool) (l : list A) :
  Permutation (filter f l ++ filter (fun x => negb (f x)) l) l.
Proof.
  induction l as [|x l IH]; simpl; [constructor|].
  destruct (f x); simpl.
  - now constructor.
  - apply Permutation_sym, Permutation_cons_app, Permutation_sym, IH.
Qed.

Lemma index_data_mark_unmapped (keep : bool) (dfu : list (nat * pair)) :
  map (fun x => (index x, data x)) (mark_unmapped keep dfu) = dfu.
Proof.
  unfold mark_unmapped. rewrite map_map. simpl.
  induction dfu as [|[i x] l IH]; simpl; [reflexivity|]. now rewrite IH.
Qed.

Lemma index_data_mark_mapped (keep : bool) (dfm : list (nat * pair))
  (cl : list nat) :
  length cl = length dfm ->
  map (fun x => (index x, data x)) (mark_mapped keep dfm cl) = dfm.
Proof.
  intros Hl. apply nth_ext with (d := (0, dummy_pair)) (d' := (0, dummy_pair)).
  - now rewrite length_map, length_mark_mapped.
  - intros n Hn. rewrite length_map, length_mark_mapped in Hn by assumption.
    change (0, dummy_pair) with ((fun x => (index x, data x)) dummy_row) at 1.
    rewrite map_nth, nth_mark_mapped by assumption. simpl.
    now destruct (nth n dfm (0, dummy_pair)).
Qed.

(** X2.  [_dedup_chunk] returns every row of its input exactly once, each
    with the index it had in the input. *)
Theorem dedup_chunk_keeps_rows (df : list pair) (r : Z) (method : string)
  (keep : bool) (extra : list (string * string)) (backend um : string)
  (out : list row) :
  lib_dedup._dedup_chunk df r method keep extra backend um = Ok out ->
  Permutation (map (fun x => (index x, data x)) out) (reset_index df).
Proof.
  intros H.
  destruct (_dedup_chunk_inv _ _ _ _ _ _ _ _ H) as [p [cl [Hp [Hcl Hout]]]].
  destruct (clusterid_column_inv _ _ _ _ _ _ Hcl) as [Hlen _].
  subst out. rewrite map_app, index_data_mark_unmapped.
  rewrite index_data_mark_mapped
    by (now rewrite (length_filter_reset_index
                       (fun y => negb (is_unmapped um y)))).
  apply (Permutation_filter_split (fun t => is_unmapped um (snd t))).
Qed.

Lemma dedup_chunk_keeps_rows_witness :
  exists out,
    lib_dedup._dedup_chunk mapped_then_unmapped 3 "max" true [] "scipy" "!"
    = Ok out
    /\ Permutation (map (fun x => (index x, data x)) out)
                   (reset_index mapped_then_unmapped).
Proof.
  eexists. split; [vm_compute; reflexivity|].
  apply (dedup_chunk_keeps_rows mapped_then_unmapped 3 "max" true []
           "scipy" "!").
  vm_compute. reflexivity.
Defined.

(** X3.  [_dedup_chunk] never marks a row with an unmapped side, and with
    [keep_parent_id] gives it the empty text as [parent_readID]. *)
Theorem unmapped_rows_never_marked (df : list pair) (r : Z) (method : string)
  (keep : bool) (extra : list (string * string)) (backend um : string)
  (out : list row) (x : row) :
  lib_dedup._dedup_chunk df r method keep extra backend um = Ok out ->
  In x out -> is_unmapped um (data x) = true ->
  duplicate x = false
  /\ parent_readID x = (if keep then parent "" else no_column).
Proof.
  intros H Hx Hu.
  destruct (_dedup_chunk_inv _ _ _ _ _ _ _ _ H) as [p [cl [Hp [Hcl Hout]]]].
  destruct (clusterid_column_inv _ _ _ _ _ _ Hcl) as [Hlen _].
  subst out. apply in_app_or in Hx. destruct Hx as [Hx|Hx].
  - unfold mark_unmapped in Hx. apply in_map_iff in Hx.
    destruct Hx as [t [<- _]]. simpl. auto.
  - exfalso.
    assert (Hin : In (data x)
                    (map data (mark_mapped keep
                       (filter (fun t => negb (is_unmapped um (snd t)))
                               (reset_index df)) cl))) by now apply in_map.
    rewrite map_data_mark_mapped in Hin
      by (now rewrite (length_filter_reset_index
                         (fun y => negb (is_unmapped um y)))).
    rewrite (map_snd_filter_reset_index
               (fun y => negb (is_unmapped um y))) in Hin.
    apply filter_In in Hin. destruct Hin as [_ Hin].
    rewrite Hu in Hin. discriminate.
Qed.

Lemma unmapped_rows_never_marked_witness :
  duplicate (mk_row 1 (unmapped_read "u1") false (parent "")) = false
  /\ parent_readID (mk_row 1 (unmapped_read "u1") false (parent ""))
     = parent "".
Proof.
  apply (unmapped_rows_never_marked mapped_then_unmapped 3 "max" true []
           "scipy" "!" _ _ eq_refl).
  - vm_compute. left. reflexivity.
  - reflexivity.
Defined.

Lemma Permutation_three_way {A : Type} (m d : A -> bool) (l : list A) :
  Permutation (filter (fun x => m x && d x) l
               ++ filter (fun x => negb (m x)) l
               ++ filter (fun x => m x && negb (d x)) l) l.
Proof.
  induction l as [|x l IH]; simpl; [constructor|].
  destruct (m x), (d x); simpl.
  - now constructor.
  - rewrite app_assoc. apply Permutation_sym, Permutation_cons_app.
    rewrite <- app_assoc. now apply Permutation_sym.
  - apply Permutation_sym, Permutation_cons_app, Permutation_sym, IH.
  - apply Permutation_sym, Permutation_cons_app, Permutation_sym, IH.
Qed.

Lemma records_write_chunk (um : string) (os : bool) (f : list row)
  (s : sink) :
  records s (lib_dedup.write_chunk um true true os f)
  = match s with
    | dups_sink =>
        map data (filter (fun x => is_mapped um (data x) && duplicate x) f)
    | unmapped_sink =>
        map data (filter (fun x => negb (is_mapped um (data x))) f)
    | unique_sink =>
        map data
          (filter (fun x => is_mapped um (data x) && negb (duplicate x)) f)
    end.
Proof.
  unfold records, lib_dedup.write_chunk.
  destruct os, s; simpl; rewrite ?app_nil_r, map_map; reflexivity.
Qed.

(** X4.  With a duplicates stream and an unmapped stream, the loop body of
    [streaming_dedup] writes every row of a frame to exactly one of the
    three streams. *)
Theorem write_chunk_partition (um : string) (os : bool) (f : list row) :
  Permutation
    (records dups_sink (lib_dedup.write_chunk um true true os f)
     ++ records unmapped_sink (lib_dedup.write_chunk um true true os f)
     ++ records unique_sink (lib_dedup.write_chunk um true true os f))
    (map data f).
Proof.
  rewrite !records_write_chunk, <- !map_app. apply Permutation_map.
  apply (Permutation_three_way (fun x => is_mapped um (data x)) duplicate).
Qed.

(** X5.  The edge condition of [_dedup_chunk] and [dedup_chunk]: the pair
    [(i, j)] of mapped rows is an edge exactly when the neighbour query lists
    it ([i < j] for scipy, [i <> j] for sklearn, distance at most [r]) and,
    for every pair of columns [(lc, rc)] of [need_to_match], column [lc] of
    row [i] equals column [rc] of row [j]. *)
Theorem batch_edge_condition (backend : string) (df : list pair) (r : Z)
  (p : norm) (extra : list (string * string)) (E : list (nat * nat))
  (i j : nat) :
  graph_edges backend df r p extra = Ok E ->
  (In (i, j) E <->
   i < length df /\ j < length df
   /\ (if String.eqb backend "sklearn" then i <> j else i < j)
   /\ (minkowski p (position_of (nth i df dummy_pair))
                   (position_of (nth j df dummy_pair)) <= r)%Z
   /\ forallb (fun lr => cell_eqb (value (fst lr) (nth i df dummy_pair))
                                  (value (snd lr) (nth j df dummy_pair)))
              (need_to_match extra) = true).
Proof. apply graph_edges_spec. Qed.

Lemma batch_edge_condition_witness :
  In (0, 1) [(0, 1)] <->
  0 < length phased_twins /\ 1 < length phased_twins
  /\ (if String.eqb "scipy" "sklearn" then 0 <> 1 else 0 < 1)
  /\ (minkowski p_inf (position_of (nth 0 phased_twins dummy_pair))
                      (position_of (nth 1 phased_twins dummy_pair)) <= 3)%Z
  /\ forallb (fun lr => cell_eqb (value (fst lr) (nth 0 phased_twins dummy_pair))
                                 (value (snd lr) (nth 1 phased_twins dummy_pair)))
             (need_to_match []) = true.
Proof.
  apply (batch_edge_condition "scipy" phased_twins 3 p_inf [] [(0, 1)] 0 1).
  vm_compute. reflexivity.
Defined.

Lemma length_relabel (y : list row) : length (relabel y) = length y.
Proof.
  unfold relabel. rewrite length_map, length_combine, length_seq. lia.
Qed.



Lemma length_mapped_rows (df : list pair) (r : Z) (method : string)
  (keep : bool) (extra : list (string * string)) (backend um : string)
  (out : list row) :
  lib_dedup._dedup_chunk df r method keep extra backend um = Ok out ->
  length (mapped_rows um out)
  = length (filter (fun x => negb (is_unmapped um x)) df).
Proof.
  intros H.
  destruct (_dedup_chunk_inv _ _ _ _ _ _ _ _ H) as [p [cl [Hp [Hcl Hout]]]].
  destruct (clusterid_column_inv _ _ _ _ _ _ Hcl) as [Hlen _].
  rewrite Hout, mapped_rows_dedup_chunk by assumption.
  rewrite length_mark_mapped
    by (now rewrite (length_filter_reset_index
                       (fun y => negb (is_unmapped um y)))).
  apply (length_filter_reset_index (fun y => negb (is_unmapped um y))).
Qed.



Lemma minkowski_inf_le_1 (a b : Z * Z) :
  (minkowski p_inf a b <= minkowski p_1 a b)%Z.
Proof. unfold minkowski. lia. Qed.

(** Rows marked with a graph stay marked with a graph that has more edges. *)
Lemma marks_monotone (n : nat) (E1 E2 : list (nat * nat)) (i : nat) :
  (forall e, In e E1 -> fst e < n /\ snd e < n) ->
  (forall e, In e E2 -> fst e < n /\ snd e < n) ->
  (forall e, In e E1 -> In e E2) ->
  i < n ->
  nth i (duplicated (connected_components n E1)) false = true ->
  nth i (duplicated (connected_components n E2)) false = true.
Proof.
  intros H1 H2 Hsub Hi Hd.
  apply marked_iff_earlier in Hd; auto. destruct Hd as [j [Hj Hc]].
  apply marked_iff_earlier; auto. exists j. split; [assumption|].
  eapply connected_mono; eauto.
Qed.

Lemma marks_of_larger_graph (df : list pair) (r1 r2 : Z) (m1 m2 : string)
  (keep : bool) (extra : list (string * string)) (backend um : string)
  (out1 out2 : list row) :
  lib_dedup._dedup_chunk df r1 m1 keep extra backend um = Ok out1 ->
  lib_dedup._dedup_chunk df r2 m2 keep extra backend um = Ok out2 ->
  (forall p1 p2 a b, method_norm m1 = Ok p1 -> method_norm m2 = Ok p2 ->
     (minkowski p1 a b <= r1)%Z -> (minkowski p2 a b <= r2)%Z) ->
  forall i, i < length (mapped_rows um out1) ->
    duplicate (nth i (mapped_rows um out1) dummy_row) = true ->
    duplicate (nth i (mapped_rows um out2) dummy_row) = true.
Proof.
  intros H1 H2 Hdist i Hi Hd.
  pose proof (length_mapped_rows _ _ _ _ _ _ _ _ H1) as L1.
  pose proof (length_mapped_rows _ _ _ _ _ _ _ _ H2) as L2.
  destruct (_dedup_chunk_mapped _ _ _ _ _ _ _ _ H1 ltac:(lia))
    as [p1 [E1 [Hp1 [Hg1 [HE1 [_ [Hdata1 HM1]]]]]]].
  destruct (_dedup_chunk_mapped _ _ _ _ _ _ _ _ H2 ltac:(lia))
    as [p2 [E2 [Hp2 [Hg2 [HE2 [_ [Hdata2 HM2]]]]]]].
  cbv zeta in *. rewrite Hdata1 in Hg1. rewrite Hdata2 in Hg2.
  rewrite L1 in *. rewrite L2 in *.
  set (n := length (filter (fun x => negb (is_unmapped um x)) df)) in *.
  assert (Hlf : length (filter (fun t => negb (is_unmapped um (snd t)))
                               (reset_index df)) = n)
    by apply (length_filter_reset_index (fun y => negb (is_unmapped um y))).
  rewrite HM1, nth_mark_mapped in Hd;
    [|now rewrite length_connected_components, Hlf|now rewrite Hlf].
  rewrite HM2, nth_mark_mapped;
    [|now rewrite length_connected_components, Hlf|now rewrite Hlf].
  simpl in *. apply (marks_monotone n E1 E2); auto.
  intros [a b] Hab.
  apply (graph_edges_spec _ _ _ _ _ _ a b Hg1) in Hab.
  apply (graph_edges_spec _ _ _ _ _ _ a b Hg2).
  destruct Hab as [Ha [Hb [Hord [Hdab Hmatch]]]].
  repeat split; auto. eapply Hdist; eauto.
Qed.

(** X7.  On the same chunk and with the same radius, every row that
    [_dedup_chunk] marks duplicate with method "sum" is also marked with
    method "max". *)
Theorem sum_marks_within_max_marks (df : list pair) (r : Z) (keep : bool)
  (extra : list (string * string)) (backend um : string)
  (out_sum out_max : list row) :
  lib_dedup._dedup_chunk df r "sum" keep extra backend um = Ok out_sum ->
  lib_dedup._dedup_chunk df r "max" keep extra backend um = Ok out_max ->
  forall i, i < length (mapped_rows um out_sum) ->
    duplicate (nth i (mapped_rows um out_sum) dummy_row) = true ->
    duplicate (nth i (mapped_rows um out_max) dummy_row) = true.
Proof.
  intros H1 H2.
  apply (marks_of_larger_graph df r r "sum" "max" keep extra backend um
           out_sum out_max H1 H2).
  intros p1 p2 a b [= <-] [= <-] H.
  pose proof (minkowski_inf_le_1 a b). lia.
Qed.

Lemma sum_marks_within_max_marks_witness :
  exists out_sum out_max,
    lib_dedup._dedup_chunk late_duplicate 3 "sum" false [] "scipy" "!"
    = Ok out_sum
    /\ lib_dedup._dedup_chunk late_duplicate 3 "max" false [] "scipy" "!"
       = Ok out_max
    /\ duplicate (nth 2 (mapped_rows "!" out_max) dummy_row) = true.
Proof.
  eexists. eexists. split; [vm_compute; reflexivity|].
  split; [vm_compute; reflexivity|].
  apply (sum_marks_within_max_marks late_duplicate 3 false [] "scipy" "!"
           _ _ eq_refl eq_refl 2).
  - vm_compute. lia.
  - vm_compute. reflexivity.
Defined.

(** X8.  On the same chunk and with the same method, every row that
    [_dedup_chunk] marks duplicate with a radius is also marked with any
    larger radius. *)
Theorem marks_grow_with_radius (df : list pair) (r r' : Z) (method : string)
  (keep : bool) (extra : list (string * string)) (backend um : string)
  (out out' : list row) :
  (r <= r')%Z ->
  lib_dedup._dedup_chunk df r method keep extra backend um = Ok out ->
  lib_dedup._dedup_chunk df r' method keep extra backend um = Ok out' ->
  forall i, i < length (mapped_rows um out) ->
    duplicate (nth i (mapped_rows um out) dummy_row) = true ->
    duplicate (nth i (mapped_rows um out') dummy_row) = true.
Proof.
  intros Hr H1 H2.
  apply (marks_of_larger_graph df r r' method method keep extra backend um
           out out' H1 H2).
  intros p1 p2 a b Hp1 Hp2 H. assert (p1 = p2) by congruence. subst. lia.
Qed.

Lemma marks_grow_with_radius_witness :
  exists out out',
    lib_dedup._dedup_chunk chain 3 "max" false [] "scipy" "!" = Ok out
    /\ lib_dedup._dedup_chunk chain 6 "max" false [] "scipy" "!" = Ok out'
    /\ duplicate (nth 1 (mapped_rows "!" out') dummy_row) = true.
Proof.
  eexists. eexists. split; [vm_compute; reflexivity|].
  split; [vm_compute; reflexivity|].
  apply (marks_grow_with_radius chain 3 6 "max" false [] "scipy" "!"
           _ _ ltac:(lia) eq_refl eq_refl 1).
  - vm_compute. lia.
  - vm_compute. reflexivity.
Defined.

(* ================================================================== *)
(** * [_dedup_stream] on a body without unmapped sides *)

Lemma map_fst_combine_seq {A : Type} (l : list A) (s : nat) :
  map fst (combine (seq s (length l)) l) = seq s (length l).
Proof.
  revert s. induction l as [|x l IH]; intros s; simpl; [reflexivity|].
  now rewrite IH.
Qed.

Lemma map_snd_combine_seq {A : Type} (l : list A) (s : nat) :
  map snd (combine (seq s (length l)) l) = l.
Proof.
  revert s. induction l as [|x l IH]; intros s; simpl; [reflexivity|].
  now rewrite IH.
Qed.

Lemma position_seq (n s k : nat) :
  s <= k -> k < s + n -> lib_dedup.position k (seq s n) = Some (k - s).
Proof.
  revert s. induction n as [|n IH]; intros s H1 H2; [lia|]. simpl.
  destruct (Nat.eqb_spec s k) as [->|Hne].
  - now rewrite Nat.sub_diag.
  - rewrite IH by lia. f_equal. lia.
Qed.

Lemma In_skipn {A : Type} (n : nat) (l : list A) (x : A) :
  In x (skipn n l) -> In x l.
Proof.
  revert l. induction n as [|n IH]; intros [|a l] H; simpl in *; auto.
Qed.

Lemma map_data_and_mark_relabel (y : list row) :
  map data_and_mark (relabel y) = map data_and_mark y.
Proof.
  unfold relabel. generalize 0 as s.
  induction y as [|x y IH]; intros s; simpl; [reflexivity|].
  now rewrite IH.
Qed.

Lemma map_data_and_mark_DD (y : list row) :
  map data_and_mark (map mark_DD y) = map (yielded true) (map data_and_mark y).
Proof.
  rewrite !map_map. apply map_ext. intros x.
  unfold mark_DD, data_and_mark, yielded.
  destruct (duplicate x) eqn:E; simpl; rewrite ?E; reflexivity.
Qed.

Lemma yielded_false (l : list (pair * bool)) : map (yielded false) l = l.
Proof.
  induction l as [|[x b] l IH]; simpl; [reflexivity|].
  now rewrite IH.
Qed.

Lemma combine_data_marks (y : list row) :
  map data_and_mark y = combine (map data y) (map duplicate y).
Proof. induction y as [|x y IH]; simpl; [reflexivity|]. now rewrite IH. Qed.

Section all_mapped.

Variables (method : string) (carryover : nat) (mark_dups : bool) (r : Z)
  (extra : list (string * string)) (keep : bool) (backend : string).

Local Notation step :=
  (lib_dedup._dedup_stream_step method carryover mark_dups r extra keep
     backend).

Local Notation stream_loop :=
  (lib_dedup._dedup_stream_loop method carryover mark_dups r extra keep
     backend).

Local Notation all_mapped l :=
  (forall x : pair, In x l -> is_unmapped "!" x = false).

(** One chunk with its carryover: the frame yielded holds the rows of the
    chunk and nothing of the carryover. *)
Lemma dedup_stream_step_all_mapped (prev df : list pair) (f : list row)
  (c : list pair) :
  all_mapped prev -> all_mapped df -> df <> [] ->
  step prev (length prev) df = Ok (f, c) ->
  (exists marks, length marks = length df
                 /\ map data_and_mark f
                    = map (yielded mark_dups) (combine df marks))
  /\ all_mapped c.
Proof.
  intros Hprev Hdf Hne H. unfold lib_dedup._dedup_stream_step in H.
  apply rbind_Ok in H. destruct H as [out [Hout H]].
  apply rbind_Ok in H. destruct H as [y [Hy H]].
  injection H as <- <-.
  assert (Hall : all_mapped (prev ++ df)).
  { intros x Hx. apply in_app_or in Hx. destruct Hx; auto. }
  destruct (_dedup_chunk_inv _ _ _ _ _ _ _ _ Hout) as [p [cl [Hp [Hcl Ho]]]].
  destruct (clusterid_column_inv _ _ _ _ _ _ Hcl) as [Hlen _].
  assert (HfU : filter (fun t => is_unmapped "!" (snd t))
                       (reset_index (prev ++ df)) = []).
  { apply filter_none. intros [i x] Hx. apply in_combine_r in Hx.
    simpl. auto. }
  assert (HfM : filter (fun t => negb (is_unmapped "!" (snd t)))
                       (reset_index (prev ++ df)) = reset_index (prev ++ df)).
  { apply filter_all. intros [i x] Hx. apply in_combine_r in Hx.
    simpl. now rewrite Hall. }
  assert (Hfm : filter (fun x => negb (is_unmapped "!" x)) (prev ++ df)
                = prev ++ df).
  { apply filter_all. intros x Hx. now rewrite Hall. }
  rewrite HfU, HfM in Ho. simpl in Ho. rewrite Hfm in Hlen.
  assert (Hri : length cl = length (reset_index (prev ++ df))).
  { unfold reset_index. rewrite length_combine, length_seq. lia. }
  assert (Hid : map (fun x => (index x, data x)) out = reset_index (prev ++ df)).
  { rewrite Ho. now apply index_data_mark_mapped. }
  assert (Hindex : map index out = seq 0 (length (prev ++ df))).
  { replace (map index out)
      with (map fst (map (fun x => (index x, data x)) out))
      by (now rewrite map_map).
    rewrite Hid. apply map_fst_combine_seq. }
  assert (Hdata : map data out = prev ++ df).
  { replace (map data out)
      with (map snd (map (fun x => (index x, data x)) out))
      by (now rewrite map_map).
    rewrite Hid. apply map_snd_combine_seq. }
  assert (Hy' : y = skipn (length prev) out).
  { unfold lib_dedup.loc_from in Hy. rewrite Hindex in Hy.
    rewrite position_seq in Hy.
    - rewrite Nat.sub_0_r in Hy. now injection Hy.
    - lia.
    - rewrite length_app. destruct df; [congruence|simpl; lia]. }
  assert (Hydata : map data y = df).
  { rewrite Hy', <- skipn_map, Hdata. apply skipn_length_app. }
  assert (Hf : map data_and_mark
                 (if mark_dups then map mark_DD (relabel y) else relabel y)
               = map (yielded mark_dups) (combine df (map duplicate y))).
  { rewrite <- Hydata, <- combine_data_marks. destruct mark_dups.
    - now rewrite map_data_and_mark_DD, map_data_and_mark_relabel.
    - now rewrite yielded_false, map_data_and_mark_relabel. }
  split.
  - exists (map duplicate y). split; [|exact Hf].
    rewrite length_map, <- Hydata. now rewrite length_map.
  - intros x Hx. unfold tail in Hx. apply In_skipn in Hx.
    apply in_map_iff in Hx. destruct Hx as [z [<- Hz]].
    apply filter_In in Hz. destruct Hz as [Hz _].
    assert (Hin : In (data_and_mark z)
                     (map (yielded mark_dups)
                          (combine df (map duplicate y)))).
    { rewrite <- Hf. now apply in_map. }
    apply in_map_iff in Hin. destruct Hin as [[x0 b] [Hxb Hin]].
    apply in_combine_l in Hin. unfold yielded, data_and_mark in Hxb.
    simpl in Hxb. injection Hxb as Hd _. rewrite <- Hd.
    destruct (mark_dups && b); simpl; auto.
    apply (Hdf x0 Hin).
Qed.

Lemma dedup_stream_loop_all_mapped (dfs : list (list pair)) :
  forall (prev : list pair) (frames : list (list row)),
    all_mapped prev ->
    (forall df, In df dfs -> df <> [] /\ all_mapped df) ->
    stream_loop dfs prev (length prev) = (frames, Ok tt) ->
    exists marks,
      length marks = length (concat dfs)
      /\ concat (map (map data_and_mark) frames)
         = map (yielded mark_dups) (combine (concat dfs) marks).
Proof.
  induction dfs as [|df dfs IH]; intros prev frames Hprev Hdfs H.
  - simpl in H. injection H as <-. exists []. auto.
  - cbn [lib_dedup._dedup_stream_loop] in H.
    destruct (Hdfs df ltac:(now left)) as [Hne Hdf].
    destruct (step prev (length prev) df) as [[f c]|e] eqn:Hstep;
      [|discriminate].
    destruct (stream_loop dfs c (length c)) as [fs res] eqn:Hrest.
    simpl in H. injection H as <- ->.
    destruct (dedup_stream_step_all_mapped _ _ _ _ Hprev Hdf Hne Hstep)
      as [[m1 [Hl1 Hf]] Hc].
    destruct (IH c fs Hc ltac:(intros d Hd; apply Hdfs; now right) Hrest)
      as [m2 [Hl2 Hfs]].
    exists (m1 ++ m2). simpl. rewrite !length_app. split; [lia|].
    rewrite Hf, Hfs, <- map_app. f_equal.
    symmetry. apply combine_app_eq. lia.
Qed.

Lemma dedup_stream_row_count (in_stream : list pair) (chunksize : nat)
  (frames : list (list row)) :
  (forall x, In x in_stream -> is_unmapped "!" x = false) ->
  lib_dedup._dedup_stream method carryover mark_dups r extra keep backend
    in_stream chunksize = (frames, Ok tt) ->
  length (concat frames) = length in_stream.
Proof.
  intros Hall H. unfold lib_dedup._dedup_stream, read_table in H.
  destruct chunksize as [|n]; [discriminate|]. cbn [Nat.eqb] in H.
  assert (Hn : 0 < S n) by lia.
  pose proof (concat_chunks_fuel (length in_stream) (S n) in_stream Hn
                (Nat.le_refl _)) as Hconcat.
  destruct (chunks_fuel_sizes (length in_stream) (S n) in_stream Hn
              (Nat.le_refl _)) as [Hsizes _].
  rewrite Forall_forall in Hsizes.
  destruct (dedup_stream_loop_all_mapped
              (chunks_fuel (length in_stream) (S n) in_stream) [] frames)
    as [marks [Hl Hm]].
  - intros x [].
  - intros df Hdf. split.
    + intros ->. specialize (Hsizes _ Hdf). simpl in Hsizes. lia.
    + intros x Hx. apply Hall. rewrite <- Hconcat.
      apply in_concat. eauto.
  - exact H.
  - rewrite Hconcat in *.
    apply (f_equal (@length _)) in Hm.
    rewrite length_map, length_combine, Hl, Nat.min_id in Hm.
    rewrite <- Hm. clear.
    induction frames as [|f fs IH]; [reflexivity|].
    cbn [map concat]. rewrite !length_app, length_map. lia.
Qed.

(** X9.  On a body in which no row has an unmapped side, a run of
    [_dedup_stream] that ends normally yields, frame after frame, exactly the
    rows of the body, in order and once each: the carryover rows prepended
    to a chunk are trimmed away, no row of the chunk is.  Each row comes with
    its mark, and with the pair type "DD" when it is marked and [mark_dups]
    is set. *)
Theorem dedup_stream_all_mapped (in_stream : list pair) (chunksize : nat)
  (frames : list (list row)) :
  (forall x, In x in_stream -> is_unmapped "!" x = false) ->
  lib_dedup._dedup_stream method carryover mark_dups r extra keep backend
    in_stream chunksize = (frames, Ok tt) ->
  exists marks,
    length marks = length in_stream
    /\ concat (map (map data_and_mark) frames)
       = map (yielded mark_dups) (combine in_stream marks).
Proof.
  intros Hall H. unfold lib_dedup._dedup_stream, read_table in H.
  destruct chunksize as [|n]; [discriminate|]. cbn [Nat.eqb] in H.
  assert (Hn : 0 < S n) by lia.
  pose proof (concat_chunks_fuel (length in_stream) (S n) in_stream Hn
                (Nat.le_refl _)) as Hconcat.
  destruct (chunks_fuel_sizes (length in_stream) (S n) in_stream Hn
              (Nat.le_refl _)) as [Hsizes _].
  rewrite Forall_forall in Hsizes.
  destruct (dedup_stream_loop_all_mapped
              (chunks_fuel (length in_stream) (S n) in_stream) [] frames)
    as [marks [Hl Hm]].
  - intros x [].
  - intros df Hdf. split.
    + intros ->. specialize (Hsizes _ Hdf). simpl in Hsizes. lia.
    + intros x Hx. apply Hall. rewrite <- Hconcat.
      apply in_concat. eauto.
  - exact H.
  - rewrite Hconcat in *. eauto.
Qed.

End all_mapped.

Lemma dedup_stream_all_mapped_witness :
  exists frames marks,
    lib_dedup._dedup_stream "max" 100 true 3 [] true "scipy" across_chunks 2
    = (frames, Ok tt)
    /\ length marks = length across_chunks
    /\ concat (map (map data_and_mark) frames)
       = map (yielded true) (combine across_chunks marks).
Proof.
  eexists. 
  assert (H : exists marks,
            length marks = length across_chunks
            /\ concat (map (map data_and_mark)
                         (fst (lib_dedup._dedup_stream "max" 100 true 3 []
                                 true "scipy" across_chunks 2)))
               = map (yielded true) (combine across_chunks marks)).
  { apply (dedup_stream_all_mapped "max" 100 true 3 [] true "scipy"
             across_chunks 2).
    - intros x Hx. simpl in Hx.
      destruct Hx as [<-|[<-|[<-|[]]]]; reflexivity.
    - vm_compute. reflexivity. }
  destruct H as [marks H]. exists marks. split; [vm_compute; reflexivity|].
  exact H.
Defined.

(** X10.  On a body in which no row has an unmapped side, a run of
    [streaming_dedup] of [lib/dedup.py] with a duplicates stream and an
    unmapped stream that ends normally writes as many records as it read:
    the three streams together hold one record for every row of the body. *)
Theorem streaming_dedup_all_mapped_count (method : string) (carryover : nat)
  (mark_dups : bool) (r : Z) (extra : list (string * string)) (keep : bool)
  (backend um : string) (os : bool) (in_stream : list pair)
  (chunksize : nat) (tr : list event) :
  (forall x, In x in_stream -> is_unmapped "!" x = false) ->
  lib_dedup.streaming_dedup method carryover mark_dups r extra keep backend
    um true true os in_stream chunksize = (tr, Ok tt) ->
  length (records unique_sink tr) + length (records dups_sink tr)
  + length (records unmapped_sink tr) = length in_stream.
Proof.
  intros Hall H. unfold lib_dedup.streaming_dedup in H.
  destruct (lib_dedup._dedup_stream method carryover mark_dups r extra keep
              backend in_stream chunksize) as [frames res] eqn:Hs.
  simpl in H. injection H as <- ->.
  pose proof (dedup_stream_row_count _ _ _ _ _ _ _ _ _ _ Hall Hs) as Hrows.
  rewrite <- Hrows. clear.
  induction frames as [|f fs IH]; [reflexivity|].
  cbn [flat_map concat]. unfold records in *.
  rewrite !written_app, !map_app, !length_app.
  pose proof (records_write_chunk um os f unique_sink) as H1.
  pose proof (records_write_chunk um os f dups_sink) as H2.
  pose proof (records_write_chunk um os f unmapped_sink) as H3.
  pose proof (Permutation_length
                (Permutation_three_way
                   (fun x => is_mapped um (data x)) duplicate f)) as Hp.
  unfold records in H1, H2, H3. rewrite H1, H2, H3.
  rewrite !length_app in Hp. rewrite !length_map in *. lia.
Qed.

Lemma streaming_dedup_all_mapped_count_witness :
  exists tr,
    lib_dedup.streaming_dedup "max" 100 true 3 [] true "scipy" "!" true true
      false across_chunks 2 = (tr, Ok tt)
    /\ length (records unique_sink tr) + length (records dups_sink tr)
       + length (records unmapped_sink tr) = length across_chunks.
Proof.
  eexists. split; [vm_compute; reflexivity|].
  eapply (streaming_dedup_all_mapped_count "max" 100 true 3 [] true "scipy"
            "!" false across_chunks 2).
  - intros x Hx. simpl in Hx.
    destruct Hx as [<-|[<-|[<-|[]]]]; reflexivity.
  - vm_compute. reflexivity.
Defined.

(* ================================================================== *)
(** * Interning *)

Lemma assoc_In {V : Type} (k : string) (l : list (string * V)) (v : V) :
  assoc k l = Some v -> In (k, v) l.
Proof.
  induction l as [|[k' v'] l IH]; simpl; [discriminate|].
  destruct (String.eqb_spec k k') as [->|Hne].
  - intros [= ->]. now left.
  - intros H. right. auto.
Qed.

Lemma assoc_app_Some {V : Type} (k : string) (l1 l2 : list (string * V))
  (v : V) :
  assoc k l1 = Some v -> assoc k (l1 ++ l2) = Some v.
Proof.
  induction l1 as [|[k' v'] l1 IH]; simpl; [discriminate|].
  destruct (String.eqb k k'); auto.
Qed.

Lemma assoc_app_None {V : Type} (k : string) (l1 l2 : list (string * V)) :
  assoc k l1 = None -> assoc k (l1 ++ l2) = assoc k l2.
Proof.
  induction l1 as [|[k' v'] l1 IH]; simpl; [reflexivity|].
  destruct (String.eqb k k'); [discriminate|auto].
Qed.

Lemma fetchadd_lookup (key : string) (d d' : list (string * Z)) (v : Z) :
  lib_dedup.fetchadd key d = (v, d') ->
  assoc (strip key) d' = Some v
  /\ forall k0 v0, assoc k0 d = Some v0 -> assoc k0 d' = Some v0.
Proof.
  unfold lib_dedup.fetchadd.
  destruct (assoc (strip key) d) as [v0|] eqn:E; intros [= <- <-].
  - auto.
  - split.
    + rewrite assoc_app_None by assumption. simpl.
      now rewrite String.eqb_refl.
    + intros k0 v0. apply assoc_app_Some.
Qed.

Lemma fetchadd_interned (key : string) (d d' : list (string * Z)) (v : Z) :
  interned d -> lib_dedup.fetchadd key d = (v, d') -> interned d'.
Proof.
  unfold lib_dedup.fetchadd, interned. intros [Hnd Hb].
  destruct (assoc (strip key) d) as [v0|] eqn:E; intros [= <- <-]; [auto|].
  rewrite map_app, length_app. simpl. rewrite Forall_forall in Hb. split.
  - apply NoDup_app_remove_l with (l := []). simpl.
    apply Permutation_NoDup with (l := Z.of_nat (length d) :: map snd d).
    + apply Permutation_cons_append.
    + constructor; [|assumption]. intros Hin. apply Hb in Hin. lia.
  - apply Forall_app. split.
    + apply Forall_forall. intros x Hx. apply Hb in Hx. lia.
    + constructor; [lia|constructor].
Qed.

Lemma interned_injective (d : list (string * Z)) (k1 k2 : string) (v : Z) :
  interned d -> In (k1, v) d -> In (k2, v) d -> k1 = k2.
Proof.
  intros [Hnd _]. induction d as [|[k w] d IH]; simpl; [contradiction|].
  simpl in Hnd. inversion Hnd as [|x l Hnotin Hnd']; subst.
  intros [H1|H1] [H2|H2].
  - congruence.
  - injection H1 as -> ->. exfalso. apply Hnotin.
    apply in_map_iff. exists (k2, v). auto.
  - injection H2 as -> ->. exfalso. apply Hnotin.
    apply in_map_iff. exists (k1, v). auto.
  - auto.
Qed.

(** X11.  [fetchadd] interns injectively: starting from a table it built
    (the empty one to begin with), two keys receive the same id exactly when
    they are equal once stripped; entries are never changed. *)
Theorem fetchadd_injective (d d1 d2 : list (string * Z)) (k1 k2 : string)
  (v1 v2 : Z) :
  interned d ->
  lib_dedup.fetchadd k1 d = (v1, d1) ->
  lib_dedup.fetchadd k2 d1 = (v2, d2) ->
  interned d2
  /\ (v1 = v2 <-> strip k1 = strip k2)
  /\ forall k0 v0, assoc k0 d = Some v0 -> assoc k0 d2 = Some v0.
Proof.
  intros Hd H1 H2.
  pose proof (fetchadd_interned _ _ _ _ Hd H1) as Hd1.
  pose proof (fetchadd_interned _ _ _ _ Hd1 H2) as Hd2.
  destruct (fetchadd_lookup _ _ _ _ H1) as [L1 P1].
  destruct (fetchadd_lookup _ _ _ _ H2) as [L2 P2].
  split; [assumption|]. split.
  - split.
    + intros <-. apply (interned_injective d2 _ _ v1 Hd2).
      * apply assoc_In. auto.
      * apply assoc_In. auto.
    + intros Heq. rewrite <- Heq in L2.
      apply P2 in L1. congruence.
  - auto.
Qed.

Lemma interned_nil : interned [].
Proof. split; constructor. Qed.

Lemma fetchadd_injective_witness :
  interned [("chr1", 0%Z); ("chr2", 1%Z)]%string
  /\ (0%Z = 1%Z <-> strip " chr1" = strip "chr2")
  /\ forall k0 v0, assoc k0 [] = Some v0 ->
       assoc k0 [("chr1", 0%Z); ("chr2", 1%Z)]%string = Some v0.
Proof.
  apply (fetchadd_injective [] [("chr1", 0%Z)]%string
           [("chr1", 0%Z); ("chr2", 1%Z)]%string " chr1" "chr2" 0 1).
  - apply interned_nil.
  - vm_compute. reflexivity.
  - vm_compute. reflexivity.
Defined.

(* ================================================================== *)
(** * Further properties of the online driver *)

Section online_edges.

Variable fmt : pairsam_format.
Variable D : OnlineDuplicateDetector.

Variables (method : string) (max_mismatch : Z) (sep : string)
  (c1ind c2ind p1ind p2ind s1ind s2ind : nat)
  (extra_cols1 extra_cols2 : list nat) (unmapped_chrom : string)
  (outstream_dups outstream_unmapped out_stat mark_dups keep_parent_id : bool)
  (readid_ind : nat).

Local Notation maxind :=
  (lib_dedup.maxind fmt c1ind c2ind p1ind p2ind s1ind s2ind extra_cols1
     extra_cols2 out_stat).

Local Notation loop :=
  (lib_dedup.loop fmt D method max_mismatch sep c1ind c2ind p1ind p2ind
     s1ind s2ind extra_cols1 extra_cols2 unmapped_chrom outstream_dups
     outstream_unmapped out_stat mark_dups keep_parent_id readid_ind).

(** X12.  A line with too few columns (no more than the largest column index
    in use) makes the loop raise [ValueError] at once, with nothing written
    or reported for it. *)
Theorem short_line_raises (st : lib_dedup.state D) (rawline : string)
  (instream : list string) (cols : list string) :
  lib_dedup.is_empty rawline = false ->
  lib_dedup.is_empty (strip_newline rawline) = false ->
  split (strip_newline rawline) sep = Ok cols ->
  length cols <= maxind ->
  loop (rawline :: instream) st = ([], Raise ValueError).
Proof.
  intros Hraw Hstrip Hsplit Hlen.
  cbn [lib_dedup.loop]. rewrite Hraw, Hstrip.
  unfold lib_dedup.process_line. rewrite Hsplit, io_bind_lift_Ok.
  apply Nat.leb_le in Hlen. rewrite Hlen. reflexivity.
Qed.

(** X13.  On an empty stream, with a detector that releases nothing when
    nothing was pushed, [streaming_dedup_cython] ends normally and writes and
    reports nothing. *)
Theorem online_empty_stream :
  fst (snd (push D (dd_new D method max_mismatch keep_parent_id)
              [] [] [] [] [] [])) = [] ->
  fst (snd (finish D
              (fst (push D (dd_new D method max_mismatch keep_parent_id)
                      [] [] [] [] [] [])))) = [] ->
  lib_dedup.streaming_dedup_cython fmt D method max_mismatch sep c1ind c2ind
    p1ind p2ind s1ind s2ind extra_cols1 extra_cols2 unmapped_chrom
    outstream_dups outstream_unmapped out_stat mark_dups keep_parent_id
    readid_ind [] = ([], Ok tt).
Proof.
  intros Hpush Hfinish.
  unfold lib_dedup.streaming_dedup_cython. cbn [lib_dedup.loop].
  unfold lib_dedup.flush, lib_dedup.initial. cbn [lib_dedup.c1 lib_dedup.c2
    lib_dedup.p1 lib_dedup.p2 lib_dedup.s1 lib_dedup.s2 lib_dedup.dd
    lib_dedup.line_buffer lib_dedup.cols_buffer ar32].
  rewrite !io_bind_lift_Ok. cbv zeta.
  rewrite Hpush, Hfinish. reflexivity.
Qed.

(** X14.  A line with an unmapped side goes verbatim to the unmapped stream,
    followed by a newline; without a statistics sink nothing else happens:
    the line is not parsed further and the buffers and the detector are left
    as they were. *)
Theorem unmapped_line_passthrough (st : lib_dedup.state D) (s : string)
  (cols : list string) :
  out_stat = false -> outstream_unmapped = true ->
  split s sep = Ok cols ->
  maxind < length cols ->
  has_unmapped_side c1ind c2ind unmapped_chrom cols = true ->
  length (lib_dedup.c1 D st)
  <> lib_dedup.curMaxLen D method max_mismatch keep_parent_id ->
  lib_dedup.process_line fmt D method max_mismatch sep c1ind c2ind p1ind
    p2ind s1ind s2ind extra_cols1 extra_cols2 unmapped_chrom outstream_dups
    outstream_unmapped out_stat mark_dups keep_parent_id readid_ind st s
  = ([write unmapped_sink s; write unmapped_sink (String newline "")],
     Ok (lib_dedup.mk_state D
           (lib_dedup.c1 D st) (lib_dedup.c2 D st) (lib_dedup.p1 D st)
           (lib_dedup.p2 D st) (lib_dedup.s1 D st) (lib_dedup.s2 D st)
           (lib_dedup.idx D st) (lib_dedup.line_buffer D st)
           (lib_dedup.cols_buffer D st) (lib_dedup.chromDict D st)
           (lib_dedup.strandDict D st) (lib_dedup.dd D st)
           (S (lib_dedup.N_lines D st)) (lib_dedup.read_idx D st))).
Proof.
  intros Hstat Hun Hsplit Hlen Hside Hc1.
  pose proof (maxind_bounds fmt c1ind c2ind p1ind p2ind s1ind s2ind
                extra_cols1 extra_cols2 out_stat) as [B1 [B2 _]].
  unfold lib_dedup.process_line. rewrite Hsplit, io_bind_lift_Ok.
  assert (Hle : (length cols <=? maxind) = false) by (apply Nat.leb_gt; lia).
  rewrite Hle, io_bind_lift_Ok.
  rewrite (getitem_nth cols c1ind ""%string), io_bind_lift_Ok by lia.
  rewrite (getitem_nth cols c2ind ""%string), io_bind_lift_Ok by lia.
  unfold has_unmapped_side in Hside. rewrite Hside.
  unfold lib_dedup.unmapped_line. rewrite Hstat, Hun.
  apply Nat.eqb_neq in Hc1. cbn [lib_dedup.c1] . 
  unfold io_bind, emit, io_ret. cbn [lib_dedup.c1]. rewrite Hc1. reflexivity.
Qed.

End online_edges.

Lemma short_line_raises_witness :
  lib_dedup.loop pairsam dedup_cython.detector "max" 3 tab 1 3 2 4 5 6 [] []
    "!" true true true false false 0
    [pairs_line ["r1"; "chr1"; "100"; "chr2"]%string]
    (lib_dedup.initial dedup_cython.detector "max" 3 false)
  = ([], Raise ValueError).
Proof.
  eapply (short_line_raises pairsam dedup_cython.detector "max" 3 tab 1 3 2
            4 5 6 [] [] "!" true true true false false 0).
  - reflexivity.
  - reflexivity.
  - vm_compute. reflexivity.
  - vm_compute. lia.
Defined.

Lemma online_empty_stream_witness : online_run [] = ([], Ok tt).
Proof.
  apply (online_empty_stream pairsam dedup_cython.detector "max" 3 tab 1 3 2
           4 5 6 [] [] "!" true true true false false 0); reflexivity.
Defined.

Lemma unmapped_line_passthrough_witness :
  fst (lib_dedup.process_line pairsam dedup_cython.detector "max" 3 tab
         1 3 2 4 5 6 [] [] "!" true true false false false 0
         (lib_dedup.initial dedup_cython.detector "max" 3 false)
         (strip_newline unmapped_bad_position_line))
  = [write unmapped_sink (strip_newline unmapped_bad_position_line);
     write unmapped_sink (String newline "")].
Proof.
  erewrite (unmapped_line_passthrough pairsam dedup_cython.detector "max" 3
              tab 1 3 2 4 5 6 [] [] "!" true true false false false 0).
  - reflexivity.
  - reflexivity.
  - reflexivity.
  - vm_compute. reflexivity.
  - vm_compute. lia.
  - reflexivity.
  - vm_compute. discriminate.
Defined.

(* ================================================================== *)
(** * Marking a line as a duplicate *)

Lemma nth_update_eq {A : Type} (l : list A) (k : nat) (x d : A) :
  k < length l -> nth k (update l k x) d = x.
Proof.
  revert k. induction l as [|y l IH]; intros [|k] H; simpl in *;
    try lia; auto. apply IH. lia.
Qed.

Lemma nth_update_neq {A : Type} (l : list A) (k j : nat) (x d : A) :
  j <> k -> nth j (update l k x) d = nth j l d.
Proof.
  revert k j. induction l as [|y l IH]; intros [|k] [|j] H; simpl;
    try reflexivity; try congruence. apply IH. congruence.
Qed.

Lemma getitem_Z_last {A : Type} (l : list A) (d : A) :
  l <> [] -> getitem_Z l (-1) = Ok (nth (length l - 1) l d).
Proof.
  intros Hl. unfold getitem_Z.
  destruct l as [|x l]; [congruence|].
  replace (0 <=? -1)%Z with false by reflexivity.
  assert (H : (- Z.of_nat (length (x :: l)) <=? -1)%Z = true).
  { apply Z.leb_le. cbn [length]. lia. }
  rewrite H.
  replace (Z.to_nat (Z.of_nat (length (x :: l)) + -1))
    with (length (x :: l) - 1) by (cbn [length]; lia).
  apply getitem_nth. cbn [length]. lia.
Qed.

Lemma getitem_Z_nil {A : Type} : getitem_Z (@nil A) (-1) = Raise IndexError.
Proof. reflexivity. Qed.

Lemma length_mark_tags (j : nat) (samcols : list string) :
  length (lib_dedup.mark_tags j samcols) = length samcols.
Proof.
  revert j. induction samcols as [|c l IH]; intros j; simpl; auto.
Qed.

Lemma nth_mark_tags (j i : nat) (samcols : list string) :
  nth i (lib_dedup.mark_tags j samcols) ""%string
  = if (11 <=? j + i) && startswith (nth i samcols ""%string) "Yt:Z:"
    then "Yt:Z:DD"%string else nth i samcols ""%string.
Proof.
  revert j i. induction samcols as [|c l IH]; intros j i.
  - destruct i; simpl; now rewrite Bool.andb_false_r.
  - destruct i as [|i]; cbn [lib_dedup.mark_tags nth].
    + now rewrite Nat.add_0_r.
    + rewrite IH. now replace (S j + i) with (j + S i) by lia.
Qed.

Section marking.

Variable fmt : pairsam_format.

(** X15.  On a line without the two SAM columns, [mark_split_pair_as_dup]
    changes the pair type column to "DD" and nothing else; a newline that
    ended the line is kept when the pair type is the last column. *)
Theorem mark_pair_without_sam (cols : list string) :
  COL_PTYPE fmt < length cols ->
  length cols <= COL_SAM1 fmt \/ length cols <= COL_SAM2 fmt ->
  lib_dedup.mark_split_pair_as_dup fmt cols
  = Ok (update cols (COL_PTYPE fmt)
          (if endswith (nth (length cols - 1) cols ""%string)
                (String newline "")
              && (COL_PTYPE fmt =? length cols - 1)
           then ("DD" ++ String newline "")%string else "DD"%string)).
Proof.
  intros Hp Hsam. unfold lib_dedup.mark_split_pair_as_dup.
  assert (Hne : cols <> []) by (intros ->; simpl in Hp; lia).
  rewrite (getitem_Z_last cols ""%string Hne). cbn [rbind].
  unfold setitem at 1. apply Nat.ltb_lt in Hp as Hp'. rewrite Hp'.
  cbn [rbind]. rewrite length_update.
  assert (Hs : (COL_SAM1 fmt <? length cols) && (COL_SAM2 fmt <? length cols)
               = false).
  { apply Bool.andb_false_iff.
    destruct Hsam; [left|right]; apply Nat.ltb_ge; lia. }
  rewrite Hs. cbn [rbind].
  assert (Hne' : update cols (COL_PTYPE fmt) "DD"%string <> []).
  { intros E. apply (f_equal (@length _)) in E.
    rewrite length_update in E. simpl in E. lia. }
  rewrite (getitem_Z_last _ ""%string Hne'). cbn [rbind].
  rewrite length_update.
  destruct (Nat.eqb_spec (COL_PTYPE fmt) (length cols - 1)) as [E|E].
  - rewrite <- E. rewrite nth_update_eq by lia.
    replace (endswith "DD" (String newline "")) with false by reflexivity.
    rewrite Bool.andb_true_r. cbn [negb].
    destruct (endswith _ _); [|reflexivity].
    unfold setitem. rewrite length_update. rewrite Hp'. f_equal.
    clear. generalize (COL_PTYPE fmt) as k. intros k. revert k.
    induction cols as [|y l IH]; intros [|k]; simpl; try reflexivity.
    now rewrite IH.
  - rewrite nth_update_neq by congruence.
    rewrite Bool.andb_false_r.
    now destruct (endswith _ _).
Qed.

(** X16.  On a line with no pair type column, [mark_split_pair_as_dup]
    raises [IndexError]. *)
Theorem mark_pair_short_line (cols : list string) :
  length cols <= COL_PTYPE fmt ->
  lib_dedup.mark_split_pair_as_dup fmt cols = Raise IndexError.
Proof.
  intros H. unfold lib_dedup.mark_split_pair_as_dup.
  destruct cols as [|c cols]; [reflexivity|].
  rewrite (getitem_Z_last (c :: cols) ""%string) by discriminate.
  cbn [rbind]. unfold setitem at 1.
  apply Nat.ltb_ge in H. rewrite H. reflexivity.
Qed.

(** X17.  [mark_sam_as_dup] on a SAM entry of several fields with an integer
    flag: the result has the same fields, with bit 1024 set in the flag and
    every pair type tag among the optional fields (the twelfth on) replaced
    by "Yt:Z:DD"; the other mandatory fields are unchanged. *)
Theorem mark_sam_as_dup_fields (sam : string) (samcols : list string)
  (flag : Z) :
  split sam (SAM_SEP fmt) = Ok samcols ->
  1 < length samcols ->
  int (nth 1 samcols ""%string) = Ok flag ->
  exists marked,
    lib_dedup.mark_sam_as_dup fmt sam = Ok (join (SAM_SEP fmt) marked)
    /\ length marked = length samcols
    /\ nth 1 marked ""%string = str (Z.lor flag 1024)
    /\ Z.testbit (Z.lor flag 1024) 10 = true
    /\ (forall j, j < 11 -> j <> 1 ->
          nth j marked ""%string = nth j samcols ""%string)
    /\ (forall j, 11 <= j ->
          nth j marked ""%string
          = if startswith (nth j samcols ""%string) "Yt:Z:"
            then "Yt:Z:DD"%string else nth j samcols ""%string).
Proof.
  intros Hsplit Hlen Hint.
  exists (lib_dedup.mark_tags 0 (update samcols 1 (str (Z.lor flag 1024)))).
  unfold lib_dedup.mark_sam_as_dup. rewrite Hsplit. cbn [rbind].
  assert (H1 : (length samcols =? 1) = false) by (apply Nat.eqb_neq; lia).
  rewrite H1, (getitem_nth samcols 1 ""%string Hlen). cbn [rbind].
  rewrite Hint. cbn [rbind]. unfold setitem.
  apply Nat.ltb_lt in Hlen as Hlt. rewrite Hlt. cbn [rbind].
  split; [reflexivity|].
  split; [now rewrite length_mark_tags, length_update|].
  split.
  { rewrite nth_mark_tags. cbn [Nat.add Nat.leb andb].
    now apply nth_update_eq. }
  split.
  { rewrite Z.lor_spec. replace (Z.testbit 1024 10) with true by reflexivity.
    apply Bool.orb_true_r. }
  split.
  - intros j Hj Hj1. rewrite nth_mark_tags. cbn [Nat.add].
    assert (E : (11 <=? j) = false) by (apply Nat.leb_gt; lia).
    rewrite E. cbn [andb]. now apply nth_update_neq.
  - intros j Hj. rewrite nth_mark_tags. cbn [Nat.add].
    assert (E : (11 <=? j) = true) by (apply Nat.leb_le; lia).
    rewrite E. cbn [andb].
    rewrite nth_update_neq by lia. reflexivity.
Qed.

End marking.

Lemma mark_pair_without_sam_witness :
  lib_dedup.mark_split_pair_as_dup pairsam
    ["r1"; "chr1"; "100"; "chr2"; "200"; "+"; "-"; "UU"]%string
  = Ok ["r1"; "chr1"; "100"; "chr2"; "200"; "+"; "-"; "DD"]%string.
Proof.
  rewrite (mark_pair_without_sam pairsam).
  - reflexivity.
  - vm_compute. lia.
  - left. vm_compute. lia.
Defined.

Lemma mark_pair_short_line_witness :
  lib_dedup.mark_split_pair_as_dup pairsam ["r1"; "chr1"; "100"]%string
  = Raise IndexError.
Proof.
  apply (mark_pair_short_line pairsam). vm_compute. lia.
Defined.

Lemma mark_sam_as_dup_fields_witness :
  exists marked,
    lib_dedup.mark_sam_as_dup pairsam (sam_entry tagged_sam)
    = Ok (join (SAM_SEP pairsam) marked)
    /\ length marked = length tagged_sam
    /\ nth 1 marked ""%string = str (Z.lor 65 1024)
    /\ Z.testbit (Z.lor 65 1024) 10 = true
    /\ (forall j, j < 11 -> j <> 1 ->
          nth j marked ""%string = nth j tagged_sam ""%string)
    /\ (forall j, 11 <= j ->
          nth j marked ""%string
          = if startswith (nth j tagged_sam ""%string) "Yt:Z:"
            then "Yt:Z:DD"%string else nth j tagged_sam ""%string).
Proof.
  apply (mark_sam_as_dup_fields pairsam (sam_entry tagged_sam) tagged_sam 65).
  - vm_compute. reflexivity.
  - vm_compute. lia.
  - vm_compute. reflexivity.
Defined.

(* ================================================================== *)
(** * What the online driver writes *)

Lemma text_written_app (s : sink) (t1 t2 : list event) :
  text_written s (t1 ++ t2) = text_written s t1 ++ text_written s t2.
Proof.
  induction t1 as [|e t1 IH]; simpl; [reflexivity|].
  destruct e; auto. destruct (sink_eqb s s0); [|auto].
  simpl. now rewrite IH.
Qed.

Lemma unique_lines_app (xs ys : list (string * bool)) :
  unique_lines (xs ++ ys) = unique_lines xs ++ unique_lines ys.
Proof. apply flat_map_app. Qed.

Lemma count_dups_app (r1 r2 : list bool) :
  count_dups (r1 ++ r2) = count_dups r1 + count_dups r2.
Proof. unfold count_dups. now rewrite filter_app, length_app. Qed.

Lemma length_unique_lines (l : list string) (res : list bool) :
  length res = length l ->
  length (unique_lines (combine l res)) + 2 * count_dups res = 2 * length l.
Proof.
  revert res. induction l as [|x l IH]; intros [|b res] H; simpl in *;
    try lia.
  specialize (IH res ltac:(lia)). unfold count_dups in *.
  destruct b; simpl; lia.
Qed.

Lemma length_flat_map_line_out (l : list string) :
  length (flat_map line_out l) = 2 * length l.
Proof.
  induction l as [|x l IH]; [reflexivity|].
  cbn [flat_map line_out app length]. lia.
Qed.

Section online_writes.

Variable fmt : pairsam_format.
Variable D : OnlineDuplicateDetector.

Variables (method : string) (max_mismatch : Z) (sep : string)
  (c1ind c2ind p1ind p2ind s1ind s2ind : nat)
  (extra_cols1 extra_cols2 : list nat) (unmapped_chrom : string)
  (outstream_unmapped out_stat mark_dups keep_parent_id : bool)
  (readid_ind : nat).

Local Notation unmapped_side :=
  (has_unmapped_side c1ind c2ind unmapped_chrom).

Local Notation paired st :=
  (length (lib_dedup.line_buffer D st) = length (lib_dedup.cols_buffer D st)).

Local Notation flush :=
  (lib_dedup.flush fmt D sep c1ind c2ind p1ind p2ind s1ind s2ind
     true out_stat mark_dups keep_parent_id readid_ind).

Local Notation process_line :=
  (lib_dedup.process_line fmt D method max_mismatch sep c1ind c2ind p1ind
     p2ind s1ind s2ind extra_cols1 extra_cols2 unmapped_chrom true
     outstream_unmapped out_stat mark_dups keep_parent_id readid_ind).

Local Notation loop :=
  (lib_dedup.loop fmt D method max_mismatch sep c1ind c2ind p1ind p2ind
     s1ind s2ind extra_cols1 extra_cols2 unmapped_chrom true
     outstream_unmapped out_stat mark_dups keep_parent_id readid_ind).

Local Notation mapped_lines instream :=
  (map fst (filter (fun x => negb (unmapped_side (snd x)))
              (lines_read sep instream))).

Local Notation unmapped_lines instream :=
  (map fst (filter (fun x => unmapped_side (snd x))
              (lines_read sep instream))).

(** The report to the statistics sink writes to no stream. *)
Lemma stat_writes_nothing (cols : list string) (tag : option string)
  (tr : list event) (s : sink) :
  (if out_stat
   then lib_dedup.report fmt c1ind c2ind p1ind p2ind s1ind s2ind cols tag
   else io_ret tt) = (tr, Ok tt) ->
  text_written s tr = [].
Proof.
  destruct out_stat; intros H.
  - apply report_Ok in H. now subst tr.
  - unfold io_ret in H. now injection H as <-.
Qed.

Lemma stat_getitem_writes_nothing (cb : list (list string)) (i : nat)
  (tag : option string) (tr : list event) (s : sink) :
  (if out_stat
   then io_bind (lift (getitem cb i))
          (fun cols =>
             lib_dedup.report fmt c1ind c2ind p1ind p2ind s1ind s2ind cols
               tag)
   else io_ret tt) = (tr, Ok tt) ->
  text_written s tr = [].
Proof.
  destruct out_stat; intros H.
  - apply io_bind_Ok in H. destruct H as [t1 [cols [r1 [H1 [H ->]]]]].
    apply lift_Ok in H1. destruct H1 as [_ ->].
    apply report_Ok in H. now subst r1.
  - unfold io_ret in H. now injection H as <-.
Qed.

(** One pass of the loop over the detector's marks: one line, on the unique
    stream or on the duplicates stream. *)
Lemma emit_one_writes (i : nat) (dup : bool) (parents : list Z)
  (lb : list string) (cb cb' : list (list string)) (tr : list event) :
  lib_dedup.emit_one fmt sep c1ind c2ind p1ind p2ind s1ind s2ind
    true out_stat mark_dups keep_parent_id readid_ind i dup parents
    lb cb = (tr, Ok cb') ->
  length lb = length cb ->
  i < length lb
  /\ length cb' = length cb
  /\ text_written unique_sink tr
     = (if dup then [] else line_out (nth i lb ""%string))
  /\ length (text_written dups_sink tr) = (if dup then 2 else 0)
  /\ text_written unmapped_sink tr = [].
Proof.
  unfold lib_dedup.emit_one. intros H Hlen. destruct dup; cbn [negb] in H.
  - apply io_bind_Ok in H. destruct H as [t1 [[] [r1 [H1 [H ->]]]]].
    pose proof (stat_getitem_writes_nothing _ _ _ _ unique_sink H1) as U1.
    pose proof (stat_getitem_writes_nothing _ _ _ _ dups_sink H1) as D1.
    pose proof (stat_getitem_writes_nothing _ _ _ _ unmapped_sink H1) as N1.
    apply io_bind_Ok in H. destruct H as [t3 [oc [r3 [H3 [H ->]]]]].
    apply io_bind_Ok in H. destruct H as [t4 [output [r4 [H4 [H ->]]]]].
    apply io_bind_Ok in H. destruct H as [t5 [[] [r5 [H5 [H ->]]]]].
    apply io_bind_Ok in H. destruct H as [t6 [[] [r6 [H6 [H ->]]]]].
    apply lift_Ok in H3, H4. destruct H3 as [H3 ->], H4 as [H4 ->].
    unfold emit in H5, H6. injection H5 as <-. injection H6 as <-.
    unfold io_ret in H. injection H as <- <-.
    rewrite !text_written_app, U1, D1, N1. simpl.
    assert (Hi : i < length lb /\ length (snd oc) = length cb).
    { destruct mark_dups.
      - apply rbind_Ok in H3. destruct H3 as [c0 [G H3]].
        apply (getitem_Ok _ _ []) in G. destruct G as [G _].
        apply rbind_Ok in H3. destruct H3 as [c1 [_ H3]].
        injection H3 as <-. simpl. rewrite length_update. lia.
      - apply rbind_Ok in H3. destruct H3 as [l0 [G H3]].
        apply (getitem_Ok _ _ ""%string) in G. destruct G as [G _].
        injection H3 as <-. simpl. lia. }
    tauto.
  - apply io_bind_Ok in H. destruct H as [t1 [line [r1 [H1 [H ->]]]]].
    apply io_bind_Ok in H. destruct H as [t2 [[] [r2 [H2 [H ->]]]]].
    apply io_bind_Ok in H. destruct H as [t3 [[] [r3 [H3 [H ->]]]]].
    apply io_bind_Ok in H. destruct H as [t4 [[] [r4 [H4 [H ->]]]]].
    pose proof (stat_getitem_writes_nothing _ _ _ _ unique_sink H4) as U4.
    pose proof (stat_getitem_writes_nothing _ _ _ _ dups_sink H4) as D4.
    pose proof (stat_getitem_writes_nothing _ _ _ _ unmapped_sink H4) as N4.
    apply lift_Ok in H1. destruct H1 as [H1 ->].
    apply (getitem_Ok _ _ ""%string) in H1. destruct H1 as [Hi ->].
    unfold emit in H2, H3. injection H2 as <-. injection H3 as <-.
    unfold io_ret in H. injection H as <- <-.
    rewrite !text_written_app, U4, D4, N4. simpl. auto.
Qed.

Lemma emit_all_writes (res : list bool) :
  forall (i : nat) (parents : list Z) (lb : list string)
    (cb cb' : list (list string)) (tr : list event),
    lib_dedup.emit_all fmt sep c1ind c2ind p1ind p2ind s1ind s2ind
      true out_stat mark_dups keep_parent_id readid_ind i res parents
      lb cb = (tr, Ok cb') ->
    length lb = length cb ->
    i <= length lb ->
    i + length res <= length lb
    /\ length cb' = length cb
    /\ text_written unique_sink tr = unique_lines (combine (skipn i lb) res)
    /\ length (text_written dups_sink tr) = 2 * count_dups res
    /\ text_written unmapped_sink tr = [].
Proof.
  induction res as [|dup res IH]; intros i parents lb cb cb' tr H Hlen Hile.
  - simpl in H. unfold io_ret in H. injection H as <- <-.
    rewrite combine_nil. simpl. rewrite Nat.add_0_r. auto.
  - cbn [lib_dedup.emit_all] in H.
    apply io_bind_Ok in H. destruct H as [t1 [cb1 [t2 [H1 [H2 ->]]]]].
    destruct (emit_one_writes _ _ _ _ _ _ _ H1 Hlen)
      as [Hi [Hl1 [U1 [D1 N1]]]].
    destruct (IH (S i) parents lb cb1 cb' t2 H2 ltac:(lia) ltac:(lia))
      as [Hle [Hl2 [U2 [D2 N2]]]].
    rewrite !text_written_app, U1, U2, N1, N2, length_app, D1, D2.
    rewrite (skipn_cons_nth i lb ""%string) by assumption.
    cbn [length combine].
    split; [lia|]. split; [lia|]. split; [reflexivity|].
    split; [|reflexivity].
    unfold count_dups. destruct dup; cbn [filter length]; lia.
Qed.

(** A flush writes the lines of a prefix of the buffer and drops them from
    the buffer; at the end of the stream the prefix is the whole buffer. *)
Lemma flush_writes (at_end : bool) (st st' : lib_dedup.state D)
  (tr : list event) :
  flush at_end st = (tr, Ok st') ->
  paired st ->
  exists res,
    length res <= length (lib_dedup.line_buffer D st)
    /\ text_written unique_sink tr
       = unique_lines (combine (lib_dedup.line_buffer D st) res)
    /\ length (text_written dups_sink tr) = 2 * count_dups res
    /\ text_written unmapped_sink tr = []
    /\ lib_dedup.line_buffer D st'
       = skipn (length res) (lib_dedup.line_buffer D st)
    /\ paired st'
    /\ (at_end = true -> length res = length (lib_dedup.line_buffer D st)).
Proof.
  intros H Hlen. unfold lib_dedup.flush in H.
  apply io_bind_Ok in H. destruct H as [t1 [a1 [r1 [H1 [H ->]]]]].
  apply io_bind_Ok in H. destruct H as [t2 [a2 [r2 [H2 [H ->]]]]].
  apply io_bind_Ok in H. destruct H as [t3 [a3 [r3 [H3 [H ->]]]]].
  apply io_bind_Ok in H. destruct H as [t4 [a4 [r4 [H4 [H ->]]]]].
  apply io_bind_Ok in H. destruct H as [t5 [a5 [r5 [H5 [H ->]]]]].
  apply io_bind_Ok in H. destruct H as [t6 [a6 [r6 [H6 [H ->]]]]].
  apply lift_Ok in H1, H2, H3, H4, H5, H6.
  destruct H1 as [_ ->], H2 as [_ ->], H3 as [_ ->], H4 as [_ ->],
    H5 as [_ ->], H6 as [_ ->].
  cbv zeta in H.
  set (pushed := push D (lib_dedup.dd D st) a1 a2 a3 a4 a5 a6) in *.
  set (finished := finish D (fst pushed)) in *.
  set (res := if at_end then fst (snd pushed) ++ fst (snd finished)
              else fst (snd pushed)) in *.
  set (parents := if at_end then snd (snd pushed) ++ snd (snd finished)
                  else snd (snd pushed)) in *.
  apply io_bind_Ok in H. destruct H as [t7 [cb1 [r7 [H7 [H ->]]]]].
  apply io_bind_Ok in H. destruct H as [t8 [[] [r8 [H8 [H ->]]]]].
  apply lift_Ok in H8. destruct H8 as [H8 ->].
  unfold io_ret in H. injection H as <- <-.
  destruct (emit_all_writes res 0 parents _ _ _ _ H7 Hlen (Nat.le_0_l _))
    as [Hle [Hl1 [HU [HD HN]]]].
  simpl in Hle, HU.
  exists res. simpl. rewrite !app_nil_r.
  split; [lia|]. split; [assumption|]. split; [assumption|].
  split; [assumption|]. split; [reflexivity|].
  split; [rewrite !length_skipn; lia|].
  intros ->. simpl in H8.
  destruct (length (skipn (length res) (lib_dedup.line_buffer D st)) =? 0)
    eqn:E; [|discriminate].
  apply Nat.eqb_eq in E. rewrite length_skipn in E. lia.
Qed.

(** One line: it joins the buffer or goes to the unmapped stream, and a
    prefix of the buffer may be written out. *)
Lemma process_line_writes (st st' : lib_dedup.state D) (s : string)
  (tr : list event) :
  process_line st s = (tr, Ok st') ->
  paired st ->
  exists res cols,
    split s sep = Ok cols
    /\ length res
       <= length (lib_dedup.line_buffer D st
                  ++ (if unmapped_side cols then [] else [s]))
    /\ text_written unique_sink tr
       = unique_lines
           (combine (lib_dedup.line_buffer D st
                     ++ (if unmapped_side cols then [] else [s])) res)
    /\ length (text_written dups_sink tr) = 2 * count_dups res
    /\ text_written unmapped_sink tr
       = (if unmapped_side cols && outstream_unmapped then line_out s
          else [])
    /\ lib_dedup.line_buffer D st'
       = skipn (length res)
           (lib_dedup.line_buffer D st
            ++ (if unmapped_side cols then [] else [s]))
    /\ paired st'.
Proof.
  intros H Hc. unfold lib_dedup.process_line in H.
  apply io_bind_Ok in H. destruct H as [t1 [cols [r1 [H1 [H ->]]]]].
  apply lift_Ok in H1. destruct H1 as [Hsplit ->].
  apply io_bind_Ok in H. destruct H as [t2 [[] [r2 [H2 [H ->]]]]].
  apply lift_Ok in H2. destruct H2 as [_ ->].
  apply io_bind_Ok in H. destruct H as [t3 [k1 [r3 [H3 [H ->]]]]].
  apply io_bind_Ok in H. destruct H as [t4 [k2 [r4 [H4 [H ->]]]]].
  apply lift_Ok in H3, H4. destruct H3 as [H3 ->], H4 as [H4 ->].
  apply (getitem_Ok _ _ ""%string) in H3, H4.
  destruct H3 as [_ ->], H4 as [_ ->].
  apply io_bind_Ok in H. destruct H as [t5 [st1 [r5 [H5 [H ->]]]]].
  simpl app. cbv zeta in H.
  fold (unmapped_side cols) in H5.
  assert (Hbranch :
            text_written unique_sink t5 = []
            /\ text_written dups_sink t5 = []
            /\ text_written unmapped_sink t5
               = (if unmapped_side cols && outstream_unmapped
                  then line_out s else [])
            /\ lib_dedup.line_buffer D st1
               = lib_dedup.line_buffer D st
                 ++ (if unmapped_side cols then [] else [s])
            /\ paired st1).
  { destruct (unmapped_side cols) eqn:Hu.
    - apply io_bind_Ok in H5. destruct H5 as [t6 [[] [r6 [H6 [H5 ->]]]]].
      unfold io_ret in H5. injection H5 as <- <-.
      unfold lib_dedup.unmapped_line in H6.
      apply io_bind_Ok in H6. destruct H6 as [t7 [[] [r7 [H7 [H6 ->]]]]].
      pose proof (stat_writes_nothing _ _ _ unique_sink H6) as U6.
      pose proof (stat_writes_nothing _ _ _ dups_sink H6) as D6.
      pose proof (stat_writes_nothing _ _ _ unmapped_sink H6) as N6.
      rewrite !app_nil_r, !text_written_app, U6, D6, N6, !app_nil_r.
      cbn [andb].
      destruct outstream_unmapped.
      + apply io_bind_Ok in H7. destruct H7 as [t8 [[] [r8 [H8 [H7 ->]]]]].
        unfold emit in H7, H8. injection H7 as <-. injection H8 as <-.
        simpl. auto.
      + unfold io_ret in H7. injection H7 as <-. simpl. auto.
    - apply lift_Ok in H5. destruct H5 as [H5 ->].
      apply mapped_line_Ok in H5. destruct H5 as [Hl1 Hc1].
      cbn [andb]. rewrite Hl1, Hc1, !length_app. simpl.
      repeat split; auto; lia. }
  destruct Hbranch as [HU5 [HD5 [HN5 [Hb1 Hc1]]]].
  set (st2 := lib_dedup.mk_state D _ _ _ _ _ _ _ _ _ _ _ _ _ _) in H.
  assert (Hb2 : lib_dedup.line_buffer D st2 = lib_dedup.line_buffer D st1)
    by reflexivity.
  assert (Hc2 : paired st2) by exact Hc1.
  destruct (length (lib_dedup.c1 D st2) =? _).
  - destruct (flush_writes false _ _ _ H Hc2)
      as [res [Hle [HU [HD [HN [Hb [Hc' _]]]]]]].
    exists res, cols. rewrite Hb2, Hb1 in *.
    rewrite !text_written_app, HU5, HD5, HN5. cbn [app].
    rewrite HU, HD, HN, ?app_nil_r. auto 10.
  - unfold io_ret in H. injection H as <- <-.
    exists [], cols. rewrite combine_nil, !app_nil_r.
    rewrite HU5, HD5, HN5, Hb2, Hb1. simpl.
    repeat split; auto; try lia. rewrite <- Hb1. exact Hc1.
Qed.

(** The whole loop: every buffered or later mapped line is written once, to
    the unique stream or to the duplicates stream, and every line with an
    unmapped side goes to the unmapped stream. *)
Lemma loop_writes (instream : list string) :
  forall (st st' : lib_dedup.state D) (tr : list event),
    loop instream st = (tr, Ok st') ->
    paired st ->
    exists res,
      length res
      = length (lib_dedup.line_buffer D st ++ mapped_lines instream)
      /\ text_written unique_sink tr
         = unique_lines
             (combine (lib_dedup.line_buffer D st ++ mapped_lines instream)
                res)
      /\ length (text_written dups_sink tr) = 2 * count_dups res
      /\ text_written unmapped_sink tr
         = (if outstream_unmapped
            then flat_map line_out (unmapped_lines instream) else []).
Proof.
  induction instream as [|rawline instream IH]; intros st st' tr H Hc.
  - cbn [lib_dedup.loop] in H.
    destruct (flush_writes true _ _ _ H Hc)
      as [res [_ [HU [HD [HN [_ [_ He]]]]]]].
    exists res. simpl. rewrite app_nil_r.
    destruct outstream_unmapped; auto.
  - cbn [lib_dedup.loop lines_read] in *.
    destruct (lib_dedup.is_empty rawline).
    { destruct (flush_writes true _ _ _ H Hc)
        as [res [_ [HU [HD [HN [_ [_ He]]]]]]].
      exists res. simpl. rewrite app_nil_r.
      destruct outstream_unmapped; auto. }
    destruct (lib_dedup.is_empty (strip_newline rawline)).
    { eapply IH; eauto. }
    apply io_bind_Ok in H. destruct H as [t1 [st1 [t2 [H1 [H2 ->]]]]].
    destruct (process_line_writes _ _ _ _ H1 Hc)
      as [res1 [cols [Hsplit [Hle [HU1 [HD1 [HN1 [Hb1 Hc1]]]]]]]].
    destruct (IH _ _ _ H2 Hc1) as [res2 [Hl2 [HU2 [HD2 HN2]]]].
    rewrite Hsplit. cbn [filter snd].
    exists (res1 ++ res2).
    rewrite !text_written_app, HU1, HU2, HN1, HN2.
    rewrite (length_app (text_written dups_sink t1)), HD1, HD2.
    rewrite count_dups_app, Hb1.
    rewrite Hb1 in Hl2. rewrite length_app, length_skipn in Hl2.
    destruct (unmapped_side cols) eqn:Hu; cbn [negb andb map fst].
    + rewrite app_nil_r in *. split; [rewrite !length_app in *; lia|].
      split.
      { rewrite combine_app_split by assumption.
        now rewrite unique_lines_app. }
      split; [lia|].
      destruct outstream_unmapped; reflexivity.
    + split; [rewrite !length_app in *; simpl in *; lia|].
      split.
      { rewrite <- unique_lines_app. f_equal.
        rewrite <- combine_app_split by assumption.
        now rewrite <- app_assoc. }
      split; [lia|reflexivity].
Qed.

(** X18.  With a duplicates stream, a run of [streaming_dedup_cython] that
    ends normally has written every line it read, once: the mapped lines
    that are not marked go to the unique stream, verbatim and in input
    order, each followed by a newline; every marked line puts one line on
    the duplicates stream; the lines with an unmapped side go verbatim and
    in input order to the unmapped stream, when there is one. *)
Theorem online_lines_written (instream : list string) (tr : list event) :
  lib_dedup.streaming_dedup_cython fmt D method max_mismatch sep c1ind c2ind
    p1ind p2ind s1ind s2ind extra_cols1 extra_cols2 unmapped_chrom
    true outstream_unmapped out_stat mark_dups keep_parent_id
    readid_ind instream = (tr, Ok tt) ->
  exists res,
    length res = length (mapped_lines instream)
    /\ text_written unique_sink tr
       = unique_lines (combine (mapped_lines instream) res)
    /\ length (text_written dups_sink tr) = 2 * count_dups res
    /\ text_written unmapped_sink tr
       = (if outstream_unmapped
          then flat_map line_out (unmapped_lines instream) else []).
Proof.
  unfold lib_dedup.streaming_dedup_cython. intros H.
  apply io_bind_Ok in H. destruct H as [t1 [st' [t2 [H1 [H2 ->]]]]].
  unfold io_ret in H2. injection H2 as <-. rewrite app_nil_r.
  apply loop_writes in H1; [exact H1|reflexivity].
Qed.

(** X19.  With a duplicates stream and an unmapped stream, a run of
    [streaming_dedup_cython] that ends normally writes as many lines as it
    read: two pieces of text, the line and its newline, for every line. *)
Theorem online_lines_conserved (instream : list string) (tr : list event) :
  outstream_unmapped = true ->
  lib_dedup.streaming_dedup_cython fmt D method max_mismatch sep c1ind c2ind
    p1ind p2ind s1ind s2ind extra_cols1 extra_cols2 unmapped_chrom
    true outstream_unmapped out_stat mark_dups keep_parent_id
    readid_ind instream = (tr, Ok tt) ->
  length (text_written unique_sink tr) + length (text_written dups_sink tr)
  + length (text_written unmapped_sink tr)
  = 2 * length (lines_read sep instream).
Proof.
  intros Hun H. unfold lib_dedup.streaming_dedup_cython in H.
  apply io_bind_Ok in H. destruct H as [t1 [st' [t2 [H1 [H2 ->]]]]].
  unfold io_ret in H2. injection H2 as <-. rewrite app_nil_r.
  apply loop_writes in H1; [|reflexivity].
  destruct H1 as [res [Hl [HU [HD HN]]]]. simpl in Hl, HU.
  rewrite HU, HD, HN, Hun.
  pose proof (length_unique_lines _ _ Hl) as Hcount.
  rewrite length_map in Hcount.
  assert (Hu : length (flat_map line_out (unmapped_lines instream))
               = 2 * length (filter (fun x => unmapped_side (snd x))
                               (lines_read sep instream))).
  { now rewrite length_flat_map_line_out, length_map. }
  rewrite Hu.
  pose proof (filter_length (fun x => unmapped_side (snd x))
                (lines_read sep instream)) as Hf.
  cbv beta in Hf. lia.
Qed.

End online_writes.

Lemma online_lines_written_witness :
  exists res,
    length res
    = length (map fst
                (filter (fun x => negb (has_unmapped_side 1 3 "!" (snd x)))
                   (lines_read tab mapped_then_unmapped_lines)))
    /\ text_written unique_sink (fst (online_run mapped_then_unmapped_lines))
       = unique_lines
           (combine
              (map fst
                 (filter (fun x => negb (has_unmapped_side 1 3 "!" (snd x)))
                    (lines_read tab mapped_then_unmapped_lines))) res)
    /\ length (text_written dups_sink
                 (fst (online_run mapped_then_unmapped_lines)))
       = 2 * count_dups res
    /\ text_written unmapped_sink
         (fst (online_run mapped_then_unmapped_lines))
       = flat_map line_out
           (map fst
              (filter (fun x => has_unmapped_side 1 3 "!" (snd x))
                 (lines_read tab mapped_then_unmapped_lines))).
Proof.
  apply (online_lines_written pairsam dedup_cython.detector "max" 3 tab
           1 3 2 4 5 6 [] [] "!" true true false false 0
           mapped_then_unmapped_lines).
  vm_compute. reflexivity.
Defined.

Lemma online_lines_conserved_witness :
  length (text_written unique_sink
            (fst (online_run mapped_then_unmapped_lines)))
  + length (text_written dups_sink
              (fst (online_run mapped_then_unmapped_lines)))
  + length (text_written unmapped_sink
              (fst (online_run mapped_then_unmapped_lines)))
  = 2 * length (lines_read tab mapped_then_unmapped_lines).
Proof.
  apply (online_lines_conserved pairsam dedup_cython.detector "max" 3 tab
           1 3 2 4 5 6 [] [] "!" true true false false 0
           mapped_then_unmapped_lines).
  - reflexivity.
  - vm_compute. reflexivity.
Defined.

(* ================================================================== *)
(** * The batch backend of [pairtools_dedup.py] *)

Lemma shape0_cons (f : list row) (fs : list (list row)) :
  shape0 (f :: fs) = length f + shape0 fs.
Proof.
  unfold shape0. simpl.
  generalize (length f) as a. induction fs as [|g fs IH]; intros a; simpl.
  - lia.
  - rewrite IH, (IH (length g)). lia.
Qed.

(** X20.  [dedup_chunk] of [pairtools_dedup.py] and [_dedup_chunk] of
    [lib/dedup.py] mark alike: on the same arguments they fail alike, and the
    older one returns the frame of the newer one with the index reset. *)
Theorem dedup_chunk_versions_agree (df : list pair) (r : Z)
  (method : string) (keep : bool) (extra : list (string * string))
  (backend um : string) :
  pairtools_dedup.dedup_chunk df r method keep extra backend um
  = (out <- lib_dedup._dedup_chunk df r method keep extra backend um ;;
     Ok (relabel out)).
Proof.
  unfold pairtools_dedup.dedup_chunk, lib_dedup._dedup_chunk.
  destruct (method_norm method) as [p|]; [|reflexivity]. cbn [rbind].
  destruct (clusterid_column backend _ r p extra); reflexivity.
Qed.

Section old_batch.

Variables (method : string) (mark_dups : bool) (max_mismatch : Z)
  (extra_col_pairs : list (string * string)) (save_parent_id : bool)
  (backend : string).

Lemma dedup_by_chunk_first_frame (df : list pair) (marked : list row)
  (nodups : list pair) (i : nat) :
  pairtools_dedup._dedup_by_chunk_step method mark_dups max_mismatch
    extra_col_pairs save_parent_id backend [] 0 df = Ok (marked, nodups, i) ->
  length marked = length df.
Proof.
  unfold pairtools_dedup._dedup_by_chunk_step. intros H.
  apply rbind_Ok in H. destruct H as [out [Hout H]].
  injection H as <- _ _.
  assert (Hlen : length out = length df).
  { unfold pairtools_dedup.dedup_chunk in Hout.
    pose proof (dedup_chunk_versions_agree df max_mismatch method
                  save_parent_id extra_col_pairs backend "!") as Hv.
    unfold pairtools_dedup.dedup_chunk in Hv. simpl app in Hout.
    rewrite Hv in Hout. apply rbind_Ok in Hout.
    destruct Hout as [out0 [H0 Hr]]. injection Hr as <-.
    rewrite length_relabel. eapply length_dedup_chunk; eauto. }
  destruct mark_dups; rewrite ?length_map, length_relabel; simpl; exact Hlen.
Qed.

(** X21.  On a body that is not empty, [streaming_dedup] of
    [pairtools_dedup.py] ends normally whenever the iteration over
    [_dedup_by_chunk] does: the division of its closing [print] fails on an
    empty body only. *)
Theorem streaming_dedup_nonempty_ends_normally (unmapped_chrom : string)
  (outstream_dups outstream_unmapped out_stat : bool)
  (in_stream : list pair) (chunksize : nat) :
  in_stream <> [] ->
  snd (pairtools_dedup._dedup_by_chunk method mark_dups max_mismatch
         extra_col_pairs save_parent_id backend in_stream chunksize)
  = Ok tt ->
  snd (pairtools_dedup.streaming_dedup method mark_dups max_mismatch
         extra_col_pairs save_parent_id backend unmapped_chrom
         outstream_dups outstream_unmapped out_stat in_stream chunksize)
  = Ok tt.
Proof.
  intros Hne H. unfold pairtools_dedup.streaming_dedup. cbv zeta.
  cbn [snd]. rewrite H. cbn [rbind].
  unfold pairtools_dedup._dedup_by_chunk, read_table in *.
  destruct chunksize as [|n]; [discriminate|]. cbn [Nat.eqb] in *.
  assert (Hn : 0 < S n) by lia.
  pose proof (concat_chunks_fuel (length in_stream) (S n) in_stream Hn
                (Nat.le_refl _)) as Hconcat.
  destruct (chunks_fuel_sizes (length in_stream) (S n) in_stream Hn
              (Nat.le_refl _)) as [Hsizes _].
  destruct (chunks_fuel (length in_stream) (S n) in_stream) as [|df dfs].
  { simpl in Hconcat. congruence. }
  inversion Hsizes as [|a b Hdf _]; subst.
  cbn [pairtools_dedup._dedup_by_chunk_loop] in *.
  destruct (pairtools_dedup._dedup_by_chunk_step _ _ _ _ _ _ [] 0 df)
    as [[[marked nodups] i]|e] eqn:Hstep; [|discriminate].
  apply dedup_by_chunk_first_frame in Hstep.
  cbn [fst]. rewrite shape0_cons. unfold pairtools_dedup.time_per_mln_pairs.
  assert (E : (length marked + shape0
                 (fst (pairtools_dedup._dedup_by_chunk_loop method mark_dups
                         max_mismatch extra_col_pairs save_parent_id backend
                         dfs nodups i)) =? 0) = false)
    by (apply Nat.eqb_neq; lia).
  rewrite E. reflexivity.
Qed.

End old_batch.

Lemma streaming_dedup_nonempty_ends_normally_witness :
  snd (pairtools_dedup.streaming_dedup "max" true 3 [] true "scipy" "!"
         true true false across_chunks 2) = Ok tt.
Proof.
  apply (streaming_dedup_nonempty_ends_normally "max" true 3 [] true "scipy"
           "!" true true false across_chunks 2).
  - discriminate.
  - vm_compute. reflexivity.
Defined.
